(** * Data Sweeper Pro: a shallow embedding of [app.py]

    The program is a Streamlit page over pandas.  The embedding has four
    layers, each in its own module:

    - [Pandas]: the dataframe operations the page calls
      ([drop_duplicates], [fillna], [mean], [median], [mode], [dropna],
      [select_dtypes], column selection), as pure functions on a
      column-oriented [DataFrame];
    - [Python]: a state-and-exception monad over the objects of one
      script run: the heap of [DataFrame] objects (so that an in-place
      update is seen through every alias), [st.session_state], and the
      elements rendered on the page;
    - [App]: [process_file], [handle_data_cleaning] and, of [main], the
      column selection, the chart and the conversion, written in that
      monad, given the values of their widgets;
    - [Main]: [main] itself, one run of the script: the loop over the
      uploaded files with the session cache and the overview of each
      file, over a screen that also keeps the calls that only show text
      ([st.title], [st.metric], ...) and the elements Streamlit has
      registered in the run, so that a second call of the same element
      is refused as Streamlit refuses it.  [st.expander] and
      [st.columns] only lay out the page and are left out.

    Modelling choices, fixed here once:
    - the source pins no version of pandas.  What differs between the
      versions it can run on is a parameter, [installed_pandas]:
      whether [df[col]] is a view of the column or, under copy-on-write,
      an object of its own, and the floating-point arithmetic of [mean]
      and [median], of which nothing is assumed;
    - a [float64] cell is NaN ([None]), an infinity, or a finite value
      given by the rational it is; no arithmetic is done on cells
      outside [installed_pandas], only comparison;
    - [int64] and [float64] columns are one kind, [Numeric]; an [int64]
      column is a [Numeric] column without NaN;
    - what the user has set in the widgets ([st.button],
      [st.selectbox], ...) is an argument; the reading and writing of
      file formats are arguments that may fail. *)

From stdpp Require Import base numbers list strings gmap sorting.
From Stdlib Require Import QArith Qcanon Ascii.
From Stdlib Require Strings.Byte.

Local Open Scope Qc_scope.

(** Closed equations between values that hold rationals are decided by
    evaluation: the canonicity proofs inside [Qc] do not reduce to the
    same term, so [reflexivity] alone is not enough. *)
Ltac by_evaluation :=
  apply (bool_decide_eq_true_1 _); vm_compute; reflexivity.

(* ================================================================== *)
(** * Python strings *)

Module PyStr.

(** [s.endswith(suffix)] *)
Definition endswith (s suffix : string) : bool :=
  let n := String.length s in
  let k := String.length suffix in
  if (n <? k)%nat then false
  else String.eqb (String.substring (n - k) k s) suffix.

(** [s.split(sep)] for a one-character separator: always at least one
    field, empty fields kept. *)
Fixpoint split (sep : Ascii.ascii) (s : string) : list string :=
  match s with
  | EmptyString => [EmptyString]
  | String c s' =>
      if Ascii.eqb c sep then EmptyString :: split sep s'
      else match split sep s' with
           | w :: ws => String c w :: ws
           | [] => [String c EmptyString]
           end
  end.

Definition dot : Ascii.ascii := "."%char.

(** [c in s] *)
Fixpoint contains (c : Ascii.ascii) (s : string) : bool :=
  match s with
  | EmptyString => false
  | String c' s' => Ascii.eqb c' c || contains c s'
  end.

End PyStr.

(* ================================================================== *)
(** * pandas *)

Module Pandas.

(** ** Floats *)

(** A [float64] that is not NaN; NaN is the missing marker, [None] in a
    column.  A finite value is taken as the rational it is; the two
    signed zeros are one value, as they are for [==]. *)
Inductive float64 :=
| Finite (q : Qc)
| PosInf
| NegInf.

Global Instance float64_eq_dec : EqDecision float64.
Proof. solve_decision. Defined.

(** [x <= y] on floats that are not NaN. *)
Definition float64_le (x y : float64) : Prop :=
  match x, y with
  | NegInf, _ => True
  | _, PosInf => True
  | Finite a, Finite b => a ≤ b
  | _, _ => False
  end.

Global Instance float64_le_dec x y : Decision (float64_le x y).
Proof. destruct x, y; simpl; apply _. Defined.

Global Instance float64_le_total : Total float64_le.
Proof.
  intros [a| |] [b| |]; simpl; try tauto.
  destruct (total Qcle a b); tauto.
Qed.

Global Instance float64_le_refl : Reflexive float64_le.
Proof. intros [a| |]; simpl; [reflexivity|done..]. Qed.

Global Instance float64_le_trans : Transitive float64_le.
Proof.
  intros [a| |] [b| |] [c| |]; simpl; try tauto. apply Qcle_trans.
Qed.

Global Instance float64_le_antisymm : AntiSymm eq float64_le.
Proof.
  intros [a| |] [b| |]; simpl; try tauto.
  intros ? ?. f_equal. by apply Qcle_antisym.
Qed.

(** ** The installed pandas *)

(** What the page leaves to the pandas, and the numpy below it, that
    happens to be installed: the source pins no version. *)
Class installed_pandas := {
  (** Copy-on-write: the rule since pandas 3.0, before that an option
      that is off unless set. *)
  copy_on_write : bool;
  (** The float64 mean of the values of a non-empty list; the order of
      the additions and the rounding are the library's.  [None] is
      NaN. *)
  float_mean : list float64 → option float64;
  (** The float64 mean of the two middle values of an even count. *)
  float_midpoint : float64 → float64 → option float64;
}.

(** ** Tables *)

(** A column.  [None] in a [Numeric] or [Object] column is the missing
    marker (NaN); a [Boolean] column has none. *)
Inductive Series :=
| Numeric (values : list (option float64))
| Boolean (values : list bool)
| Object (values : list (option string)).

(** One entry of a column, tagged with its kind. *)
Inductive cell :=
| cnum (v : option float64)
| cbool (b : bool)
| cobj (v : option string).

Global Instance Series_eq_dec : EqDecision Series.
Proof. solve_decision. Defined.
Global Instance cell_eq_dec : EqDecision cell.
Proof. solve_decision. Defined.

(** Row labels are kept by every row selection, as pandas does: after
    [drop_duplicates] the index of a frame has gaps. *)
Record DataFrame := mkDataFrame {
  index : list nat;
  columns : list (string * Series);
}.

Global Instance DataFrame_eq_dec : EqDecision DataFrame.
Proof. solve_decision. Defined.

Definition column_names (df : DataFrame) : list string := (columns df).*1.

Definition Series_len (s : Series) : nat :=
  match s with
  | Numeric vs => length vs
  | Boolean vs => length vs
  | Object vs => length vs
  end.

(** The invariant of a table: unique column labels, and every column as
    long as the index.  [read_csv] and [read_excel] establish it (they
    rename repeated header names). *)
Definition well_formed (df : DataFrame) : Prop :=
  NoDup (column_names df) ∧
  Forall (λ c, Series_len c.2 = length (index df)) (columns df).

Global Instance well_formed_dec df : Decision (well_formed df).
Proof. unfold well_formed. apply _. Defined.

(** ** dtypes *)

(** [df.select_dtypes(include='number')] keeps integer and float
    columns; booleans are excluded. *)
Definition is_number (s : Series) : bool :=
  match s with Numeric _ => true | _ => false end.

(** [pd.api.types.is_numeric_dtype]: booleans count as numeric here. *)
Definition is_numeric_dtype (s : Series) : bool :=
  match s with Numeric _ | Boolean _ => true | Object _ => false end.

(** [df.select_dtypes(include='number').columns] *)
Definition select_dtypes_number (df : DataFrame) : list string :=
  (filter (λ c, is_number c.2 = true) (columns df)).*1.

(** ** Column lookup *)

(** [df[col]] for a single label. *)
Fixpoint lookup_column (col : string) (cs : list (string * Series))
  : option Series :=
  match cs with
  | [] => None
  | (name, s) :: cs' =>
      if decide (name = col) then Some s else lookup_column col cs'
  end.

(** Assignment to the column labelled [col]. *)
Fixpoint replace_column (col : string) (s' : Series)
    (cs : list (string * Series)) : list (string * Series) :=
  match cs with
  | [] => []
  | (name, s) :: cs' =>
      if decide (name = col) then (name, s') :: cs'
      else (name, s) :: replace_column col s' cs'
  end.

Definition set_column (col : string) (s' : Series) (df : DataFrame)
  : DataFrame :=
  {| index := index df; columns := replace_column col s' (columns df) |}.

(** [df[cols]] for a list of labels: for each requested label, in the
    order requested, every column that carries it; [None] (a
    [KeyError]) when a label is absent. *)
Fixpoint select_columns (cols : list string) (cs : list (string * Series))
  : option (list (string * Series)) :=
  match cols with
  | [] => Some []
  | col :: cols' =>
      match filter (λ c, c.1 = col) cs with
      | [] => None
      | found =>
          match select_columns cols' cs with
          | Some rest => Some (found ++ rest)
          | None => None
          end
      end
  end.

Definition getitem_list (df : DataFrame) (cols : list string)
  : option DataFrame :=
  match select_columns cols (columns df) with
  | Some cs => Some {| index := index df; columns := cs |}
  | None => None
  end.

(** ** Statistics of a numeric column ([skipna=True]) *)

(** The non-missing entries, in column order. *)
Definition present (vs : list (option float64)) : list float64 :=
  omap id vs.

(** [Series.mean()]: NaN when nothing is present, otherwise the float
    mean of what is. *)
Definition mean `{pd : installed_pandas} (vs : list (option float64))
  : option float64 :=
  match present vs with
  | [] => None
  | xs => float_mean xs
  end.

(** [Series.median()]: the middle of the sorted present values, the
    float mean of the two middle ones for an even count, NaN for none. *)
Definition median `{pd : installed_pandas} (vs : list (option float64))
  : option float64 :=
  let xs := merge_sort float64_le (present vs) in
  let n := length xs in
  if decide (n = 0)%nat then None
  else if Nat.even n then
    match xs !! (n / 2 - 1)%nat, xs !! (n / 2)%nat with
    | Some a, Some b => float_midpoint a b
    | _, _ => None
    end
  else xs !! (n / 2)%nat.

(** How often [x] occurs. *)
Definition occurrences (x : float64) (xs : list float64) : nat :=
  length (filter (λ y, y = x) xs).

Definition max_occurrences (xs : list float64) : nat :=
  max_list ((λ x, occurrences x xs) <$> xs).

(** [Series.mode()]: the most frequent present values, each once,
    in ascending order; empty when nothing is present. *)
Definition mode (vs : list (option float64)) : list float64 :=
  let xs := present vs in
  merge_sort float64_le
    (remove_dups (filter (λ x, occurrences x xs = max_occurrences xs) xs)).

(** ** Filling *)

(** [Series.fillna(value)] on float data: every NaN becomes [value]
    (which may itself be NaN). *)
Definition fill (value : option float64) (v : option float64)
  : option float64 :=
  match v with
  | Some x => Some x
  | None => value
  end.

Definition fillna (value : option float64) (s : Series) : Series :=
  match s with
  | Numeric vs => Numeric (fill value <$> vs)
  | other => other
  end.

(** The values of a column for the statistics: the page only asks for
    them on the columns [select_dtypes] returned. *)
Definition numeric_values (s : Series) : list (option float64) :=
  match s with
  | Numeric vs => vs
  | _ => []
  end.

(** ** Row selection by a boolean mask *)

(** [a[mask]]: the entries where the mask is [true], in order. *)
Fixpoint boolean_index {A} (mask : list bool) (l : list A) : list A :=
  match mask, l with
  | b :: mask', x :: l' =>
      if b then x :: boolean_index mask' l' else boolean_index mask' l'
  | _, _ => []
  end.

Definition Series_boolean_index (mask : list bool) (s : Series) : Series :=
  match s with
  | Numeric vs => Numeric (boolean_index mask vs)
  | Boolean vs => Boolean (boolean_index mask vs)
  | Object vs => Object (boolean_index mask vs)
  end.

(** [df[mask]]: rows keep their labels. *)
Definition loc_mask (mask : list bool) (df : DataFrame) : DataFrame :=
  {| index := boolean_index mask (index df);
     columns := prod_map id (Series_boolean_index mask) <$> columns df |}.

(** ** Rows *)

Definition Series_iloc (s : Series) (i : nat) : option cell :=
  match s with
  | Numeric vs => cnum <$> vs !! i
  | Boolean vs => cbool <$> vs !! i
  | Object vs => cobj <$> vs !! i
  end.

(** Row [i] by position: one entry per column. *)
Definition row (df : DataFrame) (i : nat) : list (option cell) :=
  (λ c, Series_iloc c.2 i) <$> columns df.

Definition rows (df : DataFrame) : list (list (option cell)) :=
  row df <$> seq 0 (length (index df)).

(** ** Duplicates *)

(** [duplicated(keep='first')]: one pass that remembers the rows seen;
    a row is marked when an equal row was seen before.  Missing
    entries compare equal to each other. *)
Fixpoint duplicated_from (seen : list (list (option cell)))
    (rs : list (list (option cell))) : list bool :=
  match rs with
  | [] => []
  | r :: rs' =>
      if decide (r ∈ seen) then true :: duplicated_from seen rs'
      else false :: duplicated_from (r :: seen) rs'
  end.

Definition duplicated (df : DataFrame) : list bool :=
  duplicated_from [] (rows df).

(** [df.drop_duplicates()] is [df[~df.duplicated()]]. *)
Definition drop_duplicates (df : DataFrame) : DataFrame :=
  loc_mask (negb <$> duplicated df) df.

(** ** Dropping rows with missing values *)

Definition Series_isna (s : Series) (i : nat) : bool :=
  match s with
  | Numeric vs => bool_decide (vs !! i = Some None)
  | Boolean _ => false
  | Object vs => bool_decide (vs !! i = Some None)
  end.

(** Row [i] has a missing entry in one of the columns of [subset]. *)
Definition row_has_na (subset : list string) (df : DataFrame) (i : nat)
  : bool :=
  existsb (λ c, bool_decide (c.1 ∈ subset) && Series_isna c.2 i)
          (columns df).

(** [df.dropna(subset=subset)] *)
Definition dropna (subset : list string) (df : DataFrame) : DataFrame :=
  loc_mask ((λ i, negb (row_has_na subset df i))
              <$> seq 0 (length (index df))) df.

(** ** Row selection by position *)



(** The position of the [p]-th [true] of a mask, counting from 0. *)
Fixpoint nth_true (mask : list bool) (p : nat) : option nat :=
  match mask with
  | [] => None
  | b :: mask' =>
      if b then
        match p with
        | 0%nat => Some 0%nat
        | S p' => S <$> nth_true mask' p'
        end
      else S <$> nth_true mask' p
  end.




End Pandas.

(* ================================================================== *)
(** * One run of the script: objects, session state, page *)

Module Python.
Import Pandas.

(** Every exception met here derives from [Exception]; [exc_str] is
    what [str(e)] gives. *)
Record exception := Exception { exc_class : string; exc_str : string }.

Definition KeyError (key : string) : exception :=
  Exception "KeyError" key.

(** What Streamlit is asked to draw, in call order. *)
Inductive element :=
| st_error (msg : string)
| st_warning (msg : string)
| st_success (msg : string)
| st_write (msg : string)
| st_bar_chart (data : DataFrame)
| st_line_chart (data : DataFrame)
| st_scatter_chart (data : DataFrame)
| st_pyplot_hist (data : Series)
| st_download_button (label : string) (data : list Byte.byte)
                     (file_name mime : string).

Global Instance byte_eq_dec : EqDecision Byte.byte :=
  Stdlib.Strings.Byte.byte_eq_dec.
Global Instance exception_eq_dec : EqDecision exception.
Proof. solve_decision. Defined.
Global Instance element_eq_dec : EqDecision element.
Proof. solve_decision. Defined.

(** A [DataFrame] variable holds a reference into the heap. *)
Definition ref := nat.

Record world := World {
  heap : list DataFrame;
  (** the [df_...] entries of [st.session_state]; [None] is Python's
      [None], stored when a file could not be read *)
  session_state : gmap string (option ref);
  page : list element;
}.

Inductive outcome (A : Type) :=
| Return (a : A)
| Raise (e : exception).
Arguments Return {A} a.
Arguments Raise {A} e.

Global Instance world_eq_dec : EqDecision world.
Proof.
  intros [h1 s1 p1] [h2 s2 p2].
  destruct (decide (h1 = h2)), (decide (s1 = s2)), (decide (p1 = p2));
    [left; congruence | right; congruence ..].
Defined.
Global Instance outcome_eq_dec `{EqDecision A} : EqDecision (outcome A).
Proof. solve_decision. Defined.

(** Effects persist when an exception is raised. *)
Definition Py (A : Type) : Type := world → world * outcome A.

Definition ret {A} (a : A) : Py A := λ w, (w, Return a).

Definition bind {A B} (m : Py A) (k : A → Py B) : Py B :=
  λ w, match m w with
       | (w', Return a) => k a w'
       | (w', Raise e) => (w', Raise e)
       end.

Definition raise {A} (e : exception) : Py A := λ w, (w, Raise e).

(** [try: body  except Exception as e: handler(e)] *)
Definition try_except {A} (body : Py A) (handler : exception → Py A)
  : Py A :=
  λ w, match body w with
       | (w', Return a) => (w', Return a)
       | (w', Raise e) => handler e w'
       end.

Global Instance Py_ret : MRet Py := @ret.
Global Instance Py_bind : MBind Py := λ A B k m, bind m k.

(** [for x in xs: body(x)] *)
Fixpoint for_each {A} (xs : list A) (body : A → Py unit) : Py unit :=
  match xs with
  | [] => ret tt
  | x :: xs' => body x ;; for_each xs' body
  end.

(** ** Heap *)

Definition set_heap (h : list DataFrame) (w : world) : world :=
  {| heap := h; session_state := session_state w; page := page w |}.

(** A new object. *)
Definition new (df : DataFrame) : Py ref :=
  λ w, (set_heap (heap w ++ [df]) w, Return (length (heap w))).

(** The object behind a reference.  References are only made by [new],
    so the failure branch is never taken in a run. *)
Definition deref (r : ref) : Py DataFrame :=
  λ w, match heap w !! r with
       | Some df => (w, Return df)
       | None => (w, Raise (Exception "ReferenceError" ""))
       end.

(** Mutation of the object behind [r], seen through every alias. *)
Definition store (r : ref) (df : DataFrame) : Py unit :=
  λ w, (set_heap (<[r := df]> (heap w)) w, Return tt).

Definition mutate (r : ref) (f : DataFrame → DataFrame) : Py unit :=
  df ← deref r; store r (f df).

(** ** Streamlit *)

Definition draw (e : element) : Py unit :=
  λ w, ({| heap := heap w; session_state := session_state w;
           page := page w ++ [e] |}, Return tt).

(** [st.session_state[key] = value] *)
Definition session_state_set (key : string) (value : option ref)
  : Py unit :=
  λ w, ({| heap := heap w;
           session_state := <[key := value]> (session_state w);
           page := page w |}, Return tt).

(** ** pandas calls on references *)

(** [df[col]] for one label: the column, read through the view. *)
Definition getitem (df : ref) (col : string) : Py Series :=
  t ← deref df;
  match lookup_column col (columns t) with
  | Some s => ret s
  | None => raise (KeyError col)
  end.

(** [df[col].fillna(value, inplace=True)]: the fill is made in the
    Series that [df[col]] returns.  Without copy-on-write that Series
    is a view of the column, and the fill is made in [df]; with
    copy-on-write it is a Series of its own, dropped after the call,
    and [df] is not reached. *)
Definition fillna_inplace `{pd : installed_pandas} (df : ref) (col : string)
    (value : option float64) : Py unit :=
  s ← getitem df col;
  if copy_on_write then mret tt
  else mutate df (set_column col (fillna value s)).

(** What an update [f] made through [df[col]] makes of the table behind
    [df]. *)
Definition through_view `{pd : installed_pandas}
    (f : DataFrame → DataFrame) (t : DataFrame) : DataFrame :=
  if copy_on_write then t else f t.

(** [modes[0]]: the mode result carries a fresh 0-based index, so the
    label [0] is present exactly when the result is not empty. *)
Definition getitem_0 (modes : list float64) : Py float64 :=
  match modes with
  | m :: _ => ret m
  | [] => raise (KeyError "0")
  end.

(** [df[cols]] for a list of labels: a new frame. *)
Definition getitem_columns (df : ref) (cols : list string) : Py ref :=
  t ← deref df;
  match getitem_list t cols with
  | Some t' => new t'
  | None => raise (KeyError "not in index")
  end.

End Python.

(* ================================================================== *)
(** * The page *)

Module App.
Import Pandas Python PyStr.

Record UploadedFile := {
  name : string;
  content : list Byte.byte;
}.

(** The options of the "Missing Values Strategy" select box. *)
Inductive missing_strategy :=
| StrategyNone
| Mean
| Median
| Mode
| DropRows.

Inductive chart_type := Bar | Line | Scatter | Histogram.

Inductive target_format := CSV | Excel.

Global Instance missing_strategy_eq_dec : EqDecision missing_strategy.
Proof. solve_decision. Defined.

(** ** File Ingestor *)

Section process_file.
(** [pd.read_csv] and [pd.read_excel] (first sheet by default), on the
    bytes of the upload: a table or the exception they raise. *)
Variable read_csv : list Byte.byte → exception + DataFrame.
Variable read_excel : list Byte.byte → exception + DataFrame.

Definition pd_read (parser : list Byte.byte → exception + DataFrame)
    (file : UploadedFile) : Py (option ref) :=
  match parser (content file) with
  | inl e => raise e
  | inr df => r ← new df; mret (Some r)
  end.

(** [process_file], lines 36-48. *)
Definition process_file (file : UploadedFile) : Py (option ref) :=
  try_except
    (if endswith (name file) ".csv" then pd_read read_csv file
     else if endswith (name file) ".xlsx" then pd_read read_excel file
     else
       draw (st_error ("Unsupported file type: " +:+ name file));;
       mret None)
    (λ e,
       draw (st_error ("Error processing " +:+ name file +:+ ": "
                       +:+ exc_str e));;
       mret None).
End process_file.

(** ** Cleaning Operations *)

(** [f'df_{key_suffix}']; the suffix is the formatted hash of the file
    name. *)
Definition df_key (key_suffix : string) : string := "df_" +:+ key_suffix.

(** The "Remove Duplicates" button and what it triggers, lines 55-58. *)
Definition removeDuplicates (df : ref) (key_suffix : string)
    (clicked : bool) : Py ref :=
  if clicked then
    t ← deref df;
    df' ← new (drop_duplicates t);
    session_state_set (df_key key_suffix) (Some df');;
    draw (st_success "Duplicates removed!");;
    mret df'
  else mret df.

(** The body of [for col in numeric_cols], lines 73-78.  Under
    'Drop Rows' no branch of the body applies. *)
Definition impute_column `{pd : installed_pandas}
    (strategy : missing_strategy) (df : ref) (col : string) : Py unit :=
  match strategy with
  | Mean =>
      c ← getitem df col;
      fillna_inplace df col (mean (numeric_values c))
  | Median =>
      c ← getitem df col;
      fillna_inplace df col (median (numeric_values c))
  | Mode =>
      c ← getitem df col;
      m ← getitem_0 (mode (numeric_values c));
      fillna_inplace df col (Some m)
  | StrategyNone | DropRows => mret tt
  end.

(** The strategy select box and what it triggers, lines 67-81. *)
Definition imputeMissing `{pd : installed_pandas} (df : ref)
    (key_suffix : string) (strategy : missing_strategy) : Py ref :=
  match strategy with
  | StrategyNone => mret df
  | _ =>
      t ← deref df;
      let numeric_cols := select_dtypes_number t in
      if decide (numeric_cols = []) then
        draw (st_warning "No numeric columns to fill!");;
        mret df
      else
        for_each numeric_cols (impute_column strategy df);;
        df ← match strategy with
             | DropRows => t' ← deref df; new (dropna numeric_cols t')
             | _ => mret df
             end;
        session_state_set (df_key key_suffix) (Some df);;
        mret df
  end.

(** [handle_data_cleaning], lines 50-82: the two blocks in turn, given
    what the button and the select box return.  The calls of the two
    elements are in [Main.cleaning_block]. *)
Definition handle_data_cleaning `{pd : installed_pandas} (df : ref)
    (key_suffix : string) (clicked : bool) (strategy : missing_strategy)
  : Py ref :=
  df ← removeDuplicates df key_suffix clicked;
  imputeMissing df key_suffix strategy.

(** ** Column Projector *)

(** [df = df[selected_cols]], line 129; the multiselect of lines 123-128
    offers the columns of [df] and starts with all of them, in order. *)
Definition project (df : ref) (selected_cols : list string) : Py ref :=
  getitem_columns df selected_cols.

(** ** Chart Renderer *)

(** The Y axis, line 142: the second select box is only shown when more
    than one column is selected. *)
Definition y_axis_for (selected_cols : list string)
    (x_axis y_choice : string) : string :=
  if decide (1 < length selected_cols)%nat then y_choice else x_axis.

(** The chart block, lines 133-153, given what its select boxes
    return; their calls are in [Main.chart_block].  Python's [and] does
    not look at the Y column when the X column is not numeric. *)
Definition visualization (df : ref) (selected_cols : list string)
    (chart : chart_type) (x_choice y_choice : string) : Py unit :=
  if decide (selected_cols = []) then
    draw (st_warning "Select columns to visualize")
  else
    let x_axis := x_choice in
    let y_axis := y_axis_for selected_cols x_axis y_choice in
    match chart with
    | Bar =>
        d ← getitem_columns df [x_axis; y_axis];
        t ← deref d;
        draw (st_bar_chart t)
    | Line =>
        d ← getitem_columns df [x_axis; y_axis];
        t ← deref d;
        draw (st_line_chart t)
    | Scatter =>
        draw (st_write "Scatter plots require numeric columns");;
        x ← getitem df x_axis;
        if is_numeric_dtype x then
          y ← getitem df y_axis;
          if is_numeric_dtype y then
            d ← getitem_columns df [x_axis; y_axis];
            t ← deref d;
            draw (st_scatter_chart t)
          else mret tt
        else mret tt
    | Histogram =>
        x ← getitem df x_axis;
        draw (st_pyplot_hist x)
    end.

(** ** Format Converter *)

(** [f"converted_{file.name.split('.')[0]}{ext}"], line 176. *)
Definition download_file_name (name ext : string) : string :=
  "converted_"
  +:+ match split dot name with
      | first :: _ => first
      | [] => ""
      end
  +:+ ext.

Definition extension (format : target_format) : string :=
  match format with
  | CSV => ".csv"
  | Excel => ".xlsx"
  end.

Definition mime_type (format : target_format) : string :=
  match format with
  | CSV => "text/csv"
  | Excel =>
      "application/vnd.openxmlformats-officedocument.spreadsheetml.sheet"
  end.

Definition format_label (format : target_format) : string :=
  match format with
  | CSV => "CSV"
  | Excel => "Excel"
  end.

Section conversion.
(** [df.to_csv(buffer, index=False)] and
    [df.to_excel(buffer, index=False, engine='openpyxl')]: the bytes
    written to the buffer, or the exception the writer raises. *)
Variable to_csv : DataFrame → exception + list Byte.byte.
Variable to_excel : DataFrame → exception + list Byte.byte.

(** The buffer of the conversion block, lines 163-171. *)
Definition export_bytes (df : ref) (format : target_format)
  : Py (list Byte.byte) :=
  t ← deref df;
  match match format with
        | CSV => to_csv t
        | Excel => to_excel t
        end with
  | inr bytes => mret bytes
  | inl e => raise e
  end.
End conversion.

(** The download button, lines 173-179. *)
Definition download_button (file_name : string) (format : target_format)
    (buffer : list Byte.byte) : Py unit :=
  draw (st_download_button ("Download " +:+ format_label format)
          buffer
          (download_file_name file_name (extension format))
          (mime_type format)).

End App.

(* ================================================================== *)
(** * The specification's vocabulary *)

Module Spec.
Import Pandas Python App.

Definition fill_strategy (s : missing_strategy) : Prop :=
  s = Mean ∨ s = Median ∨ s = Mode.

Global Instance fill_strategy_dec s : Decision (fill_strategy s).
Proof. unfold fill_strategy. apply _. Defined.

(** The value a strategy fills a column with: what pandas returns for
    the column's [mean()], [median()] or [mode()[0]]; [None] is NaN. *)
Definition statistic `{pd : installed_pandas} (s : missing_strategy)
    (vs : list (option float64)) : option float64 :=
  match s with
  | Mean => mean vs
  | Median => median vs
  | Mode => head (mode vs)
  | StrategyNone | DropRows => None
  end.

(** The least of the values that occur most often. *)
Definition is_least_mode (xs : list float64) (m : float64) : Prop :=
  m ∈ xs
  ∧ occurrences m xs = max_occurrences xs
  ∧ ∀ x, x ∈ xs → occurrences x xs = max_occurrences xs →
         float64_le m x.

(** "The first most frequent value": among the values that occur most
    often, the one met first in the column. *)
Definition first_most_frequent (vs : list (option float64))
  : option float64 :=
  let xs := present vs in
  head (filter (λ x, occurrences x xs = max_occurrences xs) xs).

(** The statistics as the specification words them. *)
Definition stated_statistic `{pd : installed_pandas} (s : missing_strategy)
    (vs : list (option float64)) : option float64 :=
  match s with
  | Mode => first_most_frequent vs
  | _ => statistic s vs
  end.

(** A column after imputation with [stat]: missing entries of a numeric
    column replaced, any other column as it was. *)
Definition imputed_column
    (stat : list (option float64) → option float64) (c : Series)
  : Series :=
  match c with
  | Numeric vs => Numeric (fill (stat vs) <$> vs)
  | other => other
  end.

(** "[imputeMissing] with strategy [s] fills table [t] with [stat]":
    from any state in which [df] is [t], the call returns [df], and
    [df] is then [t] with every column imputed, column by column. *)
Definition imputation_fills `{pd : installed_pandas}
    (stat : list (option float64) → option float64)
    (s : missing_strategy) (t : DataFrame) : Prop :=
  ∀ (w : world) (df : ref) (key_suffix : string),
    heap w !! df = Some t →
    ∃ w' t',
      imputeMissing df key_suffix s w = (w', Return df)
      ∧ heap w' = <[df := t']> (heap w)
      ∧ index t' = index t
      ∧ Forall2 (λ c c', c'.1 = c.1 ∧ c'.2 = imputed_column stat c.2)
                (columns t) (columns t').

(** A column that, if numeric, holds at least one value. *)
Definition has_value (c : Series) : Prop :=
  match c with
  | Numeric vs => present vs ≠ []
  | _ => True
  end.

Global Instance has_value_dec c : Decision (has_value c).
Proof. destruct c; apply _. Defined.

(** Every numeric column holds at least one value. *)
Definition numeric_columns_have_values (t : DataFrame) : Prop :=
  Forall (λ c, has_value c.2) (columns t).

Global Instance numeric_columns_have_values_dec t :
  Decision (numeric_columns_have_values t).
Proof. unfold numeric_columns_have_values. apply _. Defined.

(** A column for which, if numeric, the statistic of [s] is a number. *)
Definition has_statistic `{pd : installed_pandas} (s : missing_strategy)
    (c : Series) : Prop :=
  match c with
  | Numeric vs => is_Some (statistic s vs)
  | _ => True
  end.

Global Instance has_statistic_dec `{pd : installed_pandas} s c :
  Decision (has_statistic s c).
Proof. destruct c; apply _. Defined.

(** For every numeric column the statistic of [s] is a number, not
    NaN. *)
Definition statistics_are_numbers `{pd : installed_pandas}
    (s : missing_strategy) (t : DataFrame) : Prop :=
  Forall (λ c, has_statistic s c.2) (columns t).

Global Instance statistics_are_numbers_dec `{pd : installed_pandas} s t :
  Decision (statistics_are_numbers s t).
Proof. unfold statistics_are_numbers. apply _. Defined.

(** A column that, if numeric, has no missing entry. *)
Definition is_complete (c : Series) : Prop :=
  match c with
  | Numeric vs => None ∉ vs
  | _ => True
  end.

Global Instance is_complete_dec c : Decision (is_complete c).
Proof. destruct c; apply _. Defined.

(** No numeric column has a missing entry. *)
Definition numeric_columns_complete (t : DataFrame) : Prop :=
  Forall (λ c, is_complete c.2) (columns t).

Global Instance numeric_columns_complete_dec t :
  Decision (numeric_columns_complete t).
Proof. unfold numeric_columns_complete. apply _. Defined.

(** The state after the "no numeric columns" warning. *)
Definition warned (w : world) : world :=
  {| heap := heap w; session_state := session_state w;
     page := page w ++ [st_warning "No numeric columns to fill!"] |}.

(** The rows in which no numeric column is missing, as a mask. *)
Definition complete_rows (t : DataFrame) : list bool :=
  (λ i, negb (row_has_na (select_dtypes_number t) t i))
    <$> seq 0 (length (index t)).

(** The columns named in [cols] imputed, the others as they were: the
    table after the loop has gone through [cols]. *)
Definition fill_columns `{pd : installed_pandas} (s : missing_strategy)
    (cols : list string) (t : DataFrame) : DataFrame :=
  {| index := index t;
     columns :=
       (λ c, if decide (c.1 ∈ cols)
             then (c.1, imputed_column (statistic s) c.2)
             else c) <$> columns t |}.

(** "Column [c] is unchanged by [imputeMissing]": whatever the call
    returns holds column [c] as it was. *)
Definition column_unchanged `{pd : installed_pandas} (s : missing_strategy)
    (t : DataFrame) (c : string) : Prop :=
  ∀ (w w' : world) (df r : ref) (key_suffix : string),
    heap w !! df = Some t →
    imputeMissing df key_suffix s w = (w', Return r) →
    ∃ t', heap w' !! r = Some t'
          ∧ lookup_column c (columns t') = lookup_column c (columns t).

(** "Every numeric column without missing values is unchanged." *)
Definition complete_columns_unchanged `{pd : installed_pandas}
    (s : missing_strategy) (t : DataFrame) : Prop :=
  ∀ c vs,
    lookup_column c (columns t) = Some (Numeric vs) →
    None ∉ vs →
    column_unchanged s t c.

(** ** File Ingestor *)

(** What the ingestor hands to its caller, and what it reports. *)
Inductive ingest :=
| Table (t : DataFrame)
| NoTable (report : string).

Section file_ingestor.
Variable read_csv : list Byte.byte → exception + DataFrame.
Variable read_excel : list Byte.byte → exception + DataFrame.

(** A parse error is reported with the file name and the message. *)
Definition parse_with
    (parser : list Byte.byte → exception + DataFrame)
    (file : UploadedFile) : ingest :=
  match parser (content file) with
  | inr t => Table t
  | inl e =>
      NoTable ("Error processing " +:+ name file +:+ ": " +:+ exc_str e)
  end.

(** By extension: [.csv], else [.xlsx], else unsupported. *)
Definition file_ingestor (file : UploadedFile) : ingest :=
  if PyStr.endswith (name file) ".csv" then parse_with read_csv file
  else if PyStr.endswith (name file) ".xlsx"
       then parse_with read_excel file
  else NoTable ("Unsupported file type: " +:+ name file).
End file_ingestor.

(** ** Format Converter *)

(** A file name with its extension removed: the text before the last
    dot, the whole name when there is none. *)
Fixpoint remove_extension (s : string) : string :=
  match s with
  | EmptyString => EmptyString
  | String c s' =>
      if Ascii.eqb c PyStr.dot && negb (PyStr.contains PyStr.dot s')
      then EmptyString
      else String c (remove_extension s')
  end.

(** The file name as the convention words it. *)
Definition stated_file_name (name : string) (format : target_format)
  : string :=
  "converted_" +:+ remove_extension name +:+ extension format.

End Spec.

(* ================================================================== *)
(** * Sample tables *)

Module Examples.
Import Pandas Python App.

Definition num (z : Z) : option float64 := Some (Finite (Qc_of_Z z)).
Definition NaN : option float64 := None.

(** Arithmetic without rounding, for the examples: on their small
    numbers it is what float64 arithmetic gives. *)
Definition finite_values (xs : list float64) : list Qc :=
  omap (λ x, match x with Finite q => Some q | _ => None end) xs.

Definition Qc_sum (xs : list Qc) : Qc := foldr Qcplus 0 xs.

Definition Qc_of_nat (n : nat) : Qc := Qc_of_Z (Z.of_nat n).

Definition exact_mean (xs : list float64) : option float64 :=
  if decide (PosInf ∈ xs) then
    if decide (NegInf ∈ xs) then None else Some PosInf
  else if decide (NegInf ∈ xs) then Some NegInf
  else Some (Finite (Qc_sum (finite_values xs) / Qc_of_nat (length xs))).

(** A pandas before 3.0 with its defaults, and a pandas from 3.0 on. *)
Definition pandas_2 : installed_pandas :=
  {| copy_on_write := false;
     float_mean := exact_mean;
     float_midpoint := λ a b, exact_mean [a; b] |}.

Definition pandas_3 : installed_pandas :=
  {| copy_on_write := true;
     float_mean := exact_mean;
     float_midpoint := λ a b, exact_mean [a; b] |}.

(** The only object of a fresh run. *)
Definition world_with (t : DataFrame) : world :=
  {| heap := [t]; session_state := ∅; page := [] |}.

(** Two values tie for most frequent; the larger one comes first. *)
Definition tie : DataFrame :=
  {| index := [0; 1; 2; 3; 4]%nat;
     columns :=
       [("x", Numeric [num 3; num 3; num 1; num 1; NaN]);
        ("tag", Object [Some "a"; None; Some "c"; Some "d"; Some "e"])] |}.

Definition tie_filled : DataFrame :=
  {| index := [0; 1; 2; 3; 4]%nat;
     columns :=
       [("x", Numeric [num 3; num 3; num 1; num 1; num 1]);
        ("tag", Object [Some "a"; None; Some "c"; Some "d"; Some "e"])] |}.

(** Column [c] is complete, column [d] misses its first entry. *)
Definition gap : DataFrame :=
  {| index := [0; 1]%nat;
     columns := [("c", Numeric [num 1; num 2]);
                 ("d", Numeric [NaN; num 5])] |}.

Definition gap_dropped : DataFrame :=
  {| index := [1]%nat;
     columns := [("c", Numeric [num 2]); ("d", Numeric [num 5])] |}.

(** Column [y] holds nothing but missing entries. *)
Definition hollow : DataFrame :=
  {| index := [0; 1]%nat;
     columns := [("x", Numeric [num 3; NaN]);
                 ("y", Numeric [NaN; NaN])] |}.

(** Both infinities, and a missing entry. *)
Definition poles : DataFrame :=
  {| index := [0; 1; 2]%nat;
     columns := [("x", Numeric [Some PosInf; Some NegInf; NaN])] |}.

(** Only text. *)
Definition words : DataFrame :=
  {| index := [0; 1]%nat;
     columns := [("name", Object [Some "ann"; None]);
                 ("ok", Boolean [true; false])] |}.

(** The upload of the scenario: [y] is missing in the third row, the
    second row repeats the first. *)
Definition a_csv : DataFrame :=
  {| index := [0; 1; 2]%nat;
     columns := [("x", Numeric [num 1; num 1; num 3]);
                 ("y", Numeric [num 2; num 2; NaN])] |}.

(** The scenario's table after duplicate removal and Mean imputation. *)
Definition a_clean : DataFrame :=
  {| index := [0; 2]%nat;
     columns := [("x", Numeric [num 1; num 3]);
                 ("y", Numeric [num 2; num 2])] |}.

End Examples.

(* ================================================================== *)
(** * Terms of the further properties *)

Module Terms.
Import Pandas Python App Spec.

(** Two tables with the same schema: the same column labels in the same
    order, and the same ones numeric. *)
Definition same_schema (t t' : DataFrame) : Prop :=
  column_names t' = column_names t
  ∧ select_dtypes_number t' = select_dtypes_number t.

End Terms.

Module Frames.
Import Pandas Python App Spec.

(** [w'] is [w] with, at most, the object behind [df] replaced. *)
Definition only_df (df : ref) (w w' : world) : Prop :=
  ∃ h, w' = set_heap h w
       ∧ length h = length (heap w)
       ∧ ∀ r, r ≠ df → h !! r = heap w !! r.

(** From [w] to [w'] objects were only added and, of the old ones, at
    most the one behind [df] was changed; the session state was at most
    written at [key]; the page was only extended. *)
Definition touches_only (df : ref) (key : string) (w w' : world) : Prop :=
  (∃ h extra, heap w' = h ++ extra
              ∧ length h = length (heap w)
              ∧ ∀ r, r ≠ df → h !! r = heap w !! r)
  ∧ (∀ k, k ≠ key → session_state w' !! k = session_state w !! k)
  ∧ page w `prefix_of` page w'.

End Frames.

(* ================================================================== *)
(** * The page as a whole: [main] *)

Module Main.
Import Pandas Python App PyStr.

(** The display calls of [main] that carry no table and no message of
    the cleaning, chart or conversion blocks. *)
Inductive note :=
| st_title (text : string)
| st_markdown (text : string)
| st_info (text : string)
| st_subheader (text : string)
| st_metric (label : string) (value : nat).

(** The identity under which Streamlit registers an element that takes
    input: its key when the call gives one, otherwise what it is called
    with. *)
Inductive element_id :=
| Keyed (key : string)
| Unkeyed (kind label : string) (options : list string).

Global Instance note_eq_dec : EqDecision note.
Proof. solve_decision. Defined.
Global Instance element_id_eq_dec : EqDecision element_id.
Proof. solve_decision. Defined.

(** What Streamlit raises for an element whose identity is already
    registered in the run, under the names the exceptions have in its
    current releases. *)
Definition duplicate (id : element_id) : exception :=
  match id with
  | Keyed key => Exception "StreamlitDuplicateElementKey" key
  | Unkeyed kind label _ => Exception "StreamlitDuplicateElementId" label
  end.

(** One run of the script, with those calls and the elements
    registered so far: each note is kept with the number of elements
    that were on the page when it was made, so that the order of all
    display calls is kept.  Containers ([st.expander], [st.columns])
    are layout and are not modelled. *)
Record screen := Screen {
  run : world;
  notes : list (nat * note);
  registered : list element_id;
}.

Global Instance screen_eq_dec : EqDecision screen.
Proof. solve_decision. Defined.

Definition Ui (A : Type) : Type := screen → screen * outcome A.

Definition ui_ret {A} (a : A) : Ui A := λ s, (s, Return a).

Definition ui_bind {A B} (m : Ui A) (k : A → Ui B) : Ui B :=
  λ s, match m s with
       | (s', Return a) => k a s'
       | (s', Raise e) => (s', Raise e)
       end.

Global Instance Ui_ret : MRet Ui := @ui_ret.
Global Instance Ui_bind : MBind Ui := λ A B k m, ui_bind m k.

(** A computation on tables, session state and page, run on the screen. *)
Definition lift {A} (m : Py A) : Ui A :=
  λ s, match m (run s) with
       | (w', o) =>
           ({| run := w'; notes := notes s; registered := registered s |},
            o)
       end.

Definition show (n : note) : Ui unit :=
  λ s, ({| run := run s;
           notes := notes s ++ [(length (page (run s)), n)];
           registered := registered s |}, Return tt).

(** The call of an element that takes input: it is registered, or
    refused as a duplicate.  The value it returns is the user's and is
    an argument of the block that uses it. *)
Definition register (id : element_id) : Ui unit :=
  λ s, if decide (id ∈ registered s) then (s, Raise (duplicate id))
       else ({| run := run s; notes := notes s;
                registered := registered s ++ [id] |}, Return tt).

(** A run of the script starts with no element registered. *)
Definition new_run : Ui unit :=
  λ s, ({| run := run s; notes := notes s; registered := [] |},
        Return tt).

(** [for file in uploaded_files: body(file)] *)
Fixpoint for_each_file {A} (xs : list A) (body : A → Ui unit) : Ui unit :=
  match xs with
  | [] => mret tt
  | x :: xs' => body x ;; for_each_file xs' body
  end.

(** [st.session_state[key]] *)
Definition session_state_get (key : string) : Py (option ref) :=
  λ w, match session_state w !! key with
       | Some v => (w, Return v)
       | None => (w, Raise (KeyError key))
       end.

(** [key not in st.session_state] *)
Definition session_state_lacks (key : string) : Py bool :=
  λ w, (w, Return (bool_decide (session_state w !! key = None))).

(** [df.isna().sum().sum()]: the missing entries of all columns. *)
Definition Series_isna_sum (s : Series) : nat :=
  match s with
  | Numeric vs => length (filter (λ v, v = None) vs)
  | Boolean _ => 0
  | Object vs => length (filter (λ v, v = None) vs)
  end.

Definition isna_sum (t : DataFrame) : nat :=
  sum_list (Series_isna_sum <$> (columns t).*2).

(** What the user has set in the widgets of one file.  A multiselect
    that was not touched gives its default. *)
Record widgets := {
  remove_duplicates_clicked : bool;
  missing_strategy_choice : missing_strategy;
  columns_choice : option (list string);
  chart_choice : chart_type;
  x_choice : string;
  y_choice : string;
  format_choice : target_format;
}.

(** ** The elements of the page that take input *)

(** [st.file_uploader("Upload Files (CSV/XLSX)", ...)], line 88. *)
Definition uploader_id : element_id :=
  Unkeyed "file_uploader" "Upload Files (CSV/XLSX)" ["csv"; "xlsx"].

(** [st.button(f"Remove Duplicates ({key_suffix})")], line 55. *)
Definition button_id (key_suffix : string) : element_id :=
  Unkeyed "button" ("Remove Duplicates (" +:+ key_suffix +:+ ")") [].

(** The select box of line 61, [key=f'missing_{key_suffix}']. *)
Definition strategy_id (key_suffix : string) : element_id :=
  Keyed ("missing_" +:+ key_suffix).

(** The multiselect of line 123, [key=f'cols_{file_key}']. *)
Definition columns_id (file_key : string) : element_id :=
  Keyed ("cols_" +:+ file_key).

(** The select box of line 136, [key=f'chart_{file_key}']. *)
Definition chart_id (file_key : string) : element_id :=
  Keyed ("chart_" +:+ file_key).

(** [st.selectbox("X Axis", selected_cols)] and
    [st.selectbox("Y Axis", selected_cols)], lines 141 and 142: no
    key. *)
Definition x_axis_id (selected_cols : list string) : element_id :=
  Unkeyed "selectbox" "X Axis" selected_cols.

Definition y_axis_id (selected_cols : list string) : element_id :=
  Unkeyed "selectbox" "Y Axis" selected_cols.

(** The radio of line 157, [key=f'format_{file_key}']. *)
Definition format_id (file_key : string) : element_id :=
  Keyed ("format_" +:+ file_key).

(** The download button of line 173, [key=f'dl_{file_key}']. *)
Definition download_id (file_key : string) : element_id :=
  Keyed ("dl_" +:+ file_key).

(** The overview of a table, lines 110-117. *)
Definition overview (t : DataFrame) : list note :=
  [st_subheader "File Overview";
   st_metric "Rows" (length (index t));
   st_metric "Columns" (length (columns t));
   st_metric "Missing Values" (isna_sum t)].

(** Where a run stands after the first lines of [main], and after the
    overview of a table. *)
Definition opened (s : screen) : screen :=
  {| run := run s;
     notes :=
       notes s
       ++ [(length (page (run s)), st_title "📊 Data Sweeper Pro");
           (length (page (run s)),
            st_markdown
              "Advanced data processing and transformation toolkit")];
     registered := [uploader_id] |}.

Definition with_overview (t : DataFrame) (s : screen) : screen :=
  {| run := run s;
     notes := notes s ++ ((λ n, (length (page (run s)), n)) <$> overview t);
     registered := registered s |}.

(** The elements the chart block registers for a selection. *)
Definition chart_ids (file_key : string) (selected_cols : list string)
  : list element_id :=
  if decide (selected_cols = []) then []
  else chart_id file_key :: x_axis_id selected_cols
       :: if decide (1 < length selected_cols)%nat
          then [y_axis_id selected_cols] else [].

(** The elements the block of one file registers when it runs to its
    end, in the order of their calls. *)
Definition file_ids (file_key : string) (selected_cols : list string)
  : list element_id :=
  [button_id file_key; strategy_id file_key; columns_id file_key]
  ++ chart_ids file_key selected_cols
  ++ [format_id file_key; download_id file_key].

(** ** The blocks of a file, in a run *)

(** [handle_data_cleaning] in a run: the button and the select box are
    registered where the source calls them. *)
Definition cleaning_block `{pd : installed_pandas} (df : ref)
    (key_suffix : string) (clicked : bool) (strategy : missing_strategy)
  : Ui ref :=
  register (button_id key_suffix);;
  df ← lift (removeDuplicates df key_suffix clicked);
  register (strategy_id key_suffix);;
  lift (imputeMissing df key_suffix strategy).

(** The chart block, lines 132-153: its select boxes are only called
    when a column is selected, the one for the Y axis only when more
    than one is. *)
Definition chart_block (df : ref) (file_key : string)
    (selected_cols : list string) (chart : chart_type)
    (x_choice y_choice : string) : Ui unit :=
  (if decide (selected_cols = []) then mret tt
   else
     register (chart_id file_key);;
     register (x_axis_id selected_cols);;
     if decide (1 < length selected_cols)%nat
     then register (y_axis_id selected_cols)
     else mret tt);;
  lift (visualization df selected_cols chart x_choice y_choice).

Section main.
Context `{pd : installed_pandas}.
Variable read_csv : list Byte.byte → exception + DataFrame.
Variable read_excel : list Byte.byte → exception + DataFrame.
Variable to_csv : DataFrame → exception + list Byte.byte.
Variable to_excel : DataFrame → exception + list Byte.byte.
(** [hash(file.name)], formatted as in the f-strings of the keys. *)
Variable hash : string → string.
(** The widgets of a file are found by its name and the hash of it. *)
Variable ui : string → widgets.

(** The conversion block, lines 156-179. *)
Definition conversion_block (df : ref) (file_key file_name : string)
    (format : target_format) : Ui unit :=
  register (format_id file_key);;
  buffer ← lift (export_bytes to_csv to_excel df format);
  register (download_id file_key);;
  lift (download_button file_name format buffer).

(** Column selection, chart and conversion, lines 122-179. *)
Definition selection_block (df : ref) (file : UploadedFile) : Ui unit :=
  let file_key := hash (name file) in
  t ← lift (deref df);
  register (columns_id file_key);;
  let selected_cols :=
    default (column_names t) (columns_choice (ui (name file))) in
  df ← lift (project df selected_cols);
  chart_block df file_key selected_cols
    (chart_choice (ui (name file)))
    (x_choice (ui (name file)))
    (y_choice (ui (name file)));;
  conversion_block df file_key (name file)
    (format_choice (ui (name file))).

(** What is shown for a file that has a table, lines 110-179. *)
Definition file_block (df : ref) (file : UploadedFile) : Ui unit :=
  let file_key := hash (name file) in
  show (st_subheader "File Overview");;
  t ← lift (deref df);
  show (st_metric "Rows" (length (index t)));;
  show (st_metric "Columns" (length (columns t)));;
  show (st_metric "Missing Values" (isna_sum t));;
  df ← cleaning_block df file_key
         (remove_duplicates_clicked (ui (name file)))
         (missing_strategy_choice (ui (name file)));
  selection_block df file.

(** The body of [for file in uploaded_files], lines 99-179. *)
Definition main_file (file : UploadedFile) : Ui unit :=
  let file_key := hash (name file) in
  absent ← lift (session_state_lacks (df_key file_key));
  (if absent : bool then
     df ← lift (process_file read_csv read_excel file);
     lift (session_state_set (df_key file_key) df)
   else mret tt);;
  df ← lift (session_state_get (df_key file_key));
  match df with
  | None => mret tt
  | Some df => file_block df file
  end.

(** [main], lines 84-179: one run of the script. *)
Definition main (uploaded_files : list UploadedFile) : Ui unit :=
  new_run;;
  show (st_title "📊 Data Sweeper Pro");;
  show (st_markdown "Advanced data processing and transformation toolkit");;
  register uploader_id;;
  if decide (uploaded_files = []) then
    show (st_info "👆 Upload files to get started")
  else for_each_file uploaded_files main_file.
End main.

End Main.

Module MainExamples.
Import Pandas Python App Examples Main.

(** A parser that reads the scenario's table, and one that fails. *)
Definition reads_a_csv (bytes : list Byte.byte) : exception + DataFrame :=
  inr a_csv.

Definition fails (bytes : list Byte.byte) : exception + DataFrame :=
  inl (Exception "EmptyDataError" "No columns to parse from file").

(** A writer for the examples: one line feed per row. *)
Definition line_feeds (t : DataFrame) : exception + list Byte.byte :=
  inr (replicate (length (index t)) Byte.x0a).

(** A hash for the examples: every name gets the same key. *)
Definition one_key (name : string) : string := "7".

(** A hash that tells all names apart. *)
Definition own_key (name : string) : string := name.

Definition untouched : widgets :=
  {| remove_duplicates_clicked := false;
     missing_strategy_choice := StrategyNone;
     columns_choice := None;
     chart_choice := Bar;
     x_choice := "x";
     y_choice := "y";
     format_choice := CSV |}.


Definition mode_chosen : widgets :=
  {| remove_duplicates_clicked := false;
     missing_strategy_choice := Mode;
     columns_choice := None;
     chart_choice := Bar;
     x_choice := "x";
     y_choice := "y";
     format_choice := CSV |}.

(** A rerun in which the table [t] of the file is in the session. *)
Definition cached (t : DataFrame) : screen :=
  {| run := {| heap := [t];
               session_state := {[ df_key (one_key "") := Some 0%nat ]};
               page := [] |};
     notes := [];
     registered := [] |}.

(** The first run of a session. *)
Definition first_run : screen :=
  {| run := {| heap := []; session_state := ∅; page := [] |};
     notes := [];
     registered := [] |}.

Definition a_file : UploadedFile := {| name := "a.csv"; content := [] |}.

Definition a_text : UploadedFile :=
  {| name := "notes.txt"; content := [] |}.

Definition b_file : UploadedFile := {| name := "b.csv"; content := [] |}.

(** A rerun with the tables of [a.csv] and [b.csv] in the session, under
    the keys of [own_key]: they have the same columns. *)
Definition two_cached : screen :=
  {| run := {| heap := [a_csv; a_clean];
               session_state :=
                 {[ df_key (own_key "a.csv") := Some 0%nat;
                    df_key (own_key "b.csv") := Some 1%nat ]};
               page := [] |};
     notes := [];
     registered := [] |}.

End MainExamples.

(* ================================================================== *)
(** * Facts about the pandas operations *)

Module PandasFacts.
Import Pandas.

(** ** Masks and positions *)











(** ** Rows *)

Lemma length_rows df : length (rows df) = length (index df).
Proof. unfold rows. by rewrite length_fmap, length_seq. Qed.

Lemma rows_lookup df i :
  rows df !! i
  = if decide (i < length (index df))%nat then Some (row df i) else None.
Proof.
  unfold rows. rewrite list_lookup_fmap. case_decide as Hi.
  - by rewrite lookup_seq_lt.
  - rewrite lookup_seq_ge by lia. done.
Qed.

Lemma boolean_index_lookup {A} (mask : list bool) (l : list A) p :
  boolean_index mask l !! p = nth_true mask p ≫= (λ i, l !! i).
Proof.
  revert l p. induction mask as [|b mask IH]; intros l p; simpl.
  - by destruct l.
  - destruct l as [|x l].
    + destruct b; [destruct p|]; simpl; try done;
        by destruct (nth_true mask _).
    + destruct b; [destruct p as [|p]|]; simpl; try done.
      * rewrite IH. by destruct (nth_true mask p).
      * rewrite IH. by destruct (nth_true mask p).
Qed.

Lemma nth_true_lt mask p i : nth_true mask p = Some i → (i < length mask)%nat.
Proof.
  revert p i. induction mask as [|b mask IH]; intros p i; simpl; [done|].
  destruct b; [destruct p as [|p]|].
  - intros [= <-]. lia.
  - destruct (nth_true mask p) as [j|] eqn:Hj; simpl; [|done].
    intros [= <-]. apply IH in Hj. lia.
  - destruct (nth_true mask p) as [j|] eqn:Hj; simpl; [|done].
    intros [= <-]. apply IH in Hj. lia.
Qed.

Lemma Series_iloc_boolean_index mask s p :
  Series_iloc (Series_boolean_index mask s) p
  = nth_true mask p ≫= Series_iloc s.
Proof.
  destruct s; simpl; rewrite boolean_index_lookup;
    by destruct (nth_true mask p).
Qed.

(** Selecting rows by a mask selects them from the list of rows. *)
Lemma rows_loc_mask mask df :
  length mask = length (index df) →
  rows (loc_mask mask df) = boolean_index mask (rows df).
Proof.
  intros Hlen. apply list_eq. intros p.
  rewrite boolean_index_lookup, rows_lookup. simpl.
  assert (Hidx := boolean_index_lookup mask (index df) p).
  destruct (nth_true mask p) as [i|] eqn:Hi; simpl in *.
  - assert (i < length (index df))%nat as Hlt
      by (rewrite <- Hlen; by eapply nth_true_lt).
    rewrite rows_lookup, (decide_True _ _ Hlt).
    rewrite decide_True.
    + f_equal. unfold row. simpl. rewrite <- list_fmap_compose.
      apply list_fmap_ext. intros _ [name s] _. simpl.
      by rewrite Series_iloc_boolean_index, Hi.
    + apply lookup_lt_is_Some. rewrite Hidx.
      by apply lookup_lt_is_Some.
  - rewrite decide_False; [done|].
    intros Hlt%lookup_lt_is_Some. rewrite Hidx in Hlt. by destruct Hlt.
Qed.

(** ** [duplicated] *)

Lemma duplicated_from_spec seen rs :
  duplicated_from seen rs
  = imap (λ i r, bool_decide (r ∈ seen ∨ r ∈ take i rs)) rs.
Proof.
  revert seen. induction rs as [|r rs IH]; intros seen; simpl; [done|].
  case_decide as Hr.
  - f_equal.
    + symmetry. apply bool_decide_eq_true_2. by left.
    + rewrite IH. apply imap_ext. intros i r' _. simpl.
      apply bool_decide_ext. rewrite elem_of_cons. intuition (subst; auto).
  - f_equal.
    + symmetry. apply bool_decide_eq_false_2.
      intros [?|?%elem_of_nil]; done.
    + rewrite IH. apply imap_ext. intros i r' _. simpl.
      apply bool_decide_ext. rewrite !elem_of_cons. intuition (subst; auto).
Qed.

Lemma length_duplicated_from seen rs :
  length (duplicated_from seen rs) = length rs.
Proof. by rewrite duplicated_from_spec, length_imap. Qed.

Lemma length_duplicated df : length (duplicated df) = length (index df).
Proof. unfold duplicated. by rewrite length_duplicated_from, length_rows. Qed.


(** After the marked rows are gone, nothing is marked. *)
Lemma duplicated_from_kept seen rs :
  duplicated_from seen
    (boolean_index (negb <$> duplicated_from seen rs) rs)
  = replicate (length (boolean_index (negb <$> duplicated_from seen rs) rs))
              false.
Proof.
  revert seen. induction rs as [|r rs IH]; intros seen; simpl; [done|].
  case_decide as Hr; simpl.
  - apply IH.
  - rewrite decide_False by done. f_equal. apply IH.
Qed.

Lemma boolean_index_all {A} (l : list A) n :
  (length l ≤ n)%nat → boolean_index (replicate n true) l = l.
Proof.
  revert n. induction l as [|x l IH]; intros n Hn.
  - by destruct n.
  - destruct n as [|n]; simpl in *; [lia|]. f_equal. apply IH. lia.
Qed.

Lemma length_boolean_index_le {A B} mask (l : list A) (l' : list B) :
  (length mask ≤ length l')%nat →
  (length (boolean_index mask l) ≤ length (boolean_index mask l'))%nat.
Proof.
  revert l l'. induction mask as [|b mask IH]; intros l l' Hlen; simpl.
  - lia.
  - destruct l' as [|y l']; simpl in *; [lia|].
    destruct l as [|x l]; [destruct b; simpl; lia|].
    specialize (IH l l'). destruct b; simpl; lia.
Qed.

Lemma length_boolean_index_eq {A B} mask (l : list A) (l' : list B) :
  length l = length l' →
  length (boolean_index mask l) = length (boolean_index mask l').
Proof.
  revert l l'. induction mask as [|b mask IH]; intros l l' Hlen; [done|].
  destruct l as [|x l], l' as [|y l']; simplify_eq/=; [done|].
  destruct b; simpl; auto.
Qed.

Lemma Series_boolean_index_all s n :
  (Series_len s ≤ n)%nat → Series_boolean_index (replicate n true) s = s.
Proof. destruct s; simpl; intros; f_equal; by apply boolean_index_all. Qed.

Lemma Series_len_boolean_index_le {B} mask s (l' : list B) :
  (length mask ≤ length l')%nat →
  (Series_len (Series_boolean_index mask s)
   ≤ length (boolean_index mask l'))%nat.
Proof. destruct s; simpl; apply length_boolean_index_le. Qed.

(** Once the marked rows are gone no row is marked. *)
Lemma duplicated_drop_duplicates df :
  negb <$> duplicated (drop_duplicates df)
  = replicate (length (index (drop_duplicates df))) true.
Proof.
  assert (Hlen : length (negb <$> duplicated df) = length (index df))
    by (by rewrite length_fmap, length_duplicated).
  unfold duplicated at 1. unfold drop_duplicates at 1.
  rewrite rows_loc_mask by done. unfold duplicated.
  rewrite duplicated_from_kept, fmap_replicate. simpl. f_equal.
  apply length_boolean_index_eq, length_rows.
Qed.

(** After a row selection no column is longer than the index. *)
Lemma loc_mask_column_length mask df k name s :
  length mask = length (index df) →
  columns (loc_mask mask df) !! k = Some (name, s) →
  (Series_len s ≤ length (index (loc_mask mask df)))%nat.
Proof.
  intros Hlen Hk. simpl in *. rewrite list_lookup_fmap in Hk.
  destruct (columns df !! k) as [[name' s']|]; simplify_eq/=.
  apply Series_len_boolean_index_le. lia.
Qed.




(** C3: removing duplicates twice gives the same table as removing them
    once. *)
Theorem drop_duplicates_twice df :
  drop_duplicates (drop_duplicates df) = drop_duplicates df.
Proof.
  unfold drop_duplicates at 1. rewrite duplicated_drop_duplicates.
  assert (Hcols := loc_mask_column_length (negb <$> duplicated df) df).
  fold (drop_duplicates df) in Hcols.
  destruct (drop_duplicates df) as [idx cols]. unfold loc_mask. simpl in *.
  f_equal.
  - by apply boolean_index_all.
  - transitivity (id <$> cols); [|by rewrite list_fmap_id].
    apply list_fmap_ext. intros k [name s] Hk. unfold prod_map; simpl.
    f_equal. apply Series_boolean_index_all. eapply Hcols; [|done].
    by rewrite length_fmap, length_duplicated.
Qed.

(** ** Column selection *)

Lemma filter_none {A} (P : A → Prop) `{∀ x, Decision (P x)} (l : list A) :
  (∀ x, x ∈ l → ¬ P x) → filter P l = [].
Proof.
  induction l as [|x l IH]; intros Hl; [done|].
  rewrite filter_cons_False by (apply Hl; left).
  apply IH. intros y Hy. apply Hl. by right.
Qed.

Lemma filter_label_unique (cs : list (string * Series)) c :
  NoDup cs.*1 → c ∈ cs → filter (λ c', c'.1 = c.1) cs = [c].
Proof.
  induction cs as [|c' cs IH]; intros Hnd Hin; [by apply elem_of_nil in Hin|].
  apply NoDup_cons in Hnd as [Hfresh Hnd].
  assert (Hnone : ∀ d, d.1 = c'.1 → d ∉ cs).
  { intros d Hd Hdin. apply Hfresh. rewrite <- Hd.
    apply list_elem_of_fmap. eauto. }
  apply elem_of_cons in Hin as [->|Hin].
  - rewrite filter_cons_True by done. f_equal.
    apply filter_none. intros d Hdin Hd. by apply (Hnone d).
  - rewrite filter_cons_False; [by apply IH|].
    intros Heq. by apply (Hnone c).
Qed.

Lemma select_columns_sublist (cs all : list (string * Series)) :
  NoDup all.*1 → cs ⊆ all → select_columns cs.*1 all = Some cs.
Proof.
  intros Hnd. induction cs as [|c cs IH]; intros Hsub; [done|].
  rewrite fmap_cons. cbn [select_columns].
  rewrite filter_label_unique; [|done|apply Hsub; left].
  rewrite IH; [done|]. intros d Hd. apply Hsub. by right.
Qed.

(** Selecting every column, in the frame's own order, gives the frame
    back. *)
Lemma getitem_all_columns df :
  well_formed df → getitem_list df (column_names df) = Some df.
Proof.
  intros [Hnd _]. unfold getitem_list, column_names.
  rewrite select_columns_sublist by done. by destruct df.
Qed.

End PandasFacts.

(* ================================================================== *)
(** * Facts about the run of a script *)

Module PythonFacts.
Import Pandas Python PandasFacts.

(** ** Running the monad *)

Lemma bind_return {A B} (m : Py A) (k : A → Py B) w w' a :
  m w = (w', Return a) → (m ≫= k) w = k a w'.
Proof. intros Hm. unfold mbind, Py_bind, bind. by rewrite Hm. Qed.

Lemma bind_raise {A B} (m : Py A) (k : A → Py B) w w' e :
  m w = (w', Raise e) → (m ≫= k) w = (w', Raise e).
Proof. intros Hm. unfold mbind, Py_bind, bind. by rewrite Hm. Qed.

Lemma set_heap_id w : set_heap (heap w) w = w.
Proof. by destruct w. Qed.

Lemma set_heap_set_heap h h' w : set_heap h (set_heap h' w) = set_heap h w.
Proof. done. Qed.

Lemma deref_ok r t w : heap w !! r = Some t → deref r w = (w, Return t).
Proof. intros Hr. unfold deref. by rewrite Hr. Qed.

Lemma getitem_ok df col t c w :
  heap w !! df = Some t →
  lookup_column col (columns t) = Some c →
  getitem df col w = (w, Return c).
Proof.
  intros Hdf Hc. unfold getitem.
  rewrite (bind_return _ _ _ _ _ (deref_ok _ _ _ Hdf)). by rewrite Hc.
Qed.

Lemma through_view_off `{pd : installed_pandas} f t :
  copy_on_write = false → through_view f t = f t.
Proof. unfold through_view. by intros ->. Qed.

Lemma through_view_on `{pd : installed_pandas} f t :
  copy_on_write = true → through_view f t = t.
Proof. unfold through_view. by intros ->. Qed.

(** Storing the table an object already holds changes nothing. *)
Lemma store_same df t w :
  heap w !! df = Some t → set_heap (<[df := t]> (heap w)) w = w.
Proof. intros Hdf. by rewrite list_insert_id, set_heap_id. Qed.

Lemma fillna_inplace_ok `{pd : installed_pandas} df col value t c w :
  heap w !! df = Some t →
  lookup_column col (columns t) = Some c →
  fillna_inplace df col value w
  = (set_heap
       (<[df := through_view (set_column col (fillna value c)) t]> (heap w))
       w,
     Return tt).
Proof.
  intros Hdf Hc. unfold fillna_inplace, through_view.
  rewrite (bind_return _ _ _ _ _ (getitem_ok _ _ _ _ _ Hdf Hc)).
  destruct copy_on_write.
  - by rewrite store_same.
  - unfold mutate.
    by rewrite (bind_return _ _ _ _ _ (deref_ok _ _ _ Hdf)).
Qed.

(** ** Columns by label *)

Lemma replace_column_names col s cs :
  (replace_column col s cs).*1 = cs.*1.
Proof.
  induction cs as [|[name s0] cs IH]; [done|]. cbn [replace_column].
  case_decide; rewrite !fmap_cons; [done|]. by rewrite IH.
Qed.

Lemma lookup_replace_column_ne col col' s cs :
  col' ≠ col →
  lookup_column col' (replace_column col s cs) = lookup_column col' cs.
Proof.
  intros Hne. induction cs as [|[name s0] cs IH]; simpl; [done|].
  destruct (decide (name = col)) as [->|Hn]; simpl.
  - by rewrite !decide_False by done.
  - case_decide; [done|apply IH].
Qed.

Lemma lookup_column_elem_of col cs c :
  lookup_column col cs = Some c → (col, c) ∈ cs.
Proof.
  induction cs as [|[name s0] cs IH]; simpl; [done|].
  case_decide as Hn.
  - intros [= <-]. subst. left.
  - intros Hc. right. by apply IH.
Qed.

Lemma lookup_column_unique col cs c :
  NoDup cs.*1 → (col, c) ∈ cs → lookup_column col cs = Some c.
Proof.
  induction cs as [|[name s0] cs IH]; intros Hnd Hin;
    [by apply elem_of_nil in Hin|].
  apply NoDup_cons in Hnd as [Hfresh Hnd]. simpl.
  apply elem_of_cons in Hin as [[= <- <-]|Hin].
  - by rewrite decide_True.
  - rewrite decide_False; [by apply IH|].
    intros ->. apply Hfresh. apply list_elem_of_fmap. by exists (col, c).
Qed.

Lemma lookup_column_fmap (f : Series → Series) col cs :
  lookup_column col (prod_map id f <$> cs) = f <$> lookup_column col cs.
Proof.
  induction cs as [|[name s0] cs IH]; simpl; [done|].
  unfold prod_map at 1; simpl. case_decide; [done|apply IH].
Qed.

Lemma elem_of_select_dtypes_number t col :
  col ∈ select_dtypes_number t ↔ ∃ vs, (col, Numeric vs) ∈ columns t.
Proof.
  unfold select_dtypes_number. rewrite list_elem_of_fmap. split.
  - intros ([name c] & -> & [Hnum Hin]%list_elem_of_filter). simpl in *.
    destruct c; try done. eauto.
  - intros [vs Hin]. exists (col, Numeric vs). split; [done|].
    apply list_elem_of_filter. done.
Qed.

Lemma NoDup_select_dtypes_number t :
  NoDup (column_names t) → NoDup (select_dtypes_number t).
Proof.
  unfold select_dtypes_number, column_names.
  intros Hnd. eapply sublist_NoDup; [done|].
  apply fmap_sublist, sublist_filter.
Qed.

Lemma lookup_new (h : list DataFrame) t : (h ++ [t]) !! length h = Some t.
Proof. by apply list_lookup_middle. Qed.

End PythonFacts.

(* ================================================================== *)
(** * Facts about the statistics *)

Module StatFacts.
Import Pandas App Spec Examples PandasFacts.

Lemma mode_nil vs : present vs = [] → mode vs = [].
Proof. unfold mode. by intros ->. Qed.

Lemma most_frequent_exists (xs : list float64) :
  xs ≠ [] → ∃ x, x ∈ xs ∧ occurrences x xs = max_occurrences xs.
Proof.
  intros Hne. unfold max_occurrences.
  assert ((λ x, occurrences x xs) <$> xs ≠ []) as Hne'
    by (by intros ?%fmap_nil_inv).
  apply max_list_elem_of, list_elem_of_fmap in Hne' as (x & Hx & Hin).
  eauto.
Qed.

Lemma elem_of_mode vs x :
  x ∈ mode vs
  ↔ x ∈ present vs
    ∧ occurrences x (present vs) = max_occurrences (present vs).
Proof.
  unfold mode. rewrite merge_sort_Permutation, elem_of_remove_dups.
  rewrite list_elem_of_filter. tauto.
Qed.

Lemma mode_nonempty vs : present vs ≠ [] → mode vs ≠ [].
Proof.
  intros (x & Hx & Hmax)%most_frequent_exists Hnil.
  assert (x ∈ mode vs) as Hin by (by apply elem_of_mode).
  rewrite Hnil in Hin. by apply elem_of_nil in Hin.
Qed.

(** The value [mode()[0]] yields: a most frequent value, and the least
    of them. *)
Lemma mode_head_least vs m :
  head (mode vs) = Some m → is_least_mode (present vs) m.
Proof.
  intros [l Hl]%head_Some.
  assert (m ∈ mode vs) as [Hin Hmax]%elem_of_mode by (rewrite Hl; left).
  split_and!; [done..|]. intros x Hx Hxmax.
  assert (x ∈ mode vs) as Hxin by (by apply elem_of_mode).
  assert (StronglySorted float64_le (mode vs)) as Hsorted
    by apply (StronglySorted_merge_sort _).
  rewrite Hl in Hxin, Hsorted.
  apply StronglySorted_inv in Hsorted as [_ Hle].
  apply elem_of_cons in Hxin as [->|Hxin]; [reflexivity|].
  by eapply Forall_forall in Hle.
Qed.

Lemma fill_no_missing value (vs : list (option float64)) :
  None ∉ vs → fill value <$> vs = vs.
Proof.
  induction vs as [|v vs IH]; intros Hvs; [done|].
  rewrite fmap_cons, IH by (intros ?; apply Hvs; by right).
  destruct v; [done|]. exfalso. apply Hvs. left.
Qed.

Lemma fillna_imputed `{pd : installed_pandas} s c :
  fillna (statistic s (numeric_values c)) c = imputed_column (statistic s) c.
Proof. by destruct c. Qed.

(** The median of an odd count and the mode are exact, whatever the
    arithmetic of the installed pandas. *)
Example median_of_odd `{pd : installed_pandas} :
  median [num 3; NaN; num 1; num 2] = num 2.
Proof. by_evaluation. Qed.

Example mode_of_tie : mode [num 3; num 3; num 1; num 1; NaN; num 2]
                      = [Finite (Qc_of_Z 1); Finite (Qc_of_Z 3)].
Proof. by_evaluation. Qed.

Example mode_of_nothing : mode [NaN; NaN] = [].
Proof. reflexivity. Qed.

(** Infinities are values: they are counted and sorted like any other. *)
Example mode_of_infinities :
  mode [Some PosInf; num 2; Some NegInf; NaN]
  = [NegInf; Finite (Qc_of_Z 2); PosInf].
Proof. by_evaluation. Qed.

(** With both infinities among the values the mean is NaN. *)
Example mean_of_infinities :
  mean (pd := pandas_2) [Some PosInf; Some NegInf; NaN] = NaN.
Proof. reflexivity. Qed.

End StatFacts.

(* ================================================================== *)
(** * The cleaning loop *)

Module CleaningFacts.
Import Pandas Python App Spec.
Import PandasFacts PythonFacts StatFacts.

(** ** One pass of the loop body *)

Lemma impute_column_ok `{pd : installed_pandas} s df col t c w :
  fill_strategy s →
  heap w !! df = Some t →
  lookup_column col (columns t) = Some c →
  (s = Mode → mode (numeric_values c) ≠ []) →
  impute_column s df col w
  = (set_heap
       (<[df := through_view
                  (set_column col (imputed_column (statistic s) c)) t]>
          (heap w))
       w,
     Return tt).
Proof.
  intros Hs Hdf Hc Hmode. rewrite <- fillna_imputed.
  destruct Hs as [->| [->| ->]]; unfold impute_column.
  - rewrite (bind_return _ _ _ _ _ (getitem_ok _ _ _ _ _ Hdf Hc)).
    by apply fillna_inplace_ok.
  - rewrite (bind_return _ _ _ _ _ (getitem_ok _ _ _ _ _ Hdf Hc)).
    by apply fillna_inplace_ok.
  - rewrite (bind_return _ _ _ _ _ (getitem_ok _ _ _ _ _ Hdf Hc)).
    simpl. destruct (mode (numeric_values c)) as [|m l] eqn:Hm;
      [by destruct Hmode|].
    rewrite (bind_return _ _ w w m) by done.
    by apply fillna_inplace_ok.
Qed.

Lemma impute_column_raises `{pd : installed_pandas} df col t c w :
  heap w !! df = Some t →
  lookup_column col (columns t) = Some c →
  mode (numeric_values c) = [] →
  impute_column Mode df col w = (w, Raise (KeyError "0")).
Proof.
  intros Hdf Hc Hm. unfold impute_column.
  rewrite (bind_return _ _ _ _ _ (getitem_ok _ _ _ _ _ Hdf Hc)).
  rewrite Hm. done.
Qed.

(** ** The table after the loop *)

Lemma fill_columns_nil `{pd : installed_pandas} s t :
  fill_columns s [] t = t.
Proof.
  destruct t as [idx cs]. unfold fill_columns; simpl. f_equal.
  transitivity (id <$> cs); [|apply list_fmap_id].
  by apply list_fmap_ext.
Qed.

Lemma fill_columns_step `{pd : installed_pandas} s col cols t c :
  NoDup (column_names t) →
  col ∉ cols →
  lookup_column col (columns t) = Some c →
  fill_columns s cols (set_column col (imputed_column (statistic s) c) t)
  = fill_columns s (col :: cols) t.
Proof.
  destruct t as [idx cs]. unfold fill_columns, column_names; simpl.
  intros Hnd Hfresh Hc. f_equal.
  induction cs as [|[name s0] cs IH]; [done|].
  apply NoDup_cons in Hnd as [Hname Hnd].
  cbn [replace_column lookup_column] in *.
  destruct (decide (name = col)) as [->|Hne].
  - injection Hc as ->. rewrite !fmap_cons. simpl.
    rewrite decide_False by done. rewrite decide_True by left. f_equal.
    apply list_fmap_ext. intros _ [name' s'] Hin%list_elem_of_lookup_2.
    simpl. assert (name' ≠ col).
    { intros ->. apply Hname. apply list_elem_of_fmap.
      by exists (col, s'). }
    destruct (decide (name' ∈ cols)) as [Hin'|Hin'].
    + rewrite decide_True by (by right). done.
    + rewrite decide_False; [done|].
      by intros [?|?]%elem_of_cons.
  - rewrite !fmap_cons. rewrite IH by done. f_equal. simpl.
    destruct (decide (name ∈ cols)) as [Hin'|Hin'].
    + rewrite decide_True by (by right). done.
    + rewrite decide_False; [done|].
      by intros [?|?]%elem_of_cons.
Qed.

Lemma fill_columns_numeric `{pd : installed_pandas} s t :
  Forall2 (λ c c', c'.1 = c.1 ∧ c'.2 = imputed_column (statistic s) c.2)
          (columns t)
          (columns (fill_columns s (select_dtypes_number t) t)).
Proof.
  unfold fill_columns; simpl. apply Forall2_fmap_r.
  apply Forall_Forall2_diag, Forall_forall. intros [name c] Hin.
  unfold compose. cbv beta.
  case_decide as Hnum; simpl; [done|]. split; [done|].
  destruct c; try done. exfalso. apply Hnum.
  apply elem_of_select_dtypes_number. eauto.
Qed.

(** ** The loop *)

(** The loop leaves behind [df] the table with the columns it went
    through filled, when the fills reach [df], and the table as it was
    when they do not. *)
Lemma for_each_impute `{pd : installed_pandas} s df cols :
  fill_strategy s →
  NoDup cols →
  ∀ t w,
    heap w !! df = Some t →
    NoDup (column_names t) →
    (∀ col, col ∈ cols →
            ∃ c, lookup_column col (columns t) = Some c
                 ∧ (s = Mode → mode (numeric_values c) ≠ [])) →
    for_each cols (impute_column s df) w
    = (set_heap (<[df := through_view (fill_columns s cols) t]> (heap w)) w,
       Return tt).
Proof.
  intros Hs. induction 1 as [|col cols Hfresh Hnd IH];
    intros t w Hdf Hnames Hcols.
  - unfold through_view. rewrite fill_columns_nil.
    destruct copy_on_write; by rewrite store_same.
  - destruct (Hcols col) as (c & Hc & Hmode); [left|].
    cbn [for_each].
    rewrite (bind_return _ _ _ _ _
               (impute_column_ok _ _ _ _ _ _ Hs Hdf Hc Hmode)).
    destruct copy_on_write eqn:Hcow.
    + rewrite !through_view_on, store_same by done.
      rewrite (IH t) by (try done; intros col' ?; apply Hcols; by right).
      by rewrite through_view_on, store_same.
    + rewrite !through_view_off by done.
      rewrite (IH (set_column col (imputed_column (statistic s) c) t)).
      * simpl. rewrite list_insert_insert_eq, through_view_off by done.
        rewrite fill_columns_step by done. done.
      * simpl. apply list_lookup_insert_eq. by eapply lookup_lt_Some.
      * unfold column_names, set_column; simpl.
        by rewrite replace_column_names.
      * intros col' Hin. destruct (Hcols col') as (c' & Hc' & Hmode');
          [by right|].
        exists c'. split; [|done]. simpl.
        rewrite lookup_replace_column_ne; [done|]. by intros ->.
Qed.

Lemma for_each_mode_raises `{pd : installed_pandas} df cols :
  NoDup cols →
  ∀ t w,
    heap w !! df = Some t →
    NoDup (column_names t) →
    (∀ col, col ∈ cols → is_Some (lookup_column col (columns t))) →
    (∃ col c, col ∈ cols ∧ lookup_column col (columns t) = Some c
              ∧ mode (numeric_values c) = []) →
    ∃ t', for_each cols (impute_column Mode df) w
          = (set_heap (<[df := t']> (heap w)) w, Raise (KeyError "0")).
Proof.
  induction 1 as [|col cols Hfresh Hnd IH];
    intros t w Hdf Hnames Hcols (bad & cbad & Hbad & Hcbad & Hempty).
  - by apply elem_of_nil in Hbad.
  - destruct (Hcols col) as [c Hc]; [left|]. cbn [for_each].
    destruct (decide (mode (numeric_values c) = [])) as [Hm|Hm].
    + exists t.
      rewrite (bind_raise _ _ _ _ _
                 (impute_column_raises _ _ _ _ _ Hdf Hc Hm)).
      by rewrite list_insert_id, set_heap_id.
    + assert (bad ≠ col) as Hne by (intros ->; congruence).
      apply elem_of_cons in Hbad as [?|Hbad]; [done|].
      assert (fill_strategy Mode) as Hs by (right; by right).
      rewrite (bind_return _ _ _ _ _
                 (impute_column_ok _ _ _ _ _ _ Hs Hdf Hc (λ _, Hm))).
      destruct copy_on_write eqn:Hcow.
      { rewrite through_view_on, store_same by done.
        apply (IH t w); [done..| |by exists bad, cbad].
        intros col' ?. apply Hcols. by right. }
      rewrite through_view_off by done.
      destruct (IH (set_column col (imputed_column (statistic Mode) c) t)
                   (set_heap
                      (<[df := set_column col
                                 (imputed_column (statistic Mode) c) t]>
                         (heap w)) w))
        as [t' Ht'].
      * simpl. apply list_lookup_insert_eq. by eapply lookup_lt_Some.
      * unfold column_names, set_column; simpl.
        by rewrite replace_column_names.
      * intros col' Hin. simpl.
        rewrite lookup_replace_column_ne; [apply Hcols; by right|].
        by intros ->.
      * exists bad, cbad. split_and!; [done| |done]. simpl.
        by rewrite lookup_replace_column_ne.
      * exists t'. rewrite Ht'. simpl.
        by rewrite list_insert_insert_eq.
Qed.

Lemma for_each_skip `{pd : installed_pandas} df cols w :
  for_each cols (impute_column DropRows df) w = (w, Return tt).
Proof. induction cols as [|col cols IH]; [done|]. cbn [for_each]. apply IH. Qed.

(** What the loop is given: every label of [select_dtypes] is the label
    of a numeric column. *)
Lemma numeric_cols_lookup t col :
  NoDup (column_names t) →
  col ∈ select_dtypes_number t →
  ∃ vs, lookup_column col (columns t) = Some (Numeric vs)
        ∧ (col, Numeric vs) ∈ columns t.
Proof.
  intros Hnd [vs Hin]%elem_of_select_dtypes_number. exists vs.
  split; [|done]. by apply lookup_column_unique.
Qed.

(** ** Runs of [removeDuplicates] *)

Lemma removeDuplicates_run df key t w :
  heap w !! df = Some t →
  removeDuplicates df key true w
  = ({| heap := heap w ++ [drop_duplicates t];
        session_state :=
          <[df_key key := Some (length (heap w))]> (session_state w);
        page := page w ++ [st_success "Duplicates removed!"] |},
     Return (length (heap w))).
Proof.
  intros Hdf. unfold removeDuplicates.
  by rewrite (bind_return _ _ _ _ _ (deref_ok _ _ _ Hdf)).
Qed.

(** ** Runs of [imputeMissing] *)

Lemma imputeMissing_fill_run `{pd : installed_pandas} s df key t w :
  fill_strategy s →
  heap w !! df = Some t →
  NoDup (column_names t) →
  (s = Mode → numeric_columns_have_values t) →
  imputeMissing df key s w
  = if decide (select_dtypes_number t = []) then (warned w, Return df)
    else ({| heap := <[df := through_view
                               (fill_columns s (select_dtypes_number t)) t]>
                       (heap w);
             session_state := <[df_key key := Some df]> (session_state w);
             page := page w |}, Return df).
Proof.
  intros Hs Hdf Hnd Hvals.
  assert (Hloop :
    for_each (select_dtypes_number t) (impute_column s df) w
    = (set_heap
         (<[df := through_view (fill_columns s (select_dtypes_number t)) t]>
            (heap w)) w, Return tt)).
  { apply for_each_impute; try done.
    - by apply NoDup_select_dtypes_number.
    - intros col (vs & Hc & Hin)%numeric_cols_lookup; [|done].
      exists (Numeric vs). split; [done|]. intros Hmode.
      apply mode_nonempty. simpl.
      specialize (Hvals Hmode).
      eapply Forall_forall in Hvals; [|exact Hin]. by apply Hvals. }
  destruct Hs as [->| [->| ->]]; unfold imputeMissing;
    rewrite (bind_return _ _ _ _ _ (deref_ok _ _ _ Hdf)); cbv zeta;
    (case_decide; [done|]);
    by rewrite (bind_return _ _ _ _ _ Hloop).
Qed.

Lemma imputeMissing_drop_rows_run `{pd : installed_pandas} df key t w :
  heap w !! df = Some t →
  imputeMissing df key DropRows w
  = if decide (select_dtypes_number t = []) then (warned w, Return df)
    else ({| heap := heap w ++ [dropna (select_dtypes_number t) t];
             session_state :=
               <[df_key key := Some (length (heap w))]> (session_state w);
             page := page w |}, Return (length (heap w))).
Proof.
  intros Hdf. unfold imputeMissing.
  rewrite (bind_return _ _ _ _ _ (deref_ok _ _ _ Hdf)). cbv zeta.
  case_decide; [done|].
  rewrite (bind_return _ _ _ _ _ (for_each_skip _ _ _)).
  unfold mbind at 1, Py_bind at 1, bind at 1.
  rewrite (bind_return _ _ _ _ _ (deref_ok _ _ _ Hdf)). done.
Qed.

Lemma imputeMissing_mode_run_raises `{pd : installed_pandas} df key t w :
  heap w !! df = Some t →
  NoDup (column_names t) →
  (∃ name vs, (name, Numeric vs) ∈ columns t ∧ present vs = []) →
  ∃ t', imputeMissing df key Mode w
        = (set_heap (<[df := t']> (heap w)) w, Raise (KeyError "0")).
Proof.
  intros Hdf Hnd (name & vs & Hin & Hempty).
  assert (name ∈ select_dtypes_number t) as Hname
    by (apply elem_of_select_dtypes_number; eauto).
  destruct (for_each_mode_raises df (select_dtypes_number t)
              (NoDup_select_dtypes_number _ Hnd) t w Hdf Hnd)
    as [t' Ht'].
  - intros col (vs' & Hc & _)%numeric_cols_lookup; [|done]. eauto.
  - exists name, (Numeric vs). split_and!; [done| |].
    + by apply lookup_column_unique.
    + by apply mode_nil.
  - exists t'. unfold imputeMissing.
    rewrite (bind_return _ _ _ _ _ (deref_ok _ _ _ Hdf)). cbv zeta.
    case_decide as Hnil;
      [rewrite Hnil in Hname; by apply elem_of_nil in Hname|].
    by rewrite (bind_raise _ _ _ _ _ Ht').
Qed.

End CleaningFacts.

(* ================================================================== *)
(** * Cleaning Operations: the claims *)

Module CleaningClaims.
Import Pandas Python App Spec Examples.
Import PandasFacts PythonFacts StatFacts CleaningFacts.

Lemma lookup_column_Forall2 (g : Series → Series) col cs cs' :
  Forall2 (λ c c' : string * Series, c'.1 = c.1 ∧ c'.2 = g c.2) cs cs' →
  lookup_column col cs' = g <$> lookup_column col cs.
Proof.
  induction 1 as [|[name c] [name' c'] cs cs' [Hname Hc] _ IH]; [done|].
  simpl in *. subst. case_decide; [done|apply IH].
Qed.

Lemma imputed_column_complete stat vs :
  None ∉ vs → imputed_column stat (Numeric vs) = Numeric vs.
Proof. intros Hvs. simpl. by rewrite fill_no_missing. Qed.

Lemma NoDup_label_unique (cs : list (string * Series)) name a b :
  NoDup cs.*1 → (name, a) ∈ cs → (name, b) ∈ cs → a = b.
Proof.
  intros Hnd Ha%lookup_column_unique Hb%lookup_column_unique; try done.
  congruence.
Qed.

Lemma fmap_seq_const {A} (x : A) j n :
  (λ _, x) <$> seq j n = replicate n x.
Proof.
  revert j. induction n as [|n IH]; intros j; [done|].
  simpl. f_equal. apply IH.
Qed.

Lemma row_has_na_complete t i :
  NoDup (column_names t) →
  numeric_columns_complete t →
  row_has_na (select_dtypes_number t) t i = false.
Proof.
  intros Hnd Hcomplete. unfold row_has_na.
  destruct (existsb _ _) eqn:Hex; [|done]. exfalso.
  apply existsb_exists in Hex as ([name c] & Hin%list_elem_of_In & Hc).
  simpl in Hc. apply andb_true_iff in Hc as [Hname Hna].
  apply bool_decide_eq_true in Hname.
  apply elem_of_select_dtypes_number in Hname as [vs Hvs].
  assert (c = Numeric vs) as -> by (by eapply NoDup_label_unique).
  eapply Forall_forall in Hcomplete; [|exact Hin]. simpl in *.
  apply bool_decide_eq_true in Hna. apply Hcomplete.
  by eapply list_elem_of_lookup_2.
Qed.

Lemma complete_rows_all t :
  NoDup (column_names t) →
  numeric_columns_complete t →
  complete_rows t = replicate (length (index t)) true.
Proof.
  intros Hnd Hcomplete. unfold complete_rows.
  rewrite <- (fmap_seq_const true 0). apply list_fmap_ext.
  intros _ i _. by rewrite row_has_na_complete.
Qed.

(** C1, as amended: with a pandas in which [df[col]] is a view of the
    table (copy-on-write off), for Mean, Median and Mode (for Mode, on
    a table whose numeric columns each hold a value), [imputeMissing]
    returns the table it was given with, in every numeric column, each
    missing entry replaced by what pandas returns for that column's
    [mean()], [median()] or [mode()[0]], and every other column as it
    was.  The mode used is the least of the most frequent values of
    the column. *)
Theorem imputeMissing_fills `{pd : installed_pandas} s t :
  copy_on_write = false →
  fill_strategy s →
  well_formed t →
  (s = Mode → numeric_columns_have_values t) →
  imputation_fills (statistic s) s t
  ∧ ∀ vs m, statistic Mode vs = Some m → is_least_mode (present vs) m.
Proof.
  intros Hview Hs [Hnd _] Hvals. split; [|apply mode_head_least].
  intros w df key Hdf.
  rewrite (imputeMissing_fill_run s df key t w) by done.
  rewrite through_view_off by done.
  case_decide as Hnum.
  - exists (warned w), t. split_and!; [done| |done|].
    + simpl. by rewrite list_insert_id.
    + rewrite <- (fill_columns_nil s t) at 2. rewrite <- Hnum.
      apply fill_columns_numeric.
  - eexists _, _. split_and!; [done..|]. apply fill_columns_numeric.
Qed.

Lemma imputeMissing_fills_witness :
  imputation_fills (pd := pandas_2) (statistic (pd := pandas_2) Mode)
    Mode tie
  ∧ ∀ vs m, statistic (pd := pandas_2) Mode vs = Some m →
            is_least_mode (present vs) m.
Proof.
  apply (imputeMissing_fills (pd := pandas_2) Mode tie).
  - reflexivity.
  - by_evaluation.
  - by_evaluation.
  - intros _. by_evaluation.
Defined.

(** The scenario of the specification: duplicate removal leaves rows 0
    and 2, Mean imputation then fills the missing [y] with 2, the mean
    of the one value 2. *)
Example scenario_a_csv :
  handle_data_cleaning (pd := pandas_2) 0%nat "a" true Mean
    (world_with a_csv)
  = ({| heap := [a_csv; a_clean];
        session_state := {[ "df_a" := Some 1%nat ]};
        page := [st_success "Duplicates removed!"] |}, Return 1%nat).
Proof. by_evaluation. Qed.

(** What the page does on the tie: filled with 1 when the fill reaches
    the table, not filled when it does not. *)
Lemma imputeMissing_tie_run `{pd : installed_pandas} :
  imputeMissing 0%nat "a" Mode (world_with tie)
  = ({| heap := [if copy_on_write then tie else tie_filled];
        session_state := {[ "df_a" := Some 0%nat ]};
        page := [] |}, Return 0%nat).
Proof.
  rewrite (imputeMissing_fill_run Mode 0%nat "a" tie (world_with tie));
    [|by_evaluation|reflexivity|by_evaluation|intros _; by_evaluation].
  unfold through_view. destruct copy_on_write; by_evaluation.
Qed.

(** C1, as stated, fails on a tie, whatever pandas is installed: the
    column [3, 3, 1, 1, NaN] is filled with 1, the least of the two
    most frequent values, or not filled at all, while the first most
    frequent value is 3. *)
Lemma imputeMissing_tie_counterexample :
  well_formed tie
  ∧ numeric_columns_have_values tie
  ∧ first_most_frequent [num 3; num 3; num 1; num 1; NaN] = num 3
  ∧ (∃ w',
       imputeMissing (pd := pandas_2) 0%nat "a" Mode (world_with tie)
       = (w', Return 0%nat)
       ∧ heap w' = [tie_filled])
  ∧ ∀ pd : installed_pandas,
      ¬ imputation_fills (stated_statistic Mode) Mode tie.
Proof.
  split_and!; [by_evaluation..| |].
  - eexists. split; [apply (imputeMissing_tie_run (pd := pandas_2))|done].
  - intros pd Hclaim.
    destruct (Hclaim (world_with tie) 0%nat "a" eq_refl)
      as (w' & t' & Hrun & Hheap & _ & Hcols).
    rewrite imputeMissing_tie_run in Hrun. injection Hrun as <-.
    simpl in Hheap. injection Hheap as <-.
    destruct copy_on_write;
      apply Forall2_cons_1 in Hcols as [[_ Hx] _];
      revert Hx; by_evaluation.
Qed.

(** C2, as amended: a numeric column [c] without missing values is
    unchanged by Mean, Median and Mode (for Mode, on a table whose
    numeric columns each hold a value); under Drop Rows it keeps
    exactly its entries on the rows where no numeric column is missing,
    and so is unchanged when no numeric column has a missing value. *)
Theorem complete_column_after_imputeMissing `{pd : installed_pandas}
    w df key s t c vs :
  heap w !! df = Some t →
  well_formed t →
  lookup_column c (columns t) = Some (Numeric vs) →
  None ∉ vs →
  (s = Mode → numeric_columns_have_values t) →
  ∃ w' r t',
    imputeMissing df key s w = (w', Return r)
    ∧ heap w' !! r = Some t'
    ∧ lookup_column c (columns t')
      = Some (Numeric (if decide (s = DropRows)
                       then boolean_index (complete_rows t) vs
                       else vs))
    ∧ (numeric_columns_complete t →
       boolean_index (complete_rows t) vs = vs).
Proof.
  intros Hdf [Hnd Hlen] Hc Hvs Hvals.
  assert (Hall : numeric_columns_complete t →
                 boolean_index (complete_rows t) vs = vs).
  { intros Hcomplete. rewrite complete_rows_all by done.
    apply boolean_index_all.
    apply lookup_column_elem_of in Hc.
    eapply Forall_forall in Hlen; [|exact Hc]. simpl in Hlen. lia. }
  assert (Hfilled : ∀ s', fill_strategy s' → s = s' →
    ∃ w' r t',
      imputeMissing df key s w = (w', Return r)
      ∧ heap w' !! r = Some t'
      ∧ lookup_column c (columns t') = Some (Numeric vs)).
  { intros s' Hs ->.
    rewrite (imputeMissing_fill_run s' df key t w) by done.
    case_decide as Hnum.
    - by exists (warned w), df, t.
    - eexists _, df, _. split_and!; [done| |].
      + simpl. apply list_lookup_insert_eq. by eapply lookup_lt_Some.
      + unfold through_view. destruct copy_on_write; [done|].
        rewrite (lookup_column_Forall2 _ _ _ _ (fill_columns_numeric _ _)).
        rewrite Hc. simpl. by rewrite fill_no_missing. }
  destruct s.
  - exists w, df, t. by rewrite decide_False.
  - destruct (Hfilled Mean) as (w' & r & t' & ? & ? & ?);
      [by left|done|].
    exists w', r, t'. by rewrite decide_False.
  - destruct (Hfilled Median) as (w' & r & t' & ? & ? & ?);
      [right; by left|done|].
    exists w', r, t'. by rewrite decide_False.
  - destruct (Hfilled Mode) as (w' & r & t' & ? & ? & ?);
      [right; by right|done|].
    exists w', r, t'. by rewrite decide_False.
  - rewrite (imputeMissing_drop_rows_run df key t w) by done.
    rewrite decide_False.
    + eexists _, _, _. split_and!; [done|apply lookup_new| |done].
      rewrite decide_True by done. unfold dropna, loc_mask. simpl.
      rewrite lookup_column_fmap, Hc. done.
    + intros Hnil.
      assert (c ∈ select_dtypes_number t) as Hin.
      { apply elem_of_select_dtypes_number. exists vs.
        by apply lookup_column_elem_of. }
      rewrite Hnil in Hin. by apply elem_of_nil in Hin.
Qed.

Lemma complete_column_after_imputeMissing_witness :
  ∃ w' r t',
    imputeMissing (pd := pandas_2) 0%nat "a" DropRows (world_with gap)
    = (w', Return r)
    ∧ heap w' !! r = Some t'
    ∧ lookup_column "c" (columns t')
      = Some (Numeric (if decide (DropRows = DropRows)
                       then boolean_index (complete_rows gap)
                                          [num 1; num 2]
                       else [num 1; num 2]))
    ∧ (numeric_columns_complete gap →
       boolean_index (complete_rows gap) [num 1; num 2]
       = [num 1; num 2]).
Proof.
  apply (complete_column_after_imputeMissing (pd := pandas_2)
           (world_with gap) 0%nat "a" DropRows gap "c" [num 1; num 2]).
  - reflexivity.
  - by_evaluation.
  - reflexivity.
  - by_evaluation.
  - intros Hs. discriminate Hs.
Defined.

Lemma imputeMissing_gap_run `{pd : installed_pandas} :
  imputeMissing 0%nat "a" DropRows (world_with gap)
  = ({| heap := [gap; gap_dropped];
        session_state := {[ "df_a" := Some 1%nat ]};
        page := [] |}, Return 1%nat).
Proof. by_evaluation. Qed.

(** C2, as stated, fails for Drop Rows, whatever pandas is installed:
    column [c] = [1, 2] has no missing value, yet the row in which
    column [d] is missing is dropped, and [c] becomes [2]. *)
Lemma drop_rows_counterexample :
  well_formed gap
  ∧ lookup_column "c" (columns gap) = Some (Numeric [num 1; num 2])
  ∧ (None ∉ [num 1; num 2])
  ∧ (∀ pd : installed_pandas,
       imputeMissing 0%nat "a" DropRows (world_with gap)
       = ({| heap := [gap; gap_dropped];
             session_state := {[ "df_a" := Some 1%nat ]};
             page := [] |}, Return 1%nat))
  ∧ ∀ pd : installed_pandas, ¬ complete_columns_unchanged DropRows gap.
Proof.
  split_and!; [by_evaluation|reflexivity|by_evaluation
               |intros pd; apply imputeMissing_gap_run|].
  intros pd Hclaim.
  assert (None ∉ [num 1; num 2]) as Hvs by by_evaluation.
  destruct (Hclaim "c" [num 1; num 2] eq_refl Hvs
              (world_with gap) _ 0%nat _ "a" eq_refl imputeMissing_gap_run)
    as (t' & Ht' & Hc).
  simpl in Ht'. injection Ht' as <-. revert Hc. by_evaluation.
Qed.

(** C6: on a table without numeric columns every strategy leaves the
    objects and the session state as they are, returns the table it was
    given, and warns. *)
Theorem imputeMissing_no_numeric_columns `{pd : installed_pandas}
    w df key s t :
  heap w !! df = Some t →
  Forall (λ c, is_number c.2 = false) (columns t) →
  s ≠ StrategyNone →
  imputeMissing df key s w
  = ({| heap := heap w; session_state := session_state w;
        page := page w ++ [st_warning "No numeric columns to fill!"] |},
     Return df).
Proof.
  intros Hdf Hnone Hs.
  assert (select_dtypes_number t = []) as Hnil.
  { unfold select_dtypes_number. rewrite filter_none; [done|].
    intros c Hin. eapply Forall_forall in Hnone; [|exact Hin].
    by rewrite Hnone. }
  destruct s; [done|..]; unfold imputeMissing;
    rewrite (bind_return _ _ _ _ _ (deref_ok _ _ _ Hdf)); cbv zeta;
    by rewrite decide_True.
Qed.

Lemma imputeMissing_no_numeric_columns_witness :
  imputeMissing (pd := pandas_3) 0%nat "a" Median (world_with words)
  = ({| heap := heap (world_with words);
        session_state := session_state (world_with words);
        page := page (world_with words)
                ++ [st_warning "No numeric columns to fill!"] |},
     Return 0%nat).
Proof.
  apply (imputeMissing_no_numeric_columns (pd := pandas_3)
           (world_with words) 0%nat "a" Median words).
  - reflexivity.
  - by_evaluation.
  - intros Hs. discriminate Hs.
Defined.

(** C10: on a table with a numeric column that holds no value, the Mode
    strategy ends in a [KeyError] (element 0 of an empty mode result)
    that neither [imputeMissing] nor [handle_data_cleaning] catches;
    nothing is drawn and the session state is not written. *)
Theorem imputeMissing_mode_raises `{pd : installed_pandas} w df key t :
  heap w !! df = Some t →
  well_formed t →
  (∃ name vs, (name, Numeric vs) ∈ columns t ∧ present vs = []) →
  ∃ w',
    imputeMissing df key Mode w = (w', Raise (KeyError "0"))
    ∧ handle_data_cleaning df key false Mode w = (w', Raise (KeyError "0"))
    ∧ page w' = page w
    ∧ session_state w' = session_state w.
Proof.
  intros Hdf [Hnd _] Hempty.
  destruct (imputeMissing_mode_run_raises df key t w Hdf Hnd Hempty)
    as [t' Hrun].
  eexists. split_and!; [exact Hrun| |done..].
  unfold handle_data_cleaning, removeDuplicates.
  by rewrite (bind_return _ _ w w df).
Qed.

Lemma imputeMissing_mode_raises_witness :
  ∃ w',
    imputeMissing (pd := pandas_3) 0%nat "a" Mode (world_with hollow)
    = (w', Raise (KeyError "0"))
    ∧ handle_data_cleaning (pd := pandas_3) 0%nat "a" false Mode
        (world_with hollow)
      = (w', Raise (KeyError "0"))
    ∧ page w' = page (world_with hollow)
    ∧ session_state w' = session_state (world_with hollow).
Proof.
  apply (imputeMissing_mode_raises (pd := pandas_3)
           (world_with hollow) 0%nat "a" hollow).
  - reflexivity.
  - by_evaluation.
  - exists "y", [NaN; NaN]. split; [by_evaluation|reflexivity].
Defined.

End CleaningClaims.

(* ================================================================== *)
(** * Facts about strings *)

Module PyStrFacts.
Import PyStr.

Lemma append_cons c a b : String c a +:+ b = String c (a +:+ b).
Proof. reflexivity. Qed.

Lemma substring_all s : String.substring 0 (String.length s) s = s.
Proof. induction s as [|c s IH]; simpl; [done|]. by rewrite IH. Qed.

Lemma substring_append p s :
  String.substring (String.length p) (String.length s) (p +:+ s) = s.
Proof. induction p as [|c p IH]; simpl; [apply substring_all|apply IH]. Qed.

Lemma length_append p s :
  String.length (p +:+ s) = (String.length p + String.length s)%nat.
Proof. induction p as [|c p IH]; simpl; [done|]. by rewrite IH. Qed.

Lemma substring_split s m :
  (m ≤ String.length s)%nat →
  s = String.substring 0 m s
      +:+ String.substring m (String.length s - m) s.
Proof.
  revert m. induction s as [|c s IH]; intros m Hm; simpl in *.
  - by destruct m.
  - destruct m as [|m]; simpl.
    + by rewrite substring_all.
    + rewrite append_cons. f_equal. apply IH. lia.
Qed.

(** [endswith] holds exactly of the strings that end in the suffix. *)
Lemma endswith_spec s suffix :
  endswith s suffix = true ↔ ∃ p, s = p +:+ suffix.
Proof.
  unfold endswith. split.
  - destruct (Nat.ltb_spec (String.length s) (String.length suffix))
      as [|Hle]; [done|].
    intros Heq%String.eqb_eq.
    exists (String.substring 0 (String.length s - String.length suffix) s).
    assert (Hsplit :=
      substring_split s (String.length s - String.length suffix)).
    replace (String.length s - (String.length s - String.length suffix))%nat
      with (String.length suffix) in Hsplit by lia.
    rewrite Heq in Hsplit. apply Hsplit. lia.
  - intros [p ->]. rewrite length_append.
    destruct (Nat.ltb_spec (String.length p + String.length suffix)
                           (String.length suffix)) as [|_]; [lia|].
    apply String.eqb_eq.
    replace (String.length p + String.length suffix
             - String.length suffix)%nat with (String.length p) by lia.
    apply substring_append.
Qed.

(** The first field of [split] is the text before the first
    separator. *)
Lemma split_head sep base rest :
  contains sep base = false →
  head (split sep (base +:+ String sep rest)) = Some base.
Proof.
  induction base as [|c base IH]; simpl.
  - by rewrite Ascii.eqb_refl.
  - intros [Hc Hbase]%orb_false_iff. rewrite Hc.
    specialize (IH Hbase).
    destruct (split sep (base +:+ String sep rest)); simplify_eq/=.
    done.
Qed.

Lemma contains_append sep base rest :
  contains sep (base +:+ String sep rest) = true.
Proof.
  induction base as [|c base IH]; simpl.
  - by rewrite Ascii.eqb_refl.
  - rewrite IH. apply orb_true_r.
Qed.

End PyStrFacts.

(* ================================================================== *)
(** * Ingestor, projector, charts and converter: the claims *)

Module PageClaims.
Import Pandas Python App Spec PyStr Examples.
Import PandasFacts PythonFacts PyStrFacts.

(** ** File Ingestor *)

(** C5: [process_file] never raises.  A name ending in [.csv] is parsed
    by [read_csv], else one ending in [.xlsx] by [read_excel]; a parsed
    table is handed over as a new object.  Any other name, and any
    exception of the parser, ends in one [st.error] naming the file
    (and, for a parse error, carrying its message) and in [None].  The
    test on the name holds exactly of the names that end in the
    extension. *)
Theorem process_file_contract
    (read_csv read_excel : list Byte.byte → exception + DataFrame)
    (file : UploadedFile) (w : world) :
  process_file read_csv read_excel file w
  = match file_ingestor read_csv read_excel file with
    | Table t =>
        ({| heap := heap w ++ [t]; session_state := session_state w;
            page := page w |}, Return (Some (length (heap w))))
    | NoTable report =>
        ({| heap := heap w; session_state := session_state w;
            page := page w ++ [st_error report] |}, Return None)
    end
  ∧ ∀ extension,
      endswith (name file) extension = true
      ↔ ∃ stem, name file = stem +:+ extension.
Proof.
  split; [|intros extension; apply endswith_spec].
  unfold process_file, file_ingestor, try_except, pd_read, parse_with.
  destruct (endswith (name file) ".csv").
  - by destruct (read_csv (content file)).
  - destruct (endswith (name file) ".xlsx").
    + by destruct (read_excel (content file)).
    + done.
Qed.

(** ** Column Projector *)

(** C7: projecting a table on all its columns, in their order, gives
    the table back (as a new object with the same content). *)
Theorem project_all_columns df :
  well_formed df →
  getitem_list df (column_names df) = Some df
  ∧ ∀ w r, heap w !! r = Some df →
      project r (column_names df) w
      = ({| heap := heap w ++ [df]; session_state := session_state w;
            page := page w |}, Return (length (heap w))).
Proof.
  intros Hwf. assert (Hsel := getitem_all_columns df Hwf).
  split; [done|]. intros w r Hr. unfold project, getitem_columns.
  rewrite (bind_return _ _ _ _ _ (deref_ok _ _ _ Hr)). by rewrite Hsel.
Qed.

Lemma project_all_columns_witness :
  getitem_list a_csv (column_names a_csv) = Some a_csv
  ∧ ∀ w r, heap w !! r = Some a_csv →
      project r (column_names a_csv) w
      = ({| heap := heap w ++ [a_csv]; session_state := session_state w;
            page := page w |}, Return (length (heap w))).
Proof. apply (project_all_columns a_csv). by_evaluation. Defined.

(** ** Format Converter *)

Lemma remove_extension_last base ext :
  contains dot ext = false →
  remove_extension (base +:+ String dot ext) = base.
Proof.
  intros Hext. induction base as [|c base IH]; simpl.
  - by rewrite Hext.
  - rewrite contains_append, andb_false_r. by rewrite IH.
Qed.

(** The download name keeps the text before the first dot. *)
Lemma download_file_name_first_dot base rest ext :
  contains dot base = false →
  download_file_name (base +:+ String dot rest) ext
  = "converted_" +:+ base +:+ ext.
Proof.
  intros Hbase. unfold download_file_name.
  assert (Hhead := split_head dot base rest Hbase).
  by destruct (split dot (base +:+ String dot rest)); simplify_eq/=.
Qed.

(** On a name with a single dot the download name is the stated one. *)
Lemma download_file_name_one_dot base ext format :
  contains dot base = false →
  contains dot ext = false →
  download_file_name (base +:+ String dot ext) (extension format)
  = stated_file_name (base +:+ String dot ext) format.
Proof.
  intros Hbase Hext. rewrite download_file_name_first_dot by done.
  unfold stated_file_name. by rewrite remove_extension_last.
Qed.

(** C8: the download name is not the stated one on a name with two
    dots: everything after the first dot is cut, not only the
    extension. *)
Theorem download_file_name_two_dots :
  download_file_name "sales.2023.csv" (extension Excel)
  = "converted_sales.xlsx"
  ∧ stated_file_name "sales.2023.csv" Excel = "converted_sales.2023.xlsx"
  ∧ download_file_name "sales.2023.csv" (extension Excel)
    ≠ stated_file_name "sales.2023.csv" Excel.
Proof. split_and!; [reflexivity..|]. intros Heq. discriminate Heq. Qed.

(** ** Chart Renderer *)

Lemma filter_label_lookup col cs c :
  lookup_column col cs = Some c → filter (λ c', c'.1 = col) cs ≠ [].
Proof.
  intros Hin%lookup_column_elem_of Hnil.
  eapply (filter_nil_not_elem_of _ _ (col, c)) in Hnil; done.
Qed.

Lemma getitem_pair t x y sx sy :
  lookup_column x (columns t) = Some sx →
  lookup_column y (columns t) = Some sy →
  is_Some (getitem_list t [x; y]).
Proof.
  intros Hx%filter_label_lookup Hy%filter_label_lookup.
  unfold getitem_list. cbn [select_columns].
  destruct (filter (λ c, c.1 = x) (columns t)); [done|].
  destruct (filter (λ c, c.1 = y) (columns t)); [done|]. eauto.
Qed.

(** C9: for the Scatter chart the page writes its caption and then
    draws the chart exactly when both chosen columns are of a numeric
    dtype; otherwise nothing more happens: no chart, no message, no
    new object. *)
Theorem scatter_requires_numeric w df t cols x y sx sy :
  heap w !! df = Some t →
  cols ≠ [] →
  lookup_column x (columns t) = Some sx →
  lookup_column (y_axis_for cols x y) (columns t) = Some sy →
  ∃ data,
    getitem_list t [x; y_axis_for cols x y] = Some data
    ∧ visualization df cols Scatter x y w
      = if is_numeric_dtype sx && is_numeric_dtype sy
        then ({| heap := heap w ++ [data];
                 session_state := session_state w;
                 page := page w
                         ++ [st_write "Scatter plots require numeric columns";
                             st_scatter_chart data] |}, Return tt)
        else ({| heap := heap w; session_state := session_state w;
                 page := page w
                         ++ [st_write
                               "Scatter plots require numeric columns"] |},
              Return tt).
Proof.
  intros Hdf Hcols Hx Hy.
  destruct (getitem_pair t x _ sx sy Hx Hy) as [data Hdata].
  exists data. split; [done|].
  unfold visualization. rewrite decide_False by done. cbv zeta.
  set (w1 := {| heap := heap w; session_state := session_state w;
                page := page w
                        ++ [st_write
                              "Scatter plots require numeric columns"] |}).
  rewrite (bind_return _ _ w w1 tt) by done.
  assert (heap w1 !! df = Some t) as Hdf1 by done.
  rewrite (bind_return _ _ _ _ _ (getitem_ok _ _ _ _ _ Hdf1 Hx)).
  destruct (is_numeric_dtype sx); [|done].
  rewrite (bind_return _ _ _ _ _ (getitem_ok _ _ _ _ _ Hdf1 Hy)).
  destruct (is_numeric_dtype sy); [|done].
  assert (Hnew : getitem_columns df [x; y_axis_for cols x y] w1
                 = (set_heap (heap w1 ++ [data]) w1,
                    Return (length (heap w1)))).
  { unfold getitem_columns.
    rewrite (bind_return _ _ _ _ _ (deref_ok _ _ _ Hdf1)).
    by rewrite Hdata. }
  rewrite (bind_return _ _ _ _ _ Hnew).
  assert (Hread : deref (length (heap w1))
                        (set_heap (heap w1 ++ [data]) w1)
                  = (set_heap (heap w1 ++ [data]) w1, Return data))
    by apply deref_ok, lookup_new.
  rewrite (bind_return _ _ _ _ _ Hread). unfold draw, set_heap, w1; simpl.
  by rewrite <- app_assoc.
Qed.

Lemma scatter_requires_numeric_witness :
  ∃ data,
    getitem_list tie ["x"; y_axis_for ["x"; "tag"] "x" "tag"] = Some data
    ∧ visualization 0%nat ["x"; "tag"] Scatter "x" "tag" (world_with tie)
      = if is_numeric_dtype
             (Numeric [num 3; num 3; num 1; num 1; NaN])
           && is_numeric_dtype
                (Object [Some "a"; None; Some "c"; Some "d"; Some "e"])
        then ({| heap := heap (world_with tie) ++ [data];
                 session_state := session_state (world_with tie);
                 page := page (world_with tie)
                         ++ [st_write "Scatter plots require numeric columns";
                             st_scatter_chart data] |}, Return tt)
        else ({| heap := heap (world_with tie);
                 session_state := session_state (world_with tie);
                 page := page (world_with tie)
                         ++ [st_write
                               "Scatter plots require numeric columns"] |},
              Return tt).
Proof.
  apply (scatter_requires_numeric (world_with tie) 0%nat tie
           ["x"; "tag"] "x" "tag").
  - reflexivity.
  - discriminate.
  - reflexivity.
  - reflexivity.
Defined.

End PageClaims.

(* ================================================================== *)
(** * More on tables *)

Module TableFacts.
Import Pandas Python App Spec Examples.
Import PandasFacts PythonFacts StatFacts CleaningFacts.

(** ** Rows kept by [drop_duplicates] *)

Lemma kept_rows_spec (seen rs : list (list (option cell))) :
  NoDup (boolean_index (negb <$> duplicated_from seen rs) rs)
  ∧ ∀ r, r ∈ boolean_index (negb <$> duplicated_from seen rs) rs
         ↔ r ∈ rs ∧ r ∉ seen.
Proof.
  revert seen. induction rs as [|r0 rs IH]; intros seen; simpl.
  - split; [constructor|]. intros r. split; [by intros ?%elem_of_nil|].
    by intros [?%elem_of_nil _].
  - case_decide as Hseen; simpl.
    + destruct (IH seen) as [Hnd Hin]. split; [done|]. intros r.
      rewrite Hin, elem_of_cons. split; [intuition (subst; eauto)|].
      intros [[->|?] ?]; done.
    + destruct (IH (r0 :: seen)) as [Hnd Hin]. split.
      * constructor; [|done]. rewrite Hin, elem_of_cons.
        intuition (subst; eauto).
      * intros r. rewrite !elem_of_cons, Hin, elem_of_cons.
        split; [|destruct (decide (r = r0)); intuition (subst; eauto)].
        intros [->|[? ?]]; [by split; [left|]|]. split; [by right|].
        intuition (subst; eauto).
Qed.

Lemma rows_drop_duplicates df :
  rows (drop_duplicates df)
  = boolean_index (negb <$> duplicated_from [] (rows df)) (rows df).
Proof.
  unfold drop_duplicates. rewrite rows_loc_mask; [done|].
  by rewrite length_fmap, length_duplicated.
Qed.


Lemma duplicated_from_NoDup (seen rs : list (list (option cell))) :
  NoDup rs →
  (∀ r, r ∈ rs → r ∉ seen) →
  duplicated_from seen rs = replicate (length rs) false.
Proof.
  intros Hnd. revert seen.
  induction Hnd as [|r rs Hr Hnd IH]; intros seen Hseen; simpl; [done|].
  rewrite decide_False by (apply Hseen; left). f_equal. apply IH.
  intros r' Hr' [->|?]%elem_of_cons; [done|].
  by apply (Hseen r'); [right|].
Qed.

Lemma loc_mask_all t :
  Forall (λ c, Series_len c.2 ≤ length (index t))%nat (columns t) →
  loc_mask (replicate (length (index t)) true) t = t.
Proof.
  intros Hlen. destruct t as [idx cols]. unfold loc_mask. simpl in *.
  f_equal; [by apply boolean_index_all|].
  transitivity (id <$> cols); [|by rewrite list_fmap_id].
  apply list_fmap_ext. intros k [name s] Hk. unfold prod_map; simpl.
  f_equal. apply Series_boolean_index_all.
  eapply Forall_forall in Hlen; [|by eapply list_elem_of_lookup_2]. done.
Qed.

Lemma well_formed_column_lengths t :
  well_formed t →
  Forall (λ c, Series_len c.2 ≤ length (index t))%nat (columns t).
Proof.
  intros [_ Hlen]. eapply Forall_impl; [done|]. intros c Hc. simpl in *. lia.
Qed.

(** X2: 'Remove Duplicates' changes a table exactly when some row of it
    occurs twice: on a table without repeated rows it returns an equal
    table, row labels included. *)
Theorem drop_duplicates_fixpoint t :
  well_formed t →
  (drop_duplicates t = t ↔ NoDup (rows t)).
Proof.
  intros Hwf. split.
  - intros Heq. rewrite <- Heq, rows_drop_duplicates.
    apply (kept_rows_spec [] (rows t)).
  - intros Hnd. unfold drop_duplicates, duplicated.
    rewrite duplicated_from_NoDup; [|done|intros; apply not_elem_of_nil].
    rewrite fmap_replicate, length_rows. simpl.
    by apply loc_mask_all, well_formed_column_lengths.
Qed.

Lemma drop_duplicates_fixpoint_witness :
  drop_duplicates a_clean = a_clean ↔ NoDup (rows a_clean).
Proof. apply (drop_duplicates_fixpoint a_clean). by_evaluation. Defined.

(** ** The table invariant under row selection and filling *)

Lemma loc_mask_names mask t :
  column_names (loc_mask mask t) = column_names t.
Proof.
  unfold column_names, loc_mask. simpl. rewrite <- list_fmap_compose.
  by apply list_fmap_ext.
Qed.

Lemma Series_len_boolean_index mask s n :
  Series_len s = n →
  Series_len (Series_boolean_index mask s)
  = length (boolean_index mask (seq 0 n)).
Proof.
  intros <-. destruct s; simpl; apply length_boolean_index_eq;
    by rewrite length_seq.
Qed.

Lemma well_formed_loc_mask mask t :
  well_formed t → well_formed (loc_mask mask t).
Proof.
  intros [Hnd Hlen]. split; [by rewrite loc_mask_names|].
  simpl. apply Forall_fmap, Forall_forall. intros [name s] Hin. simpl.
  eapply Forall_forall in Hlen; [|done]. simpl in Hlen.
  rewrite (Series_len_boolean_index mask s _ Hlen).
  apply length_boolean_index_eq. by rewrite length_seq.
Qed.

End TableFacts.

Module FillFacts.
Import Pandas Python App Spec Examples Terms.
Import PandasFacts PythonFacts StatFacts CleaningFacts TableFacts.

(** ** When the statistics exist *)

Lemma mean_None `{pd : installed_pandas} vs :
  present vs = [] → mean vs = None.
Proof. unfold mean. by intros ->. Qed.

Lemma median_None `{pd : installed_pandas} vs :
  present vs = [] → median vs = None.
Proof. unfold median. by intros ->. Qed.

Lemma statistic_None `{pd : installed_pandas} s vs :
  present vs = [] → statistic s vs = None.
Proof.
  intros Hnil. destruct s; simpl; [done| | | |done].
  - by apply mean_None.
  - by apply median_None.
  - by rewrite mode_nil.
Qed.

(** A statistic that is a number is the statistic of a column that
    holds a value. *)
Lemma statistic_Some_present `{pd : installed_pandas} s vs :
  is_Some (statistic s vs) → present vs ≠ [].
Proof. intros [m Hm] Hnil. by rewrite statistic_None in Hm. Qed.

Lemma statistics_have_values `{pd : installed_pandas} s t :
  statistics_are_numbers s t → numeric_columns_have_values t.
Proof.
  intros Hnum. eapply Forall_impl; [exact Hnum|].
  intros [name c]. destruct c; simpl; [|done..].
  apply statistic_Some_present.
Qed.

(** The mode of a column that holds a value is a number. *)
Lemma mode_is_Some vs : present vs ≠ [] → is_Some (head (mode vs)).
Proof.
  intros Hne%mode_nonempty. destruct (mode vs); [done|]. simpl. eauto.
Qed.

Lemma fill_Some_complete m (vs : list (option float64)) :
  None ∉ fill (Some m) <$> vs.
Proof.
  intros ([x|] & Hx & _)%list_elem_of_fmap; done.
Qed.

Lemma fill_None (vs : list (option float64)) : fill None <$> vs = vs.
Proof.
  transitivity (id <$> vs); [|apply list_fmap_id].
  apply list_fmap_ext. by intros _ [x|] _.
Qed.

Lemma present_fill value vs :
  present vs ≠ [] → present (fill value <$> vs) ≠ [].
Proof.
  unfold present. induction vs as [|[x|] vs IH]; simpl; [done|done|].
  intros Hne. destruct value; simpl; [done|]. by apply IH.
Qed.

(** ** The table after the loop *)

Lemma fill_columns_names `{pd : installed_pandas} s cols t :
  column_names (fill_columns s cols t) = column_names t.
Proof.
  unfold column_names, fill_columns. simpl. rewrite <- list_fmap_compose.
  apply list_fmap_ext. intros _ c _. simpl. by case_decide.
Qed.

Lemma imputed_column_is_number stat c :
  is_number (imputed_column stat c) = is_number c.
Proof. by destruct c. Qed.

Lemma imputed_column_len stat c :
  Series_len (imputed_column stat c) = Series_len c.
Proof. destruct c; simpl; [|done..]. by rewrite length_fmap. Qed.

Lemma select_dtypes_number_fmap (f : string * Series → string * Series)
    idx idx' cs :
  (∀ c, (f c).1 = c.1 ∧ is_number (f c).2 = is_number c.2) →
  select_dtypes_number {| index := idx'; columns := f <$> cs |}
  = select_dtypes_number {| index := idx; columns := cs |}.
Proof.
  intros Hf. unfold select_dtypes_number. simpl.
  induction cs as [|c cs IH]; [done|]. rewrite fmap_cons.
  destruct (Hf c) as [Hname Hnum].
  destruct (is_number c.2) eqn:Hc.
  - rewrite !filter_cons_True by congruence. rewrite !fmap_cons.
    by rewrite IH, Hname.
  - rewrite !filter_cons_False by congruence. done.
Qed.

Lemma fill_columns_schema `{pd : installed_pandas} s cols t :
  same_schema t (fill_columns s cols t).
Proof.
  split; [apply fill_columns_names|]. destruct t as [idx cs].
  unfold fill_columns. simpl. apply select_dtypes_number_fmap.
  intros c. case_decide; simpl; [|done].
  split; [done|apply imputed_column_is_number].
Qed.

Lemma loc_mask_schema mask t : same_schema t (loc_mask mask t).
Proof.
  split; [apply loc_mask_names|]. destruct t as [idx cs].
  unfold loc_mask. simpl. apply select_dtypes_number_fmap.
  intros [name c]. split; [done|]. by destruct c.
Qed.

Lemma well_formed_fill_columns `{pd : installed_pandas} s cols t :
  well_formed t → well_formed (fill_columns s cols t).
Proof.
  intros [Hnd Hlen]. split; [by rewrite fill_columns_names|].
  simpl. apply Forall_fmap, Forall_forall. intros c Hin. simpl.
  eapply Forall_forall in Hlen; [|done].
  case_decide; simpl; [|done]. by rewrite imputed_column_len.
Qed.

Lemma fill_columns_complete `{pd : installed_pandas} s t :
  statistics_are_numbers s t →
  numeric_columns_complete (fill_columns s (select_dtypes_number t) t).
Proof.
  intros Hvals. unfold numeric_columns_complete, fill_columns. simpl.
  apply Forall_fmap, Forall_forall. intros [name c] Hin. simpl.
  eapply Forall_forall in Hvals; [|done]. simpl in Hvals.
  destruct c as [vs| |]; simpl.
  - rewrite decide_True by (apply elem_of_select_dtypes_number; eauto).
    simpl. destruct Hvals as [m ->]. apply fill_Some_complete.
  - by case_decide.
  - by case_decide.
Qed.

Lemma fill_columns_have_values `{pd : installed_pandas} s cols t :
  numeric_columns_have_values t →
  numeric_columns_have_values (fill_columns s cols t).
Proof.
  intros Hvals. unfold numeric_columns_have_values, fill_columns. simpl.
  apply Forall_fmap, Forall_forall. intros [name c] Hin. simpl.
  eapply Forall_forall in Hvals; [|done]. simpl in Hvals.
  case_decide; simpl; [|done]. destruct c; simpl; [|done..].
  by apply present_fill.
Qed.

(** Filling a table that has nothing missing changes nothing. *)
Lemma fill_columns_of_complete `{pd : installed_pandas} s cols t :
  numeric_columns_complete t → fill_columns s cols t = t.
Proof.
  intros Hc. destruct t as [idx cs]. unfold fill_columns. simpl. f_equal.
  transitivity (id <$> cs); [|apply list_fmap_id].
  apply list_fmap_ext. intros k [name c] Hk. simpl.
  case_decide; [|done]. f_equal.
  eapply Forall_forall in Hc; [|by eapply list_elem_of_lookup_2].
  destruct c; simpl in *; [|done..]. by rewrite fill_no_missing.
Qed.

(** The run of a filling strategy, in one equation. *)
(** ** What a fill through the view leaves *)

Lemma through_view_schema `{pd : installed_pandas} s cols t :
  same_schema t (through_view (fill_columns s cols) t).
Proof.
  unfold through_view. destruct copy_on_write; [done|].
  apply fill_columns_schema.
Qed.

Lemma through_view_index `{pd : installed_pandas} s cols t :
  index (through_view (fill_columns s cols) t) = index t.
Proof. unfold through_view. by destruct copy_on_write. Qed.

Lemma well_formed_through_view `{pd : installed_pandas} s cols t :
  well_formed t → well_formed (through_view (fill_columns s cols) t).
Proof.
  unfold through_view. destruct copy_on_write; [done|].
  apply well_formed_fill_columns.
Qed.

Lemma through_view_of_complete `{pd : installed_pandas} s cols t :
  numeric_columns_complete t → through_view (fill_columns s cols) t = t.
Proof.
  unfold through_view. destruct copy_on_write; [done|].
  apply fill_columns_of_complete.
Qed.

(** The run of a filling strategy, in one equation. *)
Lemma imputeMissing_fill_state `{pd : installed_pandas} s df key t w :
  fill_strategy s →
  heap w !! df = Some t →
  NoDup (column_names t) →
  (s = Mode → numeric_columns_have_values t) →
  ∃ w',
    imputeMissing df key s w = (w', Return df)
    ∧ heap w'
      = <[df := through_view (fill_columns s (select_dtypes_number t)) t]>
          (heap w)
    ∧ (select_dtypes_number t = [] → w' = warned w)
    ∧ (select_dtypes_number t ≠ [] →
       session_state w' = <[df_key key := Some df]> (session_state w)
       ∧ page w' = page w).
Proof.
  intros Hs Hdf Hnd Hvals.
  rewrite (imputeMissing_fill_run s df key t w) by done.
  case_decide as Hnum.
  - exists (warned w). split_and!; [done| |done|done].
    unfold through_view. rewrite Hnum, fill_columns_nil. simpl.
    destruct copy_on_write; by rewrite list_insert_id.
  - eexists. split_and!; [done|done|done|]. done.
Qed.

End FillFacts.

(* ================================================================== *)
(** * The cleaning block, beyond the claims *)

Module ImputationFacts.
Import Pandas Python App Spec Examples Terms.
Import PandasFacts PythonFacts StatFacts CleaningFacts CleaningClaims.
Import TableFacts FillFacts.

(** X3: With a pandas in which [df[col]] is a view of the table
    (copy-on-write off): after Mean, Median or Mode on a table for
    whose numeric columns the statistic is a number, no numeric column
    has a missing entry; no row is added or dropped and the schema is
    as before. *)
Theorem imputeMissing_leaves_nothing_missing `{pd : installed_pandas}
    w df key s t :
  copy_on_write = false →
  fill_strategy s →
  heap w !! df = Some t →
  well_formed t →
  statistics_are_numbers s t →
  ∃ w' t',
    imputeMissing df key s w = (w', Return df)
    ∧ heap w' !! df = Some t'
    ∧ numeric_columns_complete t'
    ∧ index t' = index t
    ∧ same_schema t t'
    ∧ well_formed t'.
Proof.
  intros Hview Hs Hdf Hwf Hnum.
  assert (numeric_columns_have_values t) as Hvals
    by (by eapply statistics_have_values).
  destruct (imputeMissing_fill_state s df key t w Hs Hdf (proj1 Hwf)
              (λ _, Hvals)) as (w' & Hrun & Hheap & _).
  rewrite through_view_off in Hheap by done.
  exists w', (fill_columns s (select_dtypes_number t) t).
  split_and!; [done| | |done| |].
  - rewrite Hheap. apply list_lookup_insert_eq. by eapply lookup_lt_Some.
  - by apply fill_columns_complete.
  - apply fill_columns_schema.
  - by apply well_formed_fill_columns.
Qed.

Lemma imputeMissing_leaves_nothing_missing_witness :
  ∃ w' t',
    imputeMissing (pd := pandas_2) 0%nat "a" Median (world_with tie)
    = (w', Return 0%nat)
    ∧ heap w' !! 0%nat = Some t'
    ∧ numeric_columns_complete t'
    ∧ index t' = index tie
    ∧ same_schema tie t'
    ∧ well_formed t'.
Proof.
  apply (imputeMissing_leaves_nothing_missing (pd := pandas_2)
           (world_with tie) 0%nat "a" Median tie).
  - reflexivity.
  - by_evaluation.
  - reflexivity.
  - by_evaluation.
  - by_evaluation.
Defined.

(** X4: Mean and Median on a numeric column that holds no value at all:
    the column stays as it is, all missing, and the call completes like
    any other, without a message. *)
Theorem imputeMissing_mean_median_hollow `{pd : installed_pandas}
    w df key s t name vs :
  s = Mean ∨ s = Median →
  heap w !! df = Some t →
  well_formed t →
  (name, Numeric vs) ∈ columns t →
  present vs = [] →
  ∃ w' t',
    imputeMissing df key s w = (w', Return df)
    ∧ heap w' !! df = Some t'
    ∧ lookup_column name (columns t') = Some (Numeric vs)
    ∧ page w' = page w.
Proof.
  intros Hs Hdf [Hnd _] Hin Hempty.
  assert (fill_strategy s) as Hfill by (destruct Hs; [by left|right; by left]).
  assert (s = Mode → numeric_columns_have_values t) as Hmode
    by (intros ->; by destruct Hs).
  destruct (imputeMissing_fill_state s df key t w Hfill Hdf Hnd Hmode)
    as (w' & Hrun & Hheap & _ & Hpage).
  exists w', (through_view (fill_columns s (select_dtypes_number t)) t).
  split_and!; [done| | |].
  - rewrite Hheap. apply list_lookup_insert_eq. by eapply lookup_lt_Some.
  - unfold through_view. destruct copy_on_write;
      [by apply lookup_column_unique|].
    rewrite (lookup_column_Forall2 _ _ _ _ (fill_columns_numeric _ _)).
    rewrite (lookup_column_unique _ _ _ Hnd Hin). simpl.
    by rewrite statistic_None, fill_None.
  - apply Hpage. intros Hnil.
    assert (name ∈ select_dtypes_number t) as Hname
      by (apply elem_of_select_dtypes_number; eauto).
    rewrite Hnil in Hname. by apply elem_of_nil in Hname.
Qed.

Lemma imputeMissing_mean_median_hollow_witness :
  ∃ w' t',
    imputeMissing (pd := pandas_2) 0%nat "a" Mean (world_with hollow)
    = (w', Return 0%nat)
    ∧ heap w' !! 0%nat = Some t'
    ∧ lookup_column "y" (columns t') = Some (Numeric [NaN; NaN])
    ∧ page w' = page (world_with hollow).
Proof.
  apply (imputeMissing_mean_median_hollow (pd := pandas_2)
           (world_with hollow) 0%nat "a" Mean hollow "y" [NaN; NaN]).
  - by left.
  - reflexivity.
  - by_evaluation.
  - by_evaluation.
  - reflexivity.
Defined.

(** X5: A second imputation changes nothing: once a filling strategy has
    run on a table whose numeric columns each hold a value, any filling
    strategy run after it returns the same object with the same content
    and leaves the session state as it is.  Where the fills reach the
    table, the statistics of the first strategy have to be numbers: a
    NaN mean fills nothing, and leaves the entries to the second
    strategy. *)
Theorem imputeMissing_twice `{pd : installed_pandas} w df key s1 s2 t :
  fill_strategy s1 →
  fill_strategy s2 →
  heap w !! df = Some t →
  well_formed t →
  numeric_columns_have_values t →
  (copy_on_write = false → statistics_are_numbers s1 t) →
  ∃ w1 w2,
    imputeMissing df key s1 w = (w1, Return df)
    ∧ imputeMissing df key s2 w1 = (w2, Return df)
    ∧ heap w2 = heap w1
    ∧ session_state w2 = session_state w1.
Proof.
  intros Hs1 Hs2 Hdf Hwf Hvals Hnum.
  destruct (imputeMissing_fill_state s1 df key t w Hs1 Hdf (proj1 Hwf)
              (λ _, Hvals)) as (w1 & Hrun1 & Hheap1 & Hnil1 & Hset1).
  set (t1 := through_view (fill_columns s1 (select_dtypes_number t)) t)
    in *.
  assert (heap w1 !! df = Some t1) as Hdf1.
  { rewrite Hheap1. apply list_lookup_insert_eq. by eapply lookup_lt_Some. }
  assert (well_formed t1) as Hwf1 by (by apply well_formed_through_view).
  assert (numeric_columns_have_values t1) as Hvals1.
  { unfold t1, through_view. destruct copy_on_write; [done|].
    by apply fill_columns_have_values. }
  assert (through_view (fill_columns s2 (select_dtypes_number t1)) t1 = t1)
    as Hsame1.
  { destruct copy_on_write eqn:Hcow; [by apply through_view_on|].
    apply through_view_of_complete. unfold t1.
    rewrite through_view_off by done. apply fill_columns_complete; auto. }
  destruct (imputeMissing_fill_state s2 df key t1 w1 Hs2 Hdf1 (proj1 Hwf1)
              (λ _, Hvals1)) as (w2 & Hrun2 & Hheap2 & Hnil2 & Hset2).
  exists w1, w2. split_and!; [done..| |].
  - rewrite Hheap2, Hsame1. by apply list_insert_id.
  - assert (select_dtypes_number t1 = select_dtypes_number t) as Hsame
      by apply through_view_schema.
    destruct (decide (select_dtypes_number t = [])) as [Hnil|Hne].
    + rewrite Hnil2 by congruence. done.
    + destruct Hset1 as [Hss1 _]; [done|].
      destruct Hset2 as [Hss2 _]; [congruence|].
      rewrite Hss2, Hss1. apply insert_insert_eq.
Qed.

Lemma imputeMissing_twice_witness :
  ∃ w1 w2,
    imputeMissing (pd := pandas_2) 0%nat "a" Median (world_with gap)
    = (w1, Return 0%nat)
    ∧ imputeMissing (pd := pandas_2) 0%nat "a" Mode w1 = (w2, Return 0%nat)
    ∧ heap w2 = heap w1
    ∧ session_state w2 = session_state w1.
Proof.
  apply (imputeMissing_twice (pd := pandas_2)
           (world_with gap) 0%nat "a" Median Mode gap).
  - by_evaluation.
  - by_evaluation.
  - reflexivity.
  - by_evaluation.
  - by_evaluation.
  - intros _. by_evaluation.
Defined.

(** Why the statistics have to be numbers: the mean of a column that
    holds both infinities is NaN, so Mean fills nothing, and Mode, run
    after it, fills the missing entry with its own value. *)
Example second_fill_after_a_NaN_mean :
  let w1 := {| heap := [poles];
               session_state := {[ "df_a" := Some 0%nat ]};
               page := [] |} in
  imputeMissing (pd := pandas_2) 0%nat "a" Mean (world_with poles)
  = (w1, Return 0%nat)
  ∧ heap (imputeMissing (pd := pandas_2) 0%nat "a" Mode w1).1
    = [{| index := [0; 1; 2]%nat;
          columns :=
            [("x", Numeric [Some PosInf; Some NegInf; Some NegInf])] |}].
Proof. split; by_evaluation. Qed.

End ImputationFacts.

Module DropRowsFacts.
Import Pandas Python App Spec Examples Terms.
Import PandasFacts PythonFacts StatFacts CleaningFacts CleaningClaims.
Import TableFacts FillFacts.

(** ** Drop Rows *)

Lemma nth_true_true mask p i : nth_true mask p = Some i → mask !! i = Some true.
Proof.
  revert p i. induction mask as [|b mask IH]; intros p i; simpl; [done|].
  destruct b; [destruct p as [|p]|].
  - by intros [= <-].
  - destruct (nth_true mask p) as [j|] eqn:Hj; simpl; [|done].
    intros [= <-]. by apply (IH p).
  - destruct (nth_true mask p) as [j|] eqn:Hj; simpl; [|done].
    intros [= <-]. by apply (IH p).
Qed.

Lemma row_has_na_numeric t name vs i :
  (name, Numeric vs) ∈ columns t →
  vs !! i = Some None →
  row_has_na (select_dtypes_number t) t i = true.
Proof.
  intros Hin Hi. unfold row_has_na. apply existsb_exists.
  exists (name, Numeric vs). split; [by apply list_elem_of_In|]. simpl.
  apply andb_true_iff. split; apply bool_decide_eq_true; [|done].
  apply elem_of_select_dtypes_number. eauto.
Qed.

Lemma dropna_complete t :
  numeric_columns_complete (dropna (select_dtypes_number t) t).
Proof.
  unfold numeric_columns_complete, dropna, loc_mask. simpl.
  apply Forall_fmap, Forall_forall. intros [name c] Hin. simpl.
  destruct c as [vs| |]; simpl; [|done..].
  intros [p Hp]%list_elem_of_lookup_1. rewrite boolean_index_lookup in Hp.
  destruct (nth_true _ p) as [i|] eqn:Hi; simpl in Hp; [|done].
  apply nth_true_true in Hi. rewrite list_lookup_fmap in Hi.
  destruct (seq 0 (length (index t)) !! i) as [j|] eqn:Hj; [|done].
  apply lookup_seq in Hj as [-> _]. simpl in Hi. injection Hi as Hi.
  by rewrite (row_has_na_numeric t name vs i) in Hi.
Qed.

Lemma no_numeric_complete t :
  select_dtypes_number t = [] → numeric_columns_complete t.
Proof.
  intros Hnil. apply Forall_forall. intros [name c] Hin.
  destruct c as [vs| |]; simpl; [|done..].
  assert (name ∈ select_dtypes_number t) as Hname
    by (apply elem_of_select_dtypes_number; eauto).
  rewrite Hnil in Hname. by apply elem_of_nil in Hname.
Qed.

(** X6: Drop Rows leaves no missing entry in any numeric column.  The
    table it was given is not modified: the result is another object,
    with the same schema. *)
Theorem drop_rows_leaves_nothing_missing `{pd : installed_pandas}
    w df key t :
  heap w !! df = Some t →
  ∃ w' r t',
    imputeMissing df key DropRows w = (w', Return r)
    ∧ heap w' !! r = Some t'
    ∧ numeric_columns_complete t'
    ∧ same_schema t t'
    ∧ (well_formed t → well_formed t')
    ∧ heap w' !! df = Some t.
Proof.
  intros Hdf. rewrite (imputeMissing_drop_rows_run df key t w Hdf).
  case_decide as Hnum.
  - exists (warned w), df, t.
    split_and!; [done|done|by apply no_numeric_complete|done|done|done].
  - eexists _, _, _. split_and!; [done|apply lookup_new| | | |].
    + apply dropna_complete.
    + apply loc_mask_schema.
    + apply well_formed_loc_mask.
    + simpl. rewrite lookup_app_l; [done|]. by eapply lookup_lt_Some.
Qed.

Lemma drop_rows_leaves_nothing_missing_witness :
  ∃ w' r t',
    imputeMissing (pd := pandas_3) 0%nat "a" DropRows (world_with gap)
    = (w', Return r)
    ∧ heap w' !! r = Some t'
    ∧ numeric_columns_complete t'
    ∧ same_schema gap t'
    ∧ (well_formed gap → well_formed t')
    ∧ heap w' !! 0%nat = Some gap.
Proof.
  apply (drop_rows_leaves_nothing_missing (pd := pandas_3)
           (world_with gap) 0%nat "a" gap).
  reflexivity.
Defined.

(** ** Mode, stopped half-way *)

Lemma for_each_mode_stops `{pd : installed_pandas} df bad post pre :
  NoDup (pre ++ bad :: post) →
  ∀ t w,
    heap w !! df = Some t →
    NoDup (column_names t) →
    (∀ col, col ∈ pre →
            ∃ c, lookup_column col (columns t) = Some c
                 ∧ mode (numeric_values c) ≠ []) →
    (∃ c, lookup_column bad (columns t) = Some c
          ∧ mode (numeric_values c) = []) →
    for_each (pre ++ bad :: post) (impute_column Mode df) w
    = (set_heap (<[df := through_view (fill_columns Mode pre) t]> (heap w))
         w,
       Raise (KeyError "0")).
Proof.
  induction pre as [|col pre IH]; intros Hnd t w Hdf Hnames Hpre Hbad.
  - destruct Hbad as (c & Hc & Hempty). cbn [app for_each].
    rewrite (bind_raise _ _ _ _ _
               (impute_column_raises _ _ _ _ _ Hdf Hc Hempty)).
    unfold through_view. rewrite fill_columns_nil.
    destruct copy_on_write; by rewrite store_same.
  - destruct (Hpre col) as (c & Hc & Hmode); [left|].
    apply NoDup_cons in Hnd as [Hfresh Hnd].
    assert (fill_strategy Mode) as Hs by (right; by right).
    rewrite <- app_comm_cons. cbn [for_each].
    rewrite (bind_return _ _ _ _ _
               (impute_column_ok _ _ _ _ _ _ Hs Hdf Hc (λ _, Hmode))).
    destruct copy_on_write eqn:Hcow.
    { rewrite !through_view_on, store_same by done.
      rewrite (IH Hnd t w)
        by (try done; intros col' ?; apply Hpre; by right).
      by rewrite through_view_on, store_same. }
    rewrite !through_view_off by done.
    rewrite (IH Hnd (set_column col (imputed_column (statistic Mode) c) t)).
    + simpl. rewrite list_insert_insert_eq, through_view_off by done.
      rewrite fill_columns_step; [done|done| |done].
      intros Hin. apply Hfresh. apply elem_of_app. by left.
    + simpl. apply list_lookup_insert_eq. by eapply lookup_lt_Some.
    + unfold column_names, set_column; simpl.
      by rewrite replace_column_names.
    + intros col' Hin. destruct (Hpre col') as (c' & Hc' & Hmode');
        [by right|].
      exists c'. split; [|done]. simpl.
      rewrite lookup_replace_column_ne; [done|]. intros ->.
      apply Hfresh. apply elem_of_app. by left.
    + destruct Hbad as (cb & Hcb & Hempty). exists cb. split; [|done].
      simpl. rewrite lookup_replace_column_ne; [done|]. intros ->.
      apply Hfresh. apply elem_of_app. right. left.
Qed.

(** X7: When Mode meets a numeric column without a value, the call
    raises and the session state is not written.  With a pandas in
    which [df[col]] is a view of the table, the numeric columns before
    that column are by then filled in the very object the session state
    holds, so the cached table has changed; under copy-on-write no
    fill reaches the table, and it is as it was. *)
Theorem imputeMissing_mode_partial_fill `{pd : installed_pandas}
    w df key t pre bad post :
  heap w !! df = Some t →
  well_formed t →
  select_dtypes_number t = pre ++ bad :: post →
  (∀ col, col ∈ pre →
          ∃ vs, (col, Numeric vs) ∈ columns t ∧ present vs ≠ []) →
  (∃ vs, (bad, Numeric vs) ∈ columns t ∧ present vs = []) →
  imputeMissing df key Mode w
  = ({| heap := <[df := if copy_on_write then t
                        else fill_columns Mode pre t]> (heap w);
        session_state := session_state w;
        page := page w |}, Raise (KeyError "0")).
Proof.
  intros Hdf [Hnd _] Hcols Hpre (vb & Hb & Hempty).
  assert (Hloop :
    for_each (select_dtypes_number t) (impute_column Mode df) w
    = (set_heap (<[df := through_view (fill_columns Mode pre) t]> (heap w))
         w,
       Raise (KeyError "0"))).
  { rewrite Hcols. apply for_each_mode_stops; try done.
    - rewrite <- Hcols. by apply NoDup_select_dtypes_number.
    - intros col (vs & Hin & Hne)%Hpre. exists (Numeric vs).
      split; [by apply lookup_column_unique|]. by apply mode_nonempty.
    - exists (Numeric vb). split; [by apply lookup_column_unique|].
      by apply mode_nil. }
  unfold imputeMissing.
  rewrite (bind_return _ _ _ _ _ (deref_ok _ _ _ Hdf)). cbv zeta.
  rewrite decide_False by (rewrite Hcols; by destruct pre).
  by rewrite (bind_raise _ _ _ _ _ Hloop).
Qed.

Lemma imputeMissing_mode_partial_fill_witness :
  imputeMissing (pd := pandas_2) 0%nat "a" Mode (world_with hollow)
  = ({| heap := <[0%nat := if copy_on_write (installed_pandas := pandas_2)
                           then hollow
                           else fill_columns (pd := pandas_2) Mode ["x"]
                                  hollow]>
                  (heap (world_with hollow));
        session_state := session_state (world_with hollow);
        page := page (world_with hollow) |}, Raise (KeyError "0")).
Proof.
  apply (imputeMissing_mode_partial_fill (pd := pandas_2)
           (world_with hollow) 0%nat "a" hollow ["x"] "y" []).
  - reflexivity.
  - by_evaluation.
  - reflexivity.
  - intros col ->%list_elem_of_singleton. exists [num 3; NaN].
    split; by_evaluation.
  - exists [NaN; NaN]. split; [by_evaluation|reflexivity].
Defined.

End DropRowsFacts.

Module SchemaFacts.
Import Pandas Python App Spec Examples Terms.
Import PandasFacts PythonFacts StatFacts CleaningFacts CleaningClaims.
Import TableFacts FillFacts DropRowsFacts.

(** ** The schema through [handle_data_cleaning] *)

Lemma boolean_index_sublist {A} mask (l : list A) :
  boolean_index mask l `sublist_of` l.
Proof.
  revert l. induction mask as [|b mask IH]; intros [|x l]; simpl;
    try apply sublist_nil_l.
  destruct b; [by apply sublist_skip|by apply sublist_cons].
Qed.

Lemma hollow_column_exists t :
  ¬ numeric_columns_have_values t →
  ∃ name vs, (name, Numeric vs) ∈ columns t ∧ present vs = [].
Proof.
  intros Hno. apply not_Forall_Exists in Hno; [|apply _].
  apply Exists_exists in Hno as ([name c] & Hin & Hc). simpl in Hc.
  destruct c as [vs| |]; simpl in Hc; [|by destruct Hc..].
  exists name, vs. split; [done|]. by destruct (present vs); [|destruct Hc].
Qed.

Lemma imputeMissing_schema `{pd : installed_pandas} w df key s t w' r :
  heap w !! df = Some t →
  well_formed t →
  imputeMissing df key s w = (w', Return r) →
  ∃ t', heap w' !! r = Some t'
        ∧ same_schema t t'
        ∧ well_formed t'
        ∧ index t' `sublist_of` index t.
Proof.
  intros Hdf Hwf Hrun.
  assert (Hfill : fill_strategy s →
    ∃ t', heap w' !! r = Some t' ∧ same_schema t t' ∧ well_formed t'
          ∧ index t' `sublist_of` index t).
  { intros Hs.
    assert (s = Mode → numeric_columns_have_values t) as Hmode.
    { intros ->. destruct (decide (numeric_columns_have_values t))
        as [|Hno]; [done|]. exfalso.
      apply hollow_column_exists in Hno.
      destruct (imputeMissing_mode_run_raises df key t w Hdf (proj1 Hwf) Hno)
        as [t' Hraise].
      rewrite Hraise in Hrun. discriminate Hrun. }
    destruct (imputeMissing_fill_state s df key t w Hs Hdf (proj1 Hwf) Hmode)
      as (w1 & Hrun1 & Hheap & _).
    rewrite Hrun1 in Hrun. injection Hrun as <- <-.
    exists (through_view (fill_columns s (select_dtypes_number t)) t).
    split_and!.
    - rewrite Hheap. apply list_lookup_insert_eq. by eapply lookup_lt_Some.
    - apply through_view_schema.
    - by apply well_formed_through_view.
    - by rewrite through_view_index. }
  destruct s.
  - injection Hrun as <- <-. by exists t.
  - apply Hfill. by left.
  - apply Hfill. right. by left.
  - apply Hfill. right. by right.
  - rewrite (imputeMissing_drop_rows_run df key t w Hdf) in Hrun.
    case_decide as Hnum; injection Hrun as <- <-.
    + by exists t.
    + eexists. split_and!; [apply lookup_new| | |].
      * apply loc_mask_schema.
      * by apply well_formed_loc_mask.
      * apply boolean_index_sublist.
Qed.

(** X8: Whatever the button and the strategy, the table that
    [handle_data_cleaning] returns has the columns of the table it was
    given, under the same labels, in the same order and of the same
    kind; its rows are rows of that table, in their order; and it
    satisfies the table invariant. *)
Theorem handle_data_cleaning_keeps_schema `{pd : installed_pandas}
    w df key clicked s t w' r :
  heap w !! df = Some t →
  well_formed t →
  handle_data_cleaning df key clicked s w = (w', Return r) →
  ∃ t', heap w' !! r = Some t'
        ∧ same_schema t t'
        ∧ well_formed t'
        ∧ index t' `sublist_of` index t.
Proof.
  intros Hdf Hwf. unfold handle_data_cleaning. destruct clicked.
  - rewrite (bind_return _ _ _ _ _ (removeDuplicates_run df key t w Hdf)).
    intros Hrun.
    eapply (imputeMissing_schema _ _ _ _ (drop_duplicates t)) in Hrun
      as (t' & Ht' & [Hnames Hnum] & Hwf' & Hidx).
    + exists t'. split_and!; [done| |done|].
      * destruct (loc_mask_schema (negb <$> duplicated t) t) as [Hn Hk].
        split; [by rewrite Hnames|by rewrite Hnum].
      * etrans; [done|]. apply boolean_index_sublist.
    + apply lookup_new.
    + by apply well_formed_loc_mask.
  - rewrite (bind_return _ _ w w df) by done.
    by apply imputeMissing_schema.
Qed.

Lemma handle_data_cleaning_keeps_schema_witness :
  ∃ t', heap {| heap := [a_csv; a_clean];
                session_state := {[ "df_a" := Some 1%nat ]};
                page := [st_success "Duplicates removed!"] |} !! 1%nat
        = Some t'
        ∧ same_schema a_csv t'
        ∧ well_formed t'
        ∧ index t' `sublist_of` index a_csv.
Proof.
  apply (handle_data_cleaning_keeps_schema (pd := pandas_2)
           (world_with a_csv) 0%nat "a" true Mean a_csv).
  - reflexivity.
  - by_evaluation.
  - by_evaluation.
Defined.

End SchemaFacts.

(* ================================================================== *)
(** * What the cleaning block leaves alone *)

Module FrameFacts.
Import Pandas Python App Spec Examples Terms Frames.
Import PandasFacts PythonFacts StatFacts CleaningFacts.

Lemma bind_inv {A B} (m : Py A) (k : A → Py B) w w' o :
  (m ≫= k) w = (w', o) →
  (∃ w1 a, m w = (w1, Return a) ∧ k a w1 = (w', o))
  ∨ (∃ e, m w = (w', Raise e) ∧ o = Raise e).
Proof.
  unfold mbind, Py_bind, bind. destruct (m w) as [w1 [a|e]]; intros Hk.
  - left. eauto.
  - right. injection Hk as <- <-. eauto.
Qed.

Lemma only_df_refl df w : only_df df w w.
Proof. exists (heap w). by rewrite set_heap_id. Qed.

Lemma only_df_trans df w w1 w2 :
  only_df df w w1 → only_df df w1 w2 → only_df df w w2.
Proof.
  intros (h1 & -> & Hlen1 & Hh1) (h2 & -> & Hlen2 & Hh2). exists h2.
  split_and!; [done|simpl in *; congruence|].
  intros r Hr. simpl in *. by rewrite Hh2, Hh1.
Qed.

Lemma only_df_store df x w :
  only_df df w (set_heap (<[df := x]> (heap w)) w).
Proof.
  eexists. split_and!; [done|apply length_insert|].
  intros r Hr. by apply list_lookup_insert_ne.
Qed.

Lemma deref_inv r w w' o :
  deref r w = (w', o) → w' = w.
Proof. unfold deref. destruct (heap w !! r); by intros [= <- _]. Qed.

Lemma getitem_inv df col w w' o :
  getitem df col w = (w', o) → w' = w.
Proof.
  unfold getitem. intros [(w1 & t & Hd & Hk)|(e & Hd & _)]%bind_inv.
  - apply deref_inv in Hd as ->.
    destruct (lookup_column col (columns t)); by injection Hk as <- _.
  - by apply deref_inv in Hd.
Qed.

Lemma fillna_inplace_only_df `{pd : installed_pandas} df col value w w' o :
  fillna_inplace df col value w = (w', o) → only_df df w w'.
Proof.
  unfold fillna_inplace.
  intros [(w1 & c & Hg & Hk)|(e & Hg & _)]%bind_inv.
  - apply getitem_inv in Hg as ->.
    destruct copy_on_write; [injection Hk as <- _; apply only_df_refl|].
    unfold mutate in Hk.
    apply bind_inv in Hk as [(w1 & t & Hd & Hk)|(e & Hd & _)].
    + apply deref_inv in Hd as ->. injection Hk as <- _.
      apply only_df_store.
    + apply deref_inv in Hd as ->. apply only_df_refl.
  - apply getitem_inv in Hg as ->. apply only_df_refl.
Qed.

Lemma impute_column_only_df `{pd : installed_pandas} s df col w w' o :
  impute_column s df col w = (w', o) → only_df df w w'.
Proof.
  destruct s; simpl.
  - intros [= <- _]. apply only_df_refl.
  - intros [(w1 & c & Hg & Hk)|(e & Hg & _)]%bind_inv;
      apply getitem_inv in Hg as ->; [|apply only_df_refl].
    by eapply fillna_inplace_only_df.
  - intros [(w1 & c & Hg & Hk)|(e & Hg & _)]%bind_inv;
      apply getitem_inv in Hg as ->; [|apply only_df_refl].
    by eapply fillna_inplace_only_df.
  - intros [(w1 & c & Hg & Hk)|(e & Hg & _)]%bind_inv;
      apply getitem_inv in Hg as ->; [|apply only_df_refl].
    apply bind_inv in Hk as [(w1 & m & Hm & Hk)|(e & Hm & _)].
    + assert (w1 = w) as ->.
      { unfold getitem_0 in Hm. destruct (mode _); by injection Hm. }
      by eapply fillna_inplace_only_df.
    + assert (w' = w) as ->.
      { unfold getitem_0 in Hm. destruct (mode _); by injection Hm. }
      apply only_df_refl.
  - intros [= <- _]. apply only_df_refl.
Qed.

Lemma for_each_only_df `{pd : installed_pandas} s df cols w w' o :
  for_each cols (impute_column s df) w = (w', o) → only_df df w w'.
Proof.
  revert w. induction cols as [|col cols IH]; intros w.
  - intros [= <- _]. apply only_df_refl.
  - cbn [for_each].
    intros [(w1 & [] & Hc & Hk)|(e & Hc & _)]%bind_inv.
    + eapply only_df_trans; [by eapply impute_column_only_df|by eapply IH].
    + by eapply impute_column_only_df.
Qed.

Lemma touches_only_refl df key w : touches_only df key w w.
Proof.
  split_and!; [|done|done]. exists (heap w), [].
  by rewrite app_nil_r.
Qed.

Lemma only_df_touches df key w w' : only_df df w w' → touches_only df key w w'.
Proof.
  intros (h & -> & Hlen & Hh). split_and!; [|done|done].
  exists h, []. by rewrite app_nil_r.
Qed.

Lemma imputeMissing_touches `{pd : installed_pandas} df key s w w' o :
  imputeMissing df key s w = (w', o) → touches_only df (df_key key) w w'.
Proof.
  assert (Hset : ∀ w1 b (o' : outcome unit), only_df df w w1 →
    session_state_set (df_key key) (Some b) w1 = (w', o') →
    touches_only df (df_key key) w w').
  { intros w1 b o' (h & -> & Hlen & Hh) [= <- _]. split_and!; simpl.
    - exists h, []. by rewrite app_nil_r.
    - intros k Hk. by rewrite lookup_insert_ne.
    - done. }
  assert (Hfill : s ≠ StrategyNone → s ≠ DropRows →
    imputeMissing df key s w = (w', o) → touches_only df (df_key key) w w').
  { intros Hs1 Hs2 Hrun.
    assert (imputeMissing df key s w
            = (t ← deref df;
               if decide (select_dtypes_number t = []) then
                 draw (st_warning "No numeric columns to fill!");; mret df
               else
                 for_each (select_dtypes_number t) (impute_column s df);;
                 session_state_set (df_key key) (Some df);; mret df) w)
      as Heq by (by destruct s).
    rewrite Heq in Hrun. clear Heq.
    apply bind_inv in Hrun as [(w1 & t & Hd & Hk)|(e & Hd & _)];
      apply deref_inv in Hd as ->; [|apply touches_only_refl].
    case_decide as Hnum.
    - injection Hk as <- _. split_and!; simpl; [|done|by apply prefix_app_r].
      exists (heap w), []. by rewrite app_nil_r.
    - apply bind_inv in Hk as [(w1 & [] & Hloop & Hk)|(e & Hloop & _)];
        apply for_each_only_df in Hloop; [|by apply only_df_touches].
      apply bind_inv in Hk as [(w2 & [] & Hss & Hk)|(e & Hss & _)].
      + injection Hk as <- _. by eapply Hset.
      + by eapply Hset. }
  destruct s; try (by apply Hfill).
  - intros [= <- _]. apply touches_only_refl.
  - unfold imputeMissing.
    intros [(w1 & t & Hd & Hk)|(e & Hd & _)]%bind_inv;
      apply deref_inv in Hd as ->; [|apply touches_only_refl].
    cbv zeta in Hk. case_decide as Hnum.
    + injection Hk as <- _. split_and!; simpl; [|done|by apply prefix_app_r].
      exists (heap w), []. by rewrite app_nil_r.
    + rewrite (bind_return _ _ _ _ _ (for_each_skip _ _ _)) in Hk.
      apply bind_inv in Hk as [(w1 & r & Hnew & Hk)|(e & Hnew & _)].
      * apply bind_inv in Hnew as [(w2 & t2 & Hd & Hnew)|(e & Hd & [=])].
        apply deref_inv in Hd as ->. injection Hnew as <- <-.
        apply bind_inv in Hk as [(w2 & [] & Hss & Hk)|(e & [=] & _)].
        injection Hss as <-. injection Hk as <- _.
        split_and!; simpl; [|intros k Hk; by rewrite lookup_insert_ne|done].
        by eexists (heap w), _.
      * apply bind_inv in Hnew as [(w2 & t2 & Hd & [=])|(e' & Hd & _)].
        apply deref_inv in Hd as ->. apply touches_only_refl.
Qed.

Lemma removeDuplicates_inv df key clicked w w1 o1 :
  removeDuplicates df key clicked w = (w1, o1) →
  (clicked = false ∧ w1 = w ∧ o1 = Return df)
  ∨ (clicked = true
     ∧ ∃ t, heap w !! df = Some t
            ∧ w1 = {| heap := heap w ++ [drop_duplicates t];
                      session_state :=
                        <[df_key key := Some (length (heap w))]>
                          (session_state w);
                      page := page w ++ [st_success "Duplicates removed!"] |}
            ∧ o1 = Return (length (heap w)))
  ∨ (clicked = true ∧ heap w !! df = None ∧ w1 = w ∧ ∃ e, o1 = Raise e).
Proof.
  destruct clicked.
  - destruct (heap w !! df) as [t|] eqn:Hdf.
    + rewrite (removeDuplicates_run df key t w Hdf). intros [= <- <-].
      right. left. eauto.
    + unfold removeDuplicates, deref, mbind, Py_bind, bind. rewrite Hdf.
      intros [= <- <-]. right. right. eauto.
  - intros [= <- <-]. by left.
Qed.

(** X9: [handle_data_cleaning] never touches what belongs to another
    file: whatever the button, the strategy and the outcome (an
    exception included), every object that existed before, other than
    the table it was given, is as it was, and that table too when the
    button was pressed; no session entry other than its own is written;
    nothing is taken from the page. *)
Theorem handle_data_cleaning_touches_nothing_else `{pd : installed_pandas}
    w df key clicked s :
  let w' := (handle_data_cleaning df key clicked s w).1 in
  (∀ r, (r < length (heap w))%nat →
        r ≠ df ∨ clicked = true →
        heap w' !! r = heap w !! r)
  ∧ (length (heap w) ≤ length (heap w'))%nat
  ∧ (∀ k, k ≠ df_key key → session_state w' !! k = session_state w !! k)
  ∧ page w `prefix_of` page w'.
Proof.
  destruct (handle_data_cleaning df key clicked s w) as [w' o] eqn:Hrun.
  simpl. unfold handle_data_cleaning in Hrun.
  apply bind_inv in Hrun as [(w1 & df1 & Hrm & Him)|(e & Hrm & _)].
  - apply imputeMissing_touches in Him
      as ((h & extra & Hheap & Hlen & Hh) & Hss & Hpage).
    apply removeDuplicates_inv in Hrm
      as [(-> & -> & [= ->])
         |[(-> & t & Hdf & -> & [= ->])|(_ & _ & _ & ? & ?)]];
      [| |done].
    + split_and!; [|rewrite Hheap, length_app; lia|done|done].
      intros r Hr [Hne|?]; [|done].
      rewrite Hheap, lookup_app_l by lia. by apply Hh.
    + simpl in *. rewrite length_app in Hlen. simpl in Hlen.
      split_and!.
      * intros r Hr _. rewrite Hheap, lookup_app_l by lia.
        rewrite Hh by lia. by apply lookup_app_l.
      * rewrite Hheap, length_app. lia.
      * intros k Hk. rewrite Hss by done. by apply lookup_insert_ne.
      * etrans; [|done]. by apply prefix_app_r.
  - apply removeDuplicates_inv in Hrm
      as [(_ & _ & ?)|[(_ & t & _ & _ & ?)|(_ & _ & -> & _)]]; done.
Qed.

End FrameFacts.

(* ================================================================== *)
(** * The fills under copy-on-write *)

Module CopyOnWriteFacts.
Import Pandas Python App Spec Examples Terms Frames.
Import PandasFacts PythonFacts StatFacts CleaningFacts FillFacts FrameFacts.

Section copy_on_write.
Context `{pd : installed_pandas}.
Hypothesis Hcow : copy_on_write = true.

Lemma fillna_inplace_unchanged df col value w w' o :
  fillna_inplace df col value w = (w', o) → w' = w.
Proof.
  unfold fillna_inplace. rewrite Hcow.
  intros [(w1 & c & Hg & Hk)|(e & Hg & _)]%bind_inv;
    apply getitem_inv in Hg as ->; [|done].
  by injection Hk as <- _.
Qed.

Lemma getitem_0_inv modes w w' (o : outcome float64) :
  getitem_0 modes w = (w', o) → w' = w.
Proof. unfold getitem_0. destruct modes; by intros [= <- _]. Qed.

Lemma impute_column_unchanged s df col w w' o :
  impute_column s df col w = (w', o) → w' = w.
Proof.
  destruct s; simpl.
  - by intros [= <- _].
  - intros [(w1 & c & Hg & Hk)|(e & Hg & _)]%bind_inv;
      apply getitem_inv in Hg as ->; [|done].
    by eapply fillna_inplace_unchanged.
  - intros [(w1 & c & Hg & Hk)|(e & Hg & _)]%bind_inv;
      apply getitem_inv in Hg as ->; [|done].
    by eapply fillna_inplace_unchanged.
  - intros [(w1 & c & Hg & Hk)|(e & Hg & _)]%bind_inv;
      apply getitem_inv in Hg as ->; [|done].
    apply bind_inv in Hk as [(w1 & m & Hm & Hk)|(e & Hm & _)];
      apply getitem_0_inv in Hm as ->; [|done].
    by eapply fillna_inplace_unchanged.
  - by intros [= <- _].
Qed.

Lemma for_each_unchanged s df cols w w' o :
  for_each cols (impute_column s df) w = (w', o) → w' = w.
Proof.
  revert w. induction cols as [|col cols IH]; intros w.
  - by intros [= <- _].
  - cbn [for_each].
    intros [(w1 & [] & Hc & Hk)|(e & Hc & _)]%bind_inv;
      apply impute_column_unchanged in Hc as ->; [by apply IH|done].
Qed.

End copy_on_write.

(** X18: Under copy-on-write (pandas 3.0 and later) Mean, Median and
    Mode change no table, whatever the table and however the call
    ends: the fill of [df[col].fillna(..., inplace=True)] is made in a
    Series of its own.  On a table with a numeric column the call
    still returns the table it was given and writes it to the session
    state, with every missing entry where it was. *)
Theorem imputeMissing_copy_on_write `{pd : installed_pandas} w df key s :
  copy_on_write = true →
  fill_strategy s →
  heap (imputeMissing df key s w).1 = heap w
  ∧ ∀ t,
      heap w !! df = Some t →
      NoDup (column_names t) →
      select_dtypes_number t ≠ [] →
      (s = Mode → numeric_columns_have_values t) →
      imputeMissing df key s w
      = ({| heap := heap w;
            session_state := <[df_key key := Some df]> (session_state w);
            page := page w |}, Return df).
Proof.
  intros Hcow Hs. split.
  - destruct (imputeMissing df key s w) as [w' o] eqn:Hrun. simpl.
    assert (s ≠ StrategyNone ∧ s ≠ DropRows) as [Hnone Hdrop]
      by (destruct Hs as [->|[->| ->]]; done).
    unfold imputeMissing in Hrun.
    assert (Hbody :
      (t ← deref df;
       if decide (select_dtypes_number t = [])
       then draw (st_warning "No numeric columns to fill!");; mret df
       else for_each (select_dtypes_number t) (impute_column s df);;
            session_state_set (df_key key) (Some df);; mret df) w
      = (w', o)) by (by destruct s).
    clear Hrun.
    apply bind_inv in Hbody as [(w1 & t & Hd & Hk)|(e & Hd & _)];
      apply deref_inv in Hd as ->; [|done].
    case_decide; [by injection Hk as <- _|].
    apply bind_inv in Hk as [(w1 & [] & Hloop & Hk)|(e & Hloop & _)];
      apply (for_each_unchanged Hcow) in Hloop as ->; [|done].
    by injection Hk as <- _.
  - intros t Hdf Hnd Hnum Hvals.
    rewrite (imputeMissing_fill_run s df key t w) by done.
    rewrite decide_False, through_view_on by done.
    by rewrite list_insert_id.
Qed.

Lemma imputeMissing_copy_on_write_witness :
  heap (imputeMissing (pd := pandas_3) 0%nat "a" Mean (world_with gap)).1
  = heap (world_with gap)
  ∧ ∀ t,
      heap (world_with gap) !! 0%nat = Some t →
      NoDup (column_names t) →
      select_dtypes_number t ≠ [] →
      (Mean = Mode → numeric_columns_have_values t) →
      imputeMissing (pd := pandas_3) 0%nat "a" Mean (world_with gap)
      = ({| heap := heap (world_with gap);
            session_state :=
              <[df_key "a" := Some 0%nat]>
                (session_state (world_with gap));
            page := page (world_with gap) |}, Return 0%nat).
Proof.
  apply (imputeMissing_copy_on_write (pd := pandas_3)
           (world_with gap) 0%nat "a" Mean).
  - reflexivity.
  - by_evaluation.
Defined.

End CopyOnWriteFacts.

(* ================================================================== *)
(** * Column selection and download name *)

Module ProjectionFacts.
Import Pandas Python App Spec PyStr Examples Terms.
Import PandasFacts PythonFacts PyStrFacts PageClaims TableFacts FrameFacts.

(** ** Column selection *)

Lemma filter_label_nil (cs : list (string * Series)) col :
  filter (λ c, c.1 = col) cs = [] ↔ col ∉ cs.*1.
Proof.
  split.
  - intros Hnil ([name s] & -> & Hin)%list_elem_of_fmap.
    by eapply (filter_nil_not_elem_of _ _ (name, s)) in Hnil.
  - intros Hno. apply filter_none. intros [name s] Hin Hname.
    apply Hno. apply list_elem_of_fmap. exists (name, s). by split.
Qed.

Lemma select_columns_is_Some cols cs :
  is_Some (select_columns cols cs) ↔ cols ⊆ cs.*1.
Proof.
  induction cols as [|col cols IH]; simpl.
  - split; [intros _ c Hc; by apply elem_of_nil in Hc|eauto].
  - destruct (filter (λ c, c.1 = col) cs) as [|c0 found] eqn:Hf.
    + apply filter_label_nil in Hf. split; [by intros [? ?]|].
      intros Hsub. destruct Hf. apply Hsub. left.
    + assert (col ∈ cs.*1) as Hcol.
      { destruct (decide (col ∈ cs.*1)) as [|Hno]; [done|].
        apply filter_label_nil in Hno. congruence. }
      destruct (select_columns cols cs) as [rest|].
      * split; [|eauto]. intros _ c [->|Hc]%elem_of_cons; [done|].
        apply IH; eauto.
      * split; [by intros [? ?]|]. intros Hsub.
        assert (is_Some (None : option (list (string * Series)))) as [? ?];
          [|done].
        apply IH. intros c Hc. apply Hsub. by right.
Qed.

Lemma lookup_column_is_Some col cs :
  col ∈ cs.*1 → is_Some (lookup_column col cs).
Proof.
  induction cs as [|[name s] cs IH]; simpl.
  - by intros ?%elem_of_nil.
  - intros Hin. case_decide as Hn; [eauto|]. apply IH.
    by apply elem_of_cons in Hin as [?|?].
Qed.

(** The columns picked for the labels [cols], as pairs. *)
Lemma select_columns_picks cols all :
  NoDup all.*1 →
  cols ⊆ all.*1 →
  ∃ cs, select_columns cols all = Some cs
        ∧ cs.*1 = cols
        ∧ cs ⊆ all.
Proof.
  intros Hnd. induction cols as [|col cols IH]; intros Hsub.
  - exists []. split_and!; [done..|]. intros c Hc. by apply elem_of_nil in Hc.
  - destruct IH as (cs & Hsel & Hnames & Hin);
      [intros c Hc; apply Hsub; by right|].
    destruct (lookup_column_is_Some col all) as [s Hs]; [apply Hsub; left|].
    apply lookup_column_elem_of in Hs.
    exists ((col, s) :: cs). cbn [select_columns].
    assert (Hone := filter_label_unique all (col, s) Hnd Hs).
    simpl in Hone. rewrite Hone, Hsel.
    split_and!; [done|by rewrite fmap_cons, Hnames|].
    intros c [->|Hc]%elem_of_cons; [done|by apply Hin].
Qed.

(** X10: For labels of the table, [df[selected_cols]] is the table
    narrowed to them: the columns are the selected ones, in the order of
    the selection and with the content they had; the rows are as before;
    with no label selected twice the result satisfies the table
    invariant. *)
Theorem project_selected_columns t cols :
  well_formed t →
  cols ⊆ column_names t →
  ∃ t',
    getitem_list t cols = Some t'
    ∧ column_names t' = cols
    ∧ index t' = index t
    ∧ (∀ c, c ∈ cols →
            lookup_column c (columns t') = lookup_column c (columns t))
    ∧ (NoDup cols → well_formed t').
Proof.
  intros [Hnd Hlen] Hsub.
  destruct (select_columns_picks cols (columns t) Hnd Hsub)
    as (cs & Hsel & Hnames & Hin).
  exists {| index := index t; columns := cs |}. unfold getitem_list.
  rewrite Hsel. split_and!; [done|done|done| |].
  - intros c Hc. simpl. rewrite <- Hnames in Hc.
    destruct (lookup_column_is_Some c cs Hc) as [s Hs]. rewrite Hs.
    symmetry. apply lookup_column_unique; [done|].
    apply Hin. by apply lookup_column_elem_of.
  - intros Hcols. split; [unfold column_names; simpl; by rewrite Hnames|].
    simpl. apply Forall_forall. intros c Hc.
    eapply Forall_forall in Hlen; [done|]. by apply Hin.
Qed.

Lemma project_selected_columns_witness :
  ∃ t',
    getitem_list a_csv ["y"] = Some t'
    ∧ column_names t' = ["y"]
    ∧ index t' = index a_csv
    ∧ (∀ c, c ∈ ["y"] →
            lookup_column c (columns t') = lookup_column c (columns a_csv))
    ∧ (NoDup ["y"] → well_formed t').
Proof.
  apply (project_selected_columns a_csv ["y"]); by_evaluation.
Defined.

(** X11: [df[selected_cols]] raises its [KeyError] exactly when a
    selected label is not a column of the table; nothing is created
    then. *)
Theorem project_missing_label w df t cols :
  heap w !! df = Some t →
  (project df cols w = (w, Raise (KeyError "not in index"))
   ↔ ∃ c, c ∈ cols ∧ c ∉ column_names t).
Proof.
  intros Hdf. unfold project, getitem_columns.
  rewrite (bind_return _ _ _ _ _ (deref_ok _ _ _ Hdf)).
  unfold getitem_list.
  destruct (select_columns cols (columns t)) as [cs|] eqn:Hsel.
  - split; [intros [=]|]. intros (c & Hc & Hno). destruct Hno.
    assert (is_Some (select_columns cols (columns t))) as Hsome by eauto.
    apply select_columns_is_Some in Hsome. by apply Hsome.
  - split; [|done]. intros _.
    destruct (decide (Forall (λ c, c ∈ column_names t) cols)) as [Hall|Hno].
    + assert (is_Some (select_columns cols (columns t))) as [? ?].
      { apply select_columns_is_Some. intros c Hc.
        by eapply Forall_forall in Hall. }
      congruence.
    + apply not_Forall_Exists in Hno; [|apply _].
      apply Exists_exists in Hno as (c & Hc & Hno). eauto.
Qed.

Lemma project_missing_label_witness :
  project 0%nat ["x"; "z"] (world_with a_csv)
  = (world_with a_csv, Raise (KeyError "not in index"))
  ↔ ∃ c, c ∈ ["x"; "z"] ∧ c ∉ column_names a_csv.
Proof.
  apply (project_missing_label (world_with a_csv) 0%nat a_csv ["x"; "z"]).
  reflexivity.
Defined.

(** ** The download name *)

Lemma split_head_stem sep s :
  ∃ stem,
    head (split sep s) = Some stem
    ∧ contains sep stem = false
    ∧ (s = stem ∨ ∃ rest, s = stem +:+ String sep rest).
Proof.
  induction s as [|c s (stem & Hhead & Hno & Hs)]; simpl.
  - exists EmptyString. split_and!; [done|done|by left].
  - destruct (Ascii.eqb_spec c sep) as [->|Hne].
    + exists EmptyString. split_and!; [done|done|]. right. by exists s.
    + exists (String c stem).
      destruct (split sep s) as [|w ws]; simplify_eq/=.
      split_and!; [done| |].
      * rewrite Hno. by apply Ascii.eqb_neq in Hne as ->.
      * destruct Hs as [->|[rest ->]]; [by left|right]. by exists rest.
Qed.

(** X12: For every name, the download name is ["converted_"], then the
    part of the name before its first dot (the whole name when it has
    none, nothing when it starts with a dot), then the extension. *)
Theorem download_file_name_stem name ext :
  ∃ stem,
    download_file_name name ext = "converted_" +:+ stem +:+ ext
    ∧ contains dot stem = false
    ∧ (name = stem ∨ ∃ rest, name = stem +:+ String dot rest).
Proof.
  destruct (split_head_stem dot name) as (stem & Hhead & Hno & Hname).
  exists stem. split_and!; [|done..]. unfold download_file_name.
  by destruct (split dot name); simplify_eq/=.
Qed.

End ProjectionFacts.

(* ================================================================== *)
(** * The chart block *)

Module ChartFacts.
Import Pandas Python App Spec PyStr Examples Terms.
Import PandasFacts PythonFacts PyStrFacts PageClaims TableFacts FrameFacts.
Import ProjectionFacts.

Lemma getitem_columns_ok df t cols data w :
  heap w !! df = Some t →
  getitem_list t cols = Some data →
  getitem_columns df cols w
  = (set_heap (heap w ++ [data]) w, Return (length (heap w))).
Proof.
  intros Hdf Hdata. unfold getitem_columns.
  rewrite (bind_return _ _ _ _ _ (deref_ok _ _ _ Hdf)). by rewrite Hdata.
Qed.



End ChartFacts.

(* ================================================================== *)
(** * The page as a whole *)

Module MainFacts.
Import Pandas Python App Spec PyStr Examples Terms Main MainExamples.
Import PandasFacts PythonFacts CleaningFacts PyStrFacts PageClaims.
Import ProjectionFacts ChartFacts.

(** ** The monad of a run *)

Lemma ui_bind_return {A B} (m : Ui A) (k : A → Ui B) s s' a :
  m s = (s', Return a) → (m ≫= k) s = k a s'.
Proof. intros Hm. unfold mbind, Ui_bind, ui_bind. by rewrite Hm. Qed.

Lemma ui_bind_raise {A B} (m : Ui A) (k : A → Ui B) s s' e :
  m s = (s', Raise e) → (m ≫= k) s = (s', Raise e).
Proof. intros Hm. unfold mbind, Ui_bind, ui_bind. by rewrite Hm. Qed.

Lemma lift_run {A} (m : Py A) s w' o :
  m (run s) = (w', o) →
  lift m s
  = ({| run := w'; notes := notes s; registered := registered s |}, o).
Proof. intros Hm. unfold lift. by rewrite Hm. Qed.

Lemma screen_eta s :
  {| run := run s; notes := notes s; registered := registered s |} = s.
Proof. by destruct s. Qed.

Lemma session_state_lacks_cached key v s :
  session_state (run s) !! key = Some v →
  lift (session_state_lacks key) s = (s, Return false).
Proof.
  intros Hv. unfold lift, session_state_lacks.
  rewrite bool_decide_eq_false_2 by congruence. by rewrite screen_eta.
Qed.

Lemma session_state_lacks_new key s :
  session_state (run s) !! key = None →
  lift (session_state_lacks key) s = (s, Return true).
Proof.
  intros Hv. unfold lift, session_state_lacks.
  rewrite bool_decide_eq_true_2 by done. by rewrite screen_eta.
Qed.

Lemma session_state_get_cached key v s :
  session_state (run s) !! key = Some v →
  lift (session_state_get key) s = (s, Return v).
Proof.
  intros Hv. unfold lift, session_state_get. rewrite Hv.
  by rewrite screen_eta.
Qed.

(** ** Registration *)

Lemma register_new id s :
  id ∉ registered s →
  register id s
  = ({| run := run s; notes := notes s;
        registered := registered s ++ [id] |}, Return tt).
Proof. intros Hnew. unfold register. by rewrite decide_False. Qed.

Lemma register_duplicate id s :
  id ∈ registered s → register id s = (s, Raise (duplicate id)).
Proof. intros Hold. unfold register. by rewrite decide_True. Qed.

Lemma append_nil s : "" +:+ s = s.
Proof. reflexivity. Qed.

(** A closing bracket less on both sides. *)
Lemma append_inj_l a b c : a +:+ c = b +:+ c → a = b.
Proof.
  intros Heq.
  assert (String.length a = String.length b) as Hlen.
  { apply (f_equal String.length) in Heq.
    rewrite !length_append in Heq. lia. }
  revert b Heq Hlen.
  induction a as [|x a IH]; intros [|y b]; simpl; try done.
  intros [= -> Hc] [= Hlen]. f_equal. by apply IH.
Qed.

(** The elements of two files are told apart by the keys of the files,
    but for the select boxes of the axes, which have none. *)
Lemma button_id_inj k1 k2 : button_id k1 = button_id k2 → k1 = k2.
Proof. intros [= H]. rewrite !append_nil in H. by apply append_inj_l in H. Qed.

Ltac unfold_ids :=
  unfold file_ids, chart_ids, uploader_id, button_id, strategy_id,
    columns_id, chart_id, x_axis_id, y_axis_id, format_id, download_id
    in *.

(** An element is not in an explicit list of elements that differ from
    it by their kind, their label or the prefix of their key. *)
Ltac not_among :=
  let H := fresh in
  rewrite ?elem_of_cons, ?elem_of_nil; intros H;
  repeat match goal with
         | H : _ ∨ _ |- _ => destruct H as [H|H]
         | H : False |- _ => destruct H
         | H : _ = _ |- _ => discriminate H
         end.

Lemma NoDup_cleaning_ids key : NoDup [button_id key; strategy_id key].
Proof. unfold_ids. repeat (constructor; [not_among|]); constructor. Qed.




(** Elements that are new to the registry, and differ from each other,
    are new one after the other. *)
Lemma fresh_step (ids : list element_id) pre id post old :
  ids = pre ++ id :: post →
  NoDup ids →
  (∀ x, x ∈ ids → x ∉ old) →
  id ∉ old ++ pre.
Proof.
  intros -> Hnd Hfresh [Hin|Hin]%elem_of_app.
  - apply (Hfresh id); [|done]. apply elem_of_app. right. left.
  - apply NoDup_app in Hnd as (_ & Hapart & _).
    apply (Hapart id Hin). left.
Qed.


(** The elements with a key, and the button: not those of a file with
    another key, whatever columns are selected there. *)
Lemma file_ids_apart k1 k2 cols id :
  k1 ≠ k2 →
  id ∈ [button_id k2; strategy_id k2; columns_id k2; chart_id k2;
        format_id k2; download_id k2] →
  id ∉ uploader_id :: file_ids k1 cols.
Proof.
  intros Hk Hid. unfold_ids.
  rewrite !elem_of_cons, elem_of_nil in Hid.
  destruct Hid as [->|[->|[->|[->|[->|[->|[]]]]]]];
    repeat case_decide; simpl;
    rewrite ?elem_of_cons, ?elem_of_nil; intros Hin;
    repeat destruct Hin as [Hin|Hin];
    first [done|discriminate Hin
          |injection Hin as Hin; rewrite ?append_nil in Hin;
           try apply append_inj_l in Hin; congruence].
Qed.

(** The button and the select box of the cleaning block are new to the
    first file of a run. *)
Lemma first_file_fresh key t s id :
  id ∈ [button_id key; strategy_id key] →
  id ∉ registered (with_overview t (opened s)).
Proof.
  cbn [registered with_overview opened]. unfold_ids.
  rewrite !elem_of_cons, elem_of_nil. intros [->|[->|[]]]; not_among.
Qed.

(** ** The blocks of a file *)

(** The cleaning block does what [handle_data_cleaning] does, once its
    button and its select box are registered. *)
Lemma cleaning_block_run `{pd : installed_pandas}
    df key clicked strategy t s :
  heap (run s) !! df = Some t →
  (∀ id, id ∈ [button_id key; strategy_id key] → id ∉ registered s) →
  cleaning_block df key clicked strategy s
  = ({| run := (handle_data_cleaning df key clicked strategy (run s)).1;
        notes := notes s;
        registered := registered s ++ [button_id key; strategy_id key] |},
     (handle_data_cleaning df key clicked strategy (run s)).2).
Proof.
  intros Hdf Hfresh. unfold cleaning_block, handle_data_cleaning.
  assert (Hstep := λ pre id post H,
            fresh_step _ pre id post (registered s) H
              (NoDup_cleaning_ids key) Hfresh).
  assert (Hbutton := Hstep [] (button_id key) [strategy_id key] eq_refl).
  assert (Hstrategy := Hstep [button_id key] (strategy_id key) [] eq_refl).
  rewrite app_nil_r in Hbutton.
  rewrite (ui_bind_return _ _ _ _ _ (register_new _ _ Hbutton)).
  assert (∃ w0 df0, removeDuplicates df key clicked (run s)
                    = (w0, Return df0)) as (w0 & df0 & Hrm).
  { destruct clicked; [|by eexists _, _].
    eexists _, _. by apply removeDuplicates_run. }
  rewrite (bind_return _ _ _ _ _ Hrm).
  rewrite (ui_bind_return (lift _) _ _ _ df0) by (by apply lift_run).
  rewrite (ui_bind_return _ _ _ _ _
             (register_new (strategy_id key)
                {| run := w0; notes := notes s;
                   registered := registered s ++ [button_id key] |}
                Hstrategy)).
  unfold lift. cbn [run notes registered].
  destruct (imputeMissing df0 key strategy w0) as [w1 o].
  by rewrite <- app_assoc.
Qed.


(** A select box of the axes that is registered already stops the chart
    block, and the run. *)
Lemma chart_block_duplicate df key cols chart x y s :
  cols ≠ [] →
  chart_id key ∉ registered s →
  x_axis_id cols ∈ registered s →
  chart_block df key cols chart x y s
  = ({| run := run s; notes := notes s;
        registered := registered s ++ [chart_id key] |},
     Raise (duplicate (x_axis_id cols))).
Proof.
  intros Hcols Hc Hx. unfold chart_block.
  rewrite decide_False by done.
  apply ui_bind_raise.
  rewrite (ui_bind_return _ _ _ _ _ (register_new _ _ Hc)).
  apply ui_bind_raise. apply register_duplicate.
  cbn [registered]. apply elem_of_app. by left.
Qed.

Section conversion.
Variable to_csv : DataFrame → exception + list Byte.byte.
Variable to_excel : DataFrame → exception + list Byte.byte.


End conversion.

(** ** The body of the loop *)

Section main.
Context `{pd : installed_pandas}.
Variable to_csv : DataFrame → exception + list Byte.byte.
Variable to_excel : DataFrame → exception + list Byte.byte.
Variable hash : string → string.
Variable ui : string → widgets.

(** The start of the body on a file whose key is in the session: the
    file is not read. *)
Lemma main_file_cached rc re file v s :
  session_state (run s) !! df_key (hash (name file)) = Some v →
  main_file rc re to_csv to_excel hash ui file s
  = match v with
    | None => (s, Return tt)
    | Some df => file_block to_csv to_excel hash ui df file s
    end.
Proof.
  intros Hv. unfold main_file. cbv zeta.
  rewrite (ui_bind_return _ _ _ _ _ (session_state_lacks_cached _ _ _ Hv)).
  rewrite (ui_bind_return (mret tt) _ s s tt) by done.
  rewrite (ui_bind_return _ _ _ _ _ (session_state_get_cached _ _ _ Hv)).
  by destruct v.
Qed.

(** The overview is shown before the cleaning block starts. *)
Lemma file_block_start df file t s :
  heap (run s) !! df = Some t →
  file_block to_csv to_excel hash ui df file s
  = (df' ← cleaning_block df (hash (name file))
             (remove_duplicates_clicked (ui (name file)))
             (missing_strategy_choice (ui (name file)));
     selection_block to_csv to_excel hash ui df' file) (with_overview t s).
Proof.
  intros Hdf. unfold file_block. cbv zeta.
  rewrite (ui_bind_return (show _) _ s _ tt) by done.
  rewrite (ui_bind_return (lift (deref df)) _ _ _ t)
    by (apply lift_run; by apply deref_ok).
  rewrite (ui_bind_return (show _) _ _ _ tt) by done.
  rewrite (ui_bind_return (show _) _ _ _ tt) by done.
  rewrite (ui_bind_return (show _) _ _ _ tt) by done.
  unfold with_overview, overview. cbn [run notes registered fmap list_fmap].
  by rewrite <- !app_assoc.
Qed.

(** The first lines of [main]. *)
Lemma main_opens rc re files s :
  main rc re to_csv to_excel hash ui files s
  = if decide (files = [])
    then show (st_info "👆 Upload files to get started") (opened s)
    else for_each_file files (main_file rc re to_csv to_excel hash ui)
           (opened s).
Proof.
  unfold main.
  rewrite (ui_bind_return new_run _ s _ tt) by done.
  rewrite (ui_bind_return (show _) _ _ _ tt) by done.
  rewrite (ui_bind_return (show _) _ _ _ tt) by done.
  rewrite (ui_bind_return (register _) _ _ (opened s) tt);
    [by case_decide|].
  rewrite register_new by (cbn [registered]; apply not_elem_of_nil).
  unfold opened. cbn [run notes registered]. by rewrite <- app_assoc.
Qed.

End main.



(** X14: Once the key of a file is in the session, the upload is not
    read again: what the page does for a file of that name depends
    neither on the bytes uploaded nor on the parsers. *)
Theorem main_file_cached_ignores_upload `{pd : installed_pandas}
    read_csv read_excel read_csv' read_excel' to_csv to_excel hash ui
    file content' v s :
  session_state (run s) !! df_key (hash (name file)) = Some v →
  main_file read_csv read_excel to_csv to_excel hash ui file s
  = main_file read_csv' read_excel' to_csv to_excel hash ui
      {| name := name file; content := content' |} s.
Proof.
  intros Hv.
  rewrite (main_file_cached to_csv to_excel hash ui read_csv read_excel
             file v s Hv).
  by rewrite (main_file_cached to_csv to_excel hash ui read_csv' read_excel'
                {| name := name file; content := content' |} v s Hv).
Qed.

Lemma main_file_cached_ignores_upload_witness :
  main_file (pd := pandas_3) reads_a_csv reads_a_csv line_feeds line_feeds
    one_key (λ _, untouched) a_file (cached hollow)
  = main_file (pd := pandas_3) fails fails line_feeds line_feeds one_key
      (λ _, untouched)
      {| name := name a_file; content := [Byte.x2c] |} (cached hollow).
Proof.
  apply (main_file_cached_ignores_upload (pd := pandas_3)
           reads_a_csv reads_a_csv fails fails
           line_feeds line_feeds one_key (λ _, untouched) a_file [Byte.x2c]
           (Some 0%nat) (cached hollow)).
  by_evaluation.
Defined.

(** X15: A file that could not be read is kept in the session as [None]:
    the run that reads it shows the error of [process_file] and nothing
    else for it, and every later run shows nothing at all for a file of
    that name, whatever is uploaded under it and whatever the parsers
    would make of it. *)
Theorem main_file_unreadable `{pd : installed_pandas}
    read_csv read_excel to_csv to_excel hash ui file s w' :
  session_state (run s) !! df_key (hash (name file)) = None →
  process_file read_csv read_excel file (run s) = (w', Return None) →
  let s' := {| run := {| heap := heap w';
                         session_state :=
                           <[df_key (hash (name file)) := None]>
                             (session_state w');
                         page := page w' |};
               notes := notes s;
               registered := registered s |} in
  main_file read_csv read_excel to_csv to_excel hash ui file s
  = (s', Return tt)
  ∧ heap w' = heap (run s)
  ∧ (∃ msg, page w' = page (run s) ++ [st_error msg])
  ∧ ∀ read_csv' read_excel' content',
      main_file read_csv' read_excel' to_csv to_excel hash ui
        {| name := name file; content := content' |} s'
      = (s', Return tt).
Proof.
  intros Hnew Hread s'.
  assert (session_state (run s') !! df_key (hash (name file)) = Some None)
    as Hs' by apply lookup_insert_eq.
  split_and!.
  - unfold main_file. cbv zeta.
    rewrite (ui_bind_return _ _ _ _ _ (session_state_lacks_new _ _ Hnew)).
    rewrite (ui_bind_return _ _ s s' tt).
    + by rewrite (ui_bind_return _ _ _ _ _
                    (session_state_get_cached _ _ _ Hs')).
    + by rewrite (ui_bind_return _ _ _ _ _ (lift_run _ _ _ _ Hread)).
  - revert Hread. unfold process_file, try_except, pd_read.
    destruct (endswith (name file) ".csv");
      [destruct (read_csv (content file)); by intros [= <-]|].
    destruct (endswith (name file) ".xlsx");
      [destruct (read_excel (content file))|]; by intros [= <-].
  - revert Hread. unfold process_file, try_except, pd_read.
    destruct (endswith (name file) ".csv");
      [destruct (read_csv (content file)); [|done]; intros [= <-]; eauto|].
    destruct (endswith (name file) ".xlsx");
      [destruct (read_excel (content file)); [|done]|];
      intros [= <-]; eauto.
  - intros rc re content'.
    by rewrite (main_file_cached to_csv to_excel hash ui rc re
                  {| name := name file; content := content' |} None s' Hs').
Qed.

Lemma main_file_unreadable_witness :
  let w' := {| heap := []; session_state := ∅;
               page := [st_error "Unsupported file type: notes.txt"] |} in
  let s' := {| run := {| heap := heap w';
                         session_state :=
                           <[df_key (one_key (name a_text)) := None]>
                             (session_state w');
                         page := page w' |};
               notes := notes first_run;
               registered := registered first_run |} in
  main_file (pd := pandas_3) reads_a_csv reads_a_csv line_feeds line_feeds
    one_key (λ _, untouched) a_text first_run
  = (s', Return tt)
  ∧ heap w' = heap (run first_run)
  ∧ (∃ msg, page w' = page (run first_run) ++ [st_error msg])
  ∧ ∀ read_csv' read_excel' content',
      main_file (pd := pandas_3) read_csv' read_excel' line_feeds
        line_feeds one_key (λ _, untouched)
        {| name := name a_text; content := content' |} s'
      = (s', Return tt).
Proof.
  apply (main_file_unreadable (pd := pandas_3)
           reads_a_csv reads_a_csv line_feeds line_feeds
           one_key (λ _, untouched) a_text first_run
           {| heap := []; session_state := ∅;
              page := [st_error "Unsupported file type: notes.txt"] |}).
  - reflexivity.
  - reflexivity.
Defined.

(** X16: A file whose cached table has a numeric column with no value
    stops the page when 'Mode' is chosen for it: the run ends in the
    [KeyError] of [mode()[0]] inside this file's block.  The overview of
    the file has been shown by then, nothing of its chart or download
    is, and the files after it in the upload list are not looked at: the
    run is the same as if they had not been uploaded. *)
Theorem main_stops_at_mode_crash `{pd : installed_pandas}
    read_csv read_excel to_csv to_excel hash ui file rest s df t :
  session_state (run s) !! df_key (hash (name file)) = Some (Some df) →
  heap (run s) !! df = Some t →
  NoDup (column_names t) →
  (∃ name vs, (name, Numeric vs) ∈ columns t ∧ present vs = []) →
  remove_duplicates_clicked (ui (name file)) = false →
  missing_strategy_choice (ui (name file)) = Mode →
  main read_csv read_excel to_csv to_excel hash ui (file :: rest) s
  = main read_csv read_excel to_csv to_excel hash ui [file] s
  ∧ ∃ s',
      main read_csv read_excel to_csv to_excel hash ui [file] s
      = (s', Raise (KeyError "0"))
      ∧ page (run s') = page (run s)
      ∧ session_state (run s') = session_state (run s)
      ∧ (length (page (run s)), st_metric "Rows" (length (index t)))
        ∈ notes s'.
Proof.
  intros Hkey Hdf Hnd Hhollow Hclick Hmode.
  destruct (imputeMissing_mode_run_raises df (hash (name file)) t (run s)
              Hdf Hnd Hhollow) as [t' Hrun].
  set (s' := {| run := set_heap (<[df := t']> (heap (run s))) (run s);
                notes := notes (with_overview t (opened s));
                registered := [uploader_id; button_id (hash (name file));
                               strategy_id (hash (name file))] |}).
  assert (main_file read_csv read_excel to_csv to_excel hash ui file
            (opened s)
          = (s', Raise (KeyError "0"))) as Hfile.
  { rewrite (main_file_cached to_csv to_excel hash ui read_csv read_excel
               file (Some df) (opened s) Hkey).
    rewrite (file_block_start to_csv to_excel hash ui df file t) by done.
    apply ui_bind_raise.
    rewrite (cleaning_block_run df _ _ _ t)
      by (try done; apply first_file_fresh).
    rewrite Hclick, Hmode.
    unfold handle_data_cleaning, removeDuplicates.
    rewrite (bind_return (mret df) _ _ _ df) by done.
    cbn [run with_overview opened]. by rewrite Hrun. }
  assert (∀ files,
            main read_csv read_excel to_csv to_excel hash ui
              (file :: files) s
            = (s', Raise (KeyError "0"))) as Hmain.
  { intros files. rewrite main_opens, decide_False by done.
    cbn [for_each_file]. by apply ui_bind_raise. }
  split; [by rewrite !Hmain|].
  exists s'. split_and!; [by apply Hmain|done|done|].
  unfold s', with_overview, overview, opened.
  cbn [notes run page fmap list_fmap].
  apply elem_of_app. right.
  apply elem_of_cons. right. apply elem_of_cons. by left.
Qed.

Lemma main_stops_at_mode_crash_witness :
  main (pd := pandas_3) reads_a_csv reads_a_csv line_feeds line_feeds
    one_key (λ _, mode_chosen) [a_file; a_text] (cached hollow)
  = main (pd := pandas_3) reads_a_csv reads_a_csv line_feeds line_feeds
      one_key (λ _, mode_chosen) [a_file] (cached hollow)
  ∧ ∃ s',
      main (pd := pandas_3) reads_a_csv reads_a_csv line_feeds line_feeds
        one_key (λ _, mode_chosen) [a_file] (cached hollow)
      = (s', Raise (KeyError "0"))
      ∧ page (run s') = page (run (cached hollow))
      ∧ session_state (run s') = session_state (run (cached hollow))
      ∧ (length (page (run (cached hollow))),
         st_metric "Rows" (length (index hollow)))
        ∈ notes s'.
Proof.
  apply (main_stops_at_mode_crash (pd := pandas_3)
           reads_a_csv reads_a_csv line_feeds
           line_feeds one_key (λ _, mode_chosen) a_file [a_text]
           (cached hollow) 0%nat hollow).
  - by_evaluation.
  - reflexivity.
  - by_evaluation.
  - exists "y", [NaN; NaN]. split; [|reflexivity]. by_evaluation.
  - reflexivity.
  - reflexivity.
Defined.



(** X19: Two uploads with the same selected columns.  When the block
    of the first file has run to its end, and the second file (another
    key, its table cached) comes out of the cleaning block with the same
    selected columns, not none, the run raises at the second file's
    'X Axis' select box, which has no key and is called with the label
    and the options of the first file's: the second file gets its
    overview, its cleaning and its column selection, but no chart and
    no download, and no later file is looked at. *)
Theorem main_second_file_same_columns `{pd : installed_pandas}
    read_csv read_excel to_csv to_excel hash ui file1 file2 rest s s1
    df t w1 r t1 t2 :
  let choice := ui (name file2) in
  let key := hash (name file2) in
  let selected_cols := default (column_names t1) (columns_choice choice) in
  main read_csv read_excel to_csv to_excel hash ui [file1] s
  = (s1, Return tt) →
  registered s1 = uploader_id :: file_ids (hash (name file1)) selected_cols →
  hash (name file1) ≠ key →
  selected_cols ≠ [] →
  session_state (run s1) !! df_key key = Some (Some df) →
  heap (run s1) !! df = Some t →
  handle_data_cleaning df key
    (remove_duplicates_clicked choice) (missing_strategy_choice choice)
    (run s1)
  = (w1, Return r) →
  heap w1 !! r = Some t1 →
  getitem_list t1 selected_cols = Some t2 →
  ∃ s',
    main read_csv read_excel to_csv to_excel hash ui
      (file1 :: file2 :: rest) s
    = (s', Raise (duplicate (x_axis_id selected_cols)))
    ∧ heap (run s') = heap w1 ++ [t2]
    ∧ session_state (run s') = session_state w1
    ∧ page (run s') = page w1
    ∧ notes s'
      = notes s1 ++ ((λ n, (length (page (run s1)), n)) <$> overview t)
    ∧ registered s'
      = registered s1
        ++ [button_id key; strategy_id key; columns_id key; chart_id key].
Proof.
  intros choice key selected_cols Hfirst Hreg Hkeys Hcols Hkey Hdf Hclean
    Hr Hsel.
  (* the first file *)
  rewrite main_opens in Hfirst. rewrite decide_False in Hfirst by done.
  cbn [for_each_file] in Hfirst.
  assert (main_file read_csv read_excel to_csv to_excel hash ui file1
            (opened s) = (s1, Return tt)) as Hfile1.
  { revert Hfirst. unfold mbind, Ui_bind, ui_bind, mret, Ui_ret, ui_ret.
    destruct (main_file _ _ _ _ _ _ file1 (opened s)) as [s0 [[]|e]];
      by intros [= <-]. }
  (* the elements of the second file up to the chart type *)
  assert (∀ pre id,
            id ∈ [button_id key; strategy_id key; columns_id key;
                  chart_id key] →
            id ∉ pre → id ∉ registered s1 ++ pre) as Hfresh.
  { intros pre id Hid Hpre [Hin|Hin]%elem_of_app; [|done].
    rewrite Hreg in Hin. revert Hin.
    apply (file_ids_apart _ key); [done|].
    rewrite !elem_of_cons in Hid. rewrite !elem_of_cons. tauto. }
  assert (x_axis_id selected_cols ∈ registered s1) as Hx.
  { rewrite Hreg. unfold file_ids, chart_ids.
    rewrite decide_False by done.
    rewrite !elem_of_cons. right. do 4 right. by left. }
  set (s2 := {| run := w1; notes := notes (with_overview t s1);
                registered := registered s1
                              ++ [button_id key; strategy_id key] |}).
  assert (cleaning_block df key (remove_duplicates_clicked choice)
            (missing_strategy_choice choice) (with_overview t s1)
          = (s2, Return r)) as Hcleaning.
  { rewrite (cleaning_block_run df _ _ _ t); [| done |].
    - cbn [run notes registered with_overview]. by rewrite Hclean.
    - intros id Hid. rewrite <- (app_nil_r (registered _)).
      cbn [registered with_overview]. apply Hfresh.
      + rewrite !elem_of_cons in Hid. rewrite !elem_of_cons. tauto.
      + apply not_elem_of_nil. }
  assert (columns_id key ∉ registered s2) as Hcolumns.
  { apply Hfresh; [by do 2 right; left|]. unfold_ids. not_among. }
  set (s3 := {| run := set_heap (heap w1 ++ [t2]) w1; notes := notes s2;
                registered := registered s1
                              ++ [button_id key; strategy_id key;
                                  columns_id key] |}).
  assert (chart_id key ∉ registered s3) as Hchart.
  { apply Hfresh; [by do 3 right; left|]. unfold_ids. not_among. }
  eexists. split.
  - rewrite main_opens. rewrite decide_False by done.
    cbn [for_each_file].
    rewrite (ui_bind_return _ _ _ _ _ Hfile1).
    apply ui_bind_raise.
    rewrite (main_file_cached to_csv to_excel hash ui read_csv read_excel
               file2 (Some df) s1 Hkey).
    rewrite (file_block_start to_csv to_excel hash ui df file2 t) by done.
    fold key choice.
    rewrite (ui_bind_return _ _ _ _ _ Hcleaning).
    unfold selection_block. cbv zeta.
    rewrite (ui_bind_return (lift (deref r)) _ _ _ t1)
      by (apply lift_run; by apply deref_ok).
    rewrite screen_eta.
    rewrite (ui_bind_return _ _ _ _ _ (register_new _ _ Hcolumns)).
    fold key choice. fold selected_cols.
    rewrite (ui_bind_return (lift (project _ _)) _ _ s3 (length (heap w1))).
    + apply ui_bind_raise.
      by apply chart_block_duplicate;
        [|
        |unfold s3; cbn [registered]; apply elem_of_app; left].
    + unfold lift, project. cbn [run notes registered].
      rewrite (getitem_columns_ok r t1 _ t2) by done.
      unfold s3, s2. cbn [run notes registered].
      by rewrite <- app_assoc.
  - unfold s3, s2.
    cbn [run notes registered heap session_state page set_heap
         with_overview].
    split_and!; try done. by rewrite <- app_assoc.
Qed.

Lemma main_second_file_same_columns_witness :
  let s1 := (main (pd := pandas_3) reads_a_csv reads_a_csv line_feeds
               line_feeds own_key (λ _, untouched) [a_file] two_cached).1 in
  let w1 := (handle_data_cleaning (pd := pandas_3) 1%nat
               (own_key (name b_file)) false StrategyNone (run s1)).1 in
  ∃ s',
    main (pd := pandas_3) reads_a_csv reads_a_csv line_feeds line_feeds
      own_key (λ _, untouched) [a_file; b_file; a_text] two_cached
    = (s', Raise (duplicate (x_axis_id ["x"; "y"])))
    ∧ heap (run s') = heap w1 ++ [a_clean]
    ∧ session_state (run s') = session_state w1
    ∧ page (run s') = page w1
    ∧ notes s'
      = notes s1
        ++ ((λ n, (length (page (run s1)), n)) <$> overview a_clean)
    ∧ registered s'
      = registered s1
        ++ [button_id (own_key (name b_file));
            strategy_id (own_key (name b_file));
            columns_id (own_key (name b_file));
            chart_id (own_key (name b_file))].
Proof.
  apply (main_second_file_same_columns (pd := pandas_3)
           reads_a_csv reads_a_csv line_feeds line_feeds own_key
           (λ _, untouched) a_file b_file [a_text] two_cached
           (main (pd := pandas_3) reads_a_csv reads_a_csv line_feeds
              line_feeds own_key (λ _, untouched) [a_file] two_cached).1
           1%nat a_clean
           (handle_data_cleaning (pd := pandas_3) 1%nat
              (own_key (name b_file)) false StrategyNone
              (run (main (pd := pandas_3) reads_a_csv reads_a_csv
                      line_feeds line_feeds own_key (λ _, untouched)
                      [a_file] two_cached).1)).1
           1%nat a_clean a_clean).
  - by_evaluation.
  - by_evaluation.
  - by_evaluation.
  - by_evaluation.
  - by_evaluation.
  - by_evaluation.
  - by_evaluation.
  - by_evaluation.
  - by_evaluation.
Defined.

(** The same in the first run of a session, where both files are read
    and cached in this run. *)
Example second_file_same_columns_first_run :
  let end_of_run :=
    main (pd := pandas_3) reads_a_csv reads_a_csv line_feeds line_feeds
      own_key (λ _, untouched) [a_file; b_file] first_run in
  end_of_run.2 = Raise (Exception "StreamlitDuplicateElementId" "X Axis")
  ∧ session_state (run end_of_run.1)
    = {[ df_key "a.csv" := Some 0%nat; df_key "b.csv" := Some 3%nat ]}.
Proof. split; by_evaluation. Qed.

End MainFacts.
